(** * Konterball scene: match state machine, ball synchronizer and paddle input

    A shallow embedding of [src/javascripts/scene.js] (class [Scene]).

    Conventions of the embedding.
    - The JS object [this] is the record [Scene]; every method is a function
      [Scene -> Scene] that threads the state in the order of the statements
      of the method.
    - JS numbers that hold scores, lives and counters are integers ([Z]).
      Coordinates, velocities, the interpolation alphas, the latency and the
      physics time step are modelled in exact rational arithmetic ([Q]);
      floating-point rounding, NaN and the infinities are outside the model.
    - Calls that only draw, play a sound or update the HUD
      ([hud.*], [sound.*], [haloAnimation], [setTransparency], the trail
      geometry, the camera) have no effect on the modelled fields and are
      left out.  Quaternions are left out as well.
    - An access to the ball while [this.ball] / [this.physics.ball] is still
      [null] raises a TypeError in JS; the embedding skips the statement
      instead.  The theorems that depend on the ball assume it exists or
      show that it has been created. *)

From Stdlib Require Import ZArith QArith Qminmax Qabs List Bool Lia Lqa.
Import ListNotations.

(** ** Constants ([./constants]) *)

(** Modelled from the spec: [MODE] of [./constants] (section 3,
    GameModeConfig: enum SINGLEPLAYER, MULTIPLAYER). *)
Inductive MODE := SINGLEPLAYER | MULTIPLAYER.

(** Modelled from the spec: [STATE] of [./constants] (section 4.1: MENU,
    COUNTDOWN, PLAYING, GAME_OVER).  The scene itself only ever assigns
    COUNTDOWN, PLAYING and GAME_OVER. *)
Inductive STATE := MENU | COUNTDOWN | PLAYING | GAME_OVER.

(** The two events of [EVENT] that the scene emits. *)
Inductive EVENT := EV_GAME_OVER | EV_RESTART_GAME.

Inductive CONTROLMODE := MOUSE | VR.

Definition STATE_eqb (a b : STATE) : bool :=
  match a, b with
  | MENU, MENU | COUNTDOWN, COUNTDOWN | PLAYING, PLAYING
  | GAME_OVER, GAME_OVER => true
  | _, _ => false
  end.

Definition CONTROLMODE_eqb (a b : CONTROLMODE) : bool :=
  match a, b with
  | MOUSE, MOUSE | VR, VR => true
  | _, _ => false
  end.

(** [INITIAL_CONFIG]: the values are not part of the sources, so the record
    is a parameter of every statement.  [mode] and [state] are the two fields
    the scene assigns. *)
Record Config := {
  mode : MODE;
  state : STATE;
  tableDepth : Q;
  tableWidth : Q;
  tableHeight : Q;
  tablePositionZ : Q;
  POINTS_FOR_WIN : Z;
  startLives : Z
}.

Definition with_mode (m : MODE) (c : Config) : Config :=
  {| mode := m; state := state c; tableDepth := tableDepth c;
     tableWidth := tableWidth c; tableHeight := tableHeight c;
     tablePositionZ := tablePositionZ c;
     POINTS_FOR_WIN := POINTS_FOR_WIN c; startLives := startLives c |}.

Definition with_state (st : STATE) (c : Config) : Config :=
  {| mode := mode c; state := st; tableDepth := tableDepth c;
     tableWidth := tableWidth c; tableHeight := tableHeight c;
     tablePositionZ := tablePositionZ c;
     POINTS_FOR_WIN := POINTS_FOR_WIN c; startLives := startLives c |}.

(** ** Vectors (three.js [Vector3], the operations the scene uses) *)

Record Vector3 := { x : Q; y : Q; z : Q }.

Definition Vector3_zero : Vector3 := {| x := 0; y := 0; z := 0 |}.

Definition subVectors (a b : Vector3) : Vector3 :=
  {| x := x a - x b; y := y a - y b; z := z a - z b |}.

Definition addVectors (a b : Vector3) : Vector3 :=
  {| x := x a + x b; y := y a + y b; z := z a + z b |}.

(** [lerpVectors(v1, v2, alpha)] is [v1 + (v2 - v1) * alpha]. *)
Definition lerpVectors (v1 v2 : Vector3) (alpha : Q) : Vector3 :=
  {| x := x v1 + (x v2 - x v1) * alpha;
     y := y v1 + (y v2 - y v1) * alpha;
     z := z v1 + (z v2 - z v1) * alpha |}.

Definition lengthSq (v : Vector3) : Q :=
  x v * x v + y v * y v + z v * z v.

(** Component-wise equality of rationals. *)
Definition Vector3_eq (a b : Vector3) : Prop :=
  x a == x b /\ y a == y b /\ z a == z b.

Definition Qlt_bool (a b : Q) : bool := negb (Qle_bool b a).

(** ** Helpers ([./util/helpers]) *)

(** Modelled from the spec: [cap] of [./util/helpers] is not among the
    sources.  Section 4.3 says positions are "clamped to table bounds" and
    rotations "capped to +-90 degrees"; the scene passes the two bounds in
    either order ([cap(x, tableWidth, -tableWidth)] and
    [cap(-pos.x, -Math.PI / 2, Math.PI / 2)]), so the value is clamped to the
    interval that the two bounds delimit. *)
Definition cap (value cap1 cap2 : Q) : Q :=
  Qmax (Qmin cap1 cap2) (Qmin (Qmax cap1 cap2) value).

(** Modelled from the spec: [mirrorPosition] of [./util/helpers] is not among
    the sources.  Section 4.2: "negate x and z position components about the
    net axis"; section 8: an involution, and scenario 3 maps [(0.5,0,1.2)] with
    [tablePositionZ = 2] to [(-0.5,0,2.8)]: x is negated, z is reflected
    about the axis [z = xAxis]. *)
Definition mirrorPosition (pos : Vector3) (xAxis : Q) : Vector3 :=
  {| x := - x pos; y := y pos; z := z pos - (z pos - xAxis) * 2 |}.

(** Modelled from the spec: [mirrorVelocity] of [./util/helpers] is not among
    the sources.  Section 4.2: "invert the corresponding velocity
    components" (x and z). *)
Definition mirrorVelocity (vel : Vector3) : Vector3 :=
  {| x := - x vel; y := y vel; z := - z vel |}.

(** ** The scheduler ([./util/time]) *)

(** A pending interval: its handle and the variable [n] captured by the
    callback that [countdown] registers (the only interval callback of the
    scene). *)
Record Interval := { handle : nat; countdown_n : Z }.

(** Modelled from the spec: the class [Time] of [./util/time] is not among
    the sources.  Sections 2 and 5: a scheduler that "provides cancellable
    timers".  A handle is a fresh number; [timeouts] and [intervals] are the
    pending ones.  [setTimeout] and [setInterval] add one, [clearTimeout] and
    [clearInterval] remove the one with the given handle ([null] or a handle
    that is no longer pending: nothing happens).  The only timeout callback
    the scene registers is [resetTimeoutEnded], so a pending timeout is just
    its handle.  Delays are not modelled: when a pending timer fires is up to
    the environment. *)
Record Time := {
  nextHandle : nat;
  timeouts : list nat;
  intervals : list Interval
}.

Definition Time_new : Time :=
  {| nextHandle := 0; timeouts := []; intervals := [] |}.

Definition setTimeout (t : Time) : nat * Time :=
  (nextHandle t,
   {| nextHandle := S (nextHandle t);
      timeouts := timeouts t ++ [nextHandle t];
      intervals := intervals t |}).

Definition clearTimeout (h : option nat) (t : Time) : Time :=
  match h with
  | None => t
  | Some k =>
      {| nextHandle := nextHandle t;
         timeouts := filter (fun j => negb (Nat.eqb j k)) (timeouts t);
         intervals := intervals t |}
  end.

Definition setInterval (n : Z) (t : Time) : nat * Time :=
  (nextHandle t,
   {| nextHandle := S (nextHandle t);
      timeouts := timeouts t;
      intervals := intervals t
                   ++ [{| handle := nextHandle t; countdown_n := n |}] |}).

Definition clearInterval (h : nat) (t : Time) : Time :=
  {| nextHandle := nextHandle t;
     timeouts := timeouts t;
     intervals := filter (fun i => negb (Nat.eqb (handle i) h)) (intervals t) |}.

(** The callback of interval [h] assigns its captured variable. *)
Definition assign_n (h : nat) (n : Z) (t : Time) : Time :=
  {| nextHandle := nextHandle t;
     timeouts := timeouts t;
     intervals :=
       map (fun i => if Nat.eqb (handle i) h
                     then {| handle := h; countdown_n := n |} else i)
           (intervals t) |}.

Definition pendingInterval (h : nat) (t : Time) : option Interval :=
  find (fun i => Nat.eqb (handle i) h) (intervals t).

Definition pendingTimeout (h : nat) (t : Time) : bool :=
  existsb (Nat.eqb h) (timeouts t).

(** ** The gsap tween of [ballInterpolationAlpha] *)

(** [TweenMax.to(this, 0.5, {ease: Power0.easeNone, ballInterpolationAlpha: 0})]:
    gsap is a library outside the repository.  A tween records the time
    elapsed since it was started, its duration (both in seconds) and the
    values it runs between; with the linear ease [Power0.easeNone] the value
    after [e] seconds is [startValue + (endValue - startValue) * (e / duration)],
    and the end value once [duration] has elapsed. *)
Record Tween := {
  elapsed : Q;
  duration : Q;
  startValue : Q;
  endValue : Q
}.

Definition TweenMax_to (current : Q) (seconds : Q) (target : Q) : Tween :=
  {| elapsed := 0; duration := seconds;
     startValue := current; endValue := target |}.

(** ** Score, bodies, meshes, messages *)

Record Score := { self : Z; opponent : Z; lives : Z; highest : Z }.

(** A rigid body of the physics world. *)
Record Body := {
  position : Vector3;
  velocity : Vector3;
  angularVelocity : Vector3
}.

(** The visual ball entity ([this.ball]). *)
Record Mesh := { visible : bool; mesh_position : Vector3 }.

(** The payload of a received Hit or Miss message.  A Hit carries [point] and
    [velocity]; a Miss carries in addition the fault flag and [isInit]
    (both [undefined], hence falsy, on a Hit). *)
Record Data := {
  point : Vector3;
  data_velocity : Vector3;
  data_ballHasHitEnemyTable : bool;
  isInit : bool
}.

Inductive Message :=
| MsgHit (point velocity : Vector3)
| MsgMiss (position velocity : Vector3) (ballHasHitEnemyTable isInit : bool)
| MsgRestartGame
| MsgRequestCountdown.

(** [this.communication]: the role flag, the latency estimate (ms) and the
    messages sent so far. *)
Record Communication := {
  isHost : bool;
  latency : Q;
  sent : list Message
}.

(** [this.physics]: the speed factor and the ball body ([null] until
    [addBall]). *)
Record Physics := { speed : Q; physics_ball : option Body }.

(** External collaborators whose code is not part of the scene: the parts of
    the physics world the scene calls ([./physics]), the ball model
    ([./models/ball]) and [Math.sqrt]. *)
Class Collaborators := {
  Math_sqrt : Q -> Q;
  (** [Util.isMobile()] *)
  isMobile : bool;
  (** the mesh built by [new Ball(scene, config)] *)
  Ball_new : Mesh;
  (** the speed factor of a new physics world *)
  physics_initialSpeed : Q;
  (** the body created by [physics.addBall()] *)
  physics_addBall : Body;
  (** [physics.initBallPosition()]: the ball is served again *)
  physics_initBallPosition : Body -> Body;
  (** [physics.increaseSpeed()] *)
  physics_increaseSpeed : Q -> Q;
  (** [physics.onBallPaddleCollision({body, target})]: collision response *)
  physics_onBallPaddleCollision : Body -> Vector3 -> Body
}.

(** [Vector3.length()]. *)
Definition Vector3_length `{Collaborators} (v : Vector3) : Q :=
  Math_sqrt (lengthSq v).

(** ** The scene *)

(** The fields of [this] that the modelled methods read or write.
    [hitTween] is [true] while [this.hitTween && this.hitTween.isActive()];
    [display], [controllerVisible] and [managerModeVR] stand for
    [this.display] being set, one of the two controllers being visible and
    [this.manager.mode === VR_MODES.VR]. *)
#[projections(primitive)]
Record Scene := {
  config : Config;
  score : Score;
  time : Time;
  physics : Physics;
  communication : Communication;
  emitted : list EVENT;
  ball : option Mesh;
  paddle_position : Vector3;
  paddleOpponent_position : Vector3;
  crosshair_visible : bool;
  physicsTimeStep : Q;
  resetBallTimeout : option nat;
  ballHasHitEnemyTable : bool;
  playerRequestedRestart : bool;
  opponentRequestedRestart : bool;
  playerRequestedCountdown : bool;
  opponentRequestedCountdown : bool;
  ballInterpolationAlpha : Q;
  ballPositionDifference : option Vector3;
  alphaTween : option Tween;
  lastHitPosition : option Vector3;
  paddleInterpolationAlpha : Q;
  ghostPaddlePosition : Vector3;
  hitAvailable : bool;
  hitTween : bool;
  display : bool;
  controlMode : CONTROLMODE;
  controllerVisible : bool;
  managerModeVR : bool;
  pointerIsLocked : bool;
  mouseMoveSinceLastFrame : Q * Q;
  mousePosition : Q * Q
}.

(** Field assignment.  [Scene_eta s] rebuilds [s] from its fields; the setter
    of a field is obtained by abstracting that field in it. *)
Definition Scene_eta (s : Scene) : Scene :=
  Build_Scene (config s) (score s) (time s) (physics s) (communication s)
    (emitted s) (ball s) (paddle_position s) (paddleOpponent_position s)
    (crosshair_visible s) (physicsTimeStep s) (resetBallTimeout s)
    (ballHasHitEnemyTable s) (playerRequestedRestart s)
    (opponentRequestedRestart s) (playerRequestedCountdown s)
    (opponentRequestedCountdown s) (ballInterpolationAlpha s)
    (ballPositionDifference s) (alphaTween s) (lastHitPosition s)
    (paddleInterpolationAlpha s) (ghostPaddlePosition s) (hitAvailable s)
    (hitTween s) (display s) (controlMode s) (controllerVisible s)
    (managerModeVR s) (pointerIsLocked s) (mouseMoveSinceLastFrame s)
    (mousePosition s).

Ltac assign field :=
  let v := fresh "v" in
  let s := fresh "s" in
  intros v s;
  let body := eval cbv beta delta [Scene_eta] in (Scene_eta s) in
  match eval pattern (field s) in body with
  | ?f _ => let r := eval cbv beta in (f v) in exact r
  end.

Definition set_config : Config -> Scene -> Scene.
Proof. assign config. Defined.
Definition set_score : Score -> Scene -> Scene.
Proof. assign score. Defined.
Definition set_time : Time -> Scene -> Scene.
Proof. assign time. Defined.
Definition set_physics : Physics -> Scene -> Scene.
Proof. assign physics. Defined.
Definition set_communication : Communication -> Scene -> Scene.
Proof. assign communication. Defined.
Definition set_emitted : list EVENT -> Scene -> Scene.
Proof. assign emitted. Defined.
Definition set_ball : option Mesh -> Scene -> Scene.
Proof. assign ball. Defined.
Definition set_paddle_position : Vector3 -> Scene -> Scene.
Proof. assign paddle_position. Defined.
Definition set_paddleOpponent_position : Vector3 -> Scene -> Scene.
Proof. assign paddleOpponent_position. Defined.
Definition set_crosshair_visible : bool -> Scene -> Scene.
Proof. assign crosshair_visible. Defined.
Definition set_physicsTimeStep : Q -> Scene -> Scene.
Proof. assign physicsTimeStep. Defined.
Definition set_resetBallTimeout : option nat -> Scene -> Scene.
Proof. assign resetBallTimeout. Defined.
Definition set_ballHasHitEnemyTable : bool -> Scene -> Scene.
Proof. assign ballHasHitEnemyTable. Defined.
Definition set_playerRequestedRestart : bool -> Scene -> Scene.
Proof. assign playerRequestedRestart. Defined.
Definition set_opponentRequestedRestart : bool -> Scene -> Scene.
Proof. assign opponentRequestedRestart. Defined.
Definition set_playerRequestedCountdown : bool -> Scene -> Scene.
Proof. assign playerRequestedCountdown. Defined.
Definition set_opponentRequestedCountdown : bool -> Scene -> Scene.
Proof. assign opponentRequestedCountdown. Defined.
Definition set_ballInterpolationAlpha : Q -> Scene -> Scene.
Proof. assign ballInterpolationAlpha. Defined.
Definition set_ballPositionDifference : option Vector3 -> Scene -> Scene.
Proof. assign ballPositionDifference. Defined.
Definition set_alphaTween : option Tween -> Scene -> Scene.
Proof. assign alphaTween. Defined.
Definition set_lastHitPosition : option Vector3 -> Scene -> Scene.
Proof. assign lastHitPosition. Defined.
Definition set_paddleInterpolationAlpha : Q -> Scene -> Scene.
Proof. assign paddleInterpolationAlpha. Defined.
Definition set_ghostPaddlePosition : Vector3 -> Scene -> Scene.
Proof. assign ghostPaddlePosition. Defined.
Definition set_hitAvailable : bool -> Scene -> Scene.
Proof. assign hitAvailable. Defined.
Definition set_hitTween : bool -> Scene -> Scene.
Proof. assign hitTween. Defined.
Definition set_display : bool -> Scene -> Scene.
Proof. assign display. Defined.
Definition set_controlMode : CONTROLMODE -> Scene -> Scene.
Proof. assign controlMode. Defined.
Definition set_controllerVisible : bool -> Scene -> Scene.
Proof. assign controllerVisible. Defined.
Definition set_managerModeVR : bool -> Scene -> Scene.
Proof. assign managerModeVR. Defined.
Definition set_pointerIsLocked : bool -> Scene -> Scene.
Proof. assign pointerIsLocked. Defined.
Definition set_mouseMoveSinceLastFrame : Q * Q -> Scene -> Scene.
Proof. assign mouseMoveSinceLastFrame. Defined.
Definition set_mousePosition : Q * Q -> Scene -> Scene.
Proof. assign mousePosition. Defined.

Definition with_speed (v : Q) (p : Physics) : Physics :=
  {| speed := v; physics_ball := physics_ball p |}.

Definition with_physics_ball (b : option Body) (p : Physics) : Physics :=
  {| speed := speed p; physics_ball := b |}.

Definition with_position (v : Vector3) (b : Body) : Body :=
  {| position := v; velocity := velocity b;
     angularVelocity := angularVelocity b |}.

Definition with_velocity (v : Vector3) (b : Body) : Body :=
  {| position := position b; velocity := v;
     angularVelocity := angularVelocity b |}.

Definition with_angularVelocity (v : Vector3) (b : Body) : Body :=
  {| position := position b; velocity := velocity b;
     angularVelocity := v |}.

Definition with_visible (v : bool) (m : Mesh) : Mesh :=
  {| visible := v; mesh_position := mesh_position m |}.

Definition with_mesh_position (v : Vector3) (m : Mesh) : Mesh :=
  {| visible := visible m; mesh_position := v |}.

Definition with_self (v : Z) (sc : Score) : Score :=
  {| self := v; opponent := opponent sc; lives := lives sc;
     highest := highest sc |}.

Definition with_opponent (v : Z) (sc : Score) : Score :=
  {| self := self sc; opponent := v; lives := lives sc;
     highest := highest sc |}.

Definition with_lives (v : Z) (sc : Score) : Score :=
  {| self := self sc; opponent := opponent sc; lives := v;
     highest := highest sc |}.

Definition with_highest (v : Z) (sc : Score) : Score :=
  {| self := self sc; opponent := opponent sc; lives := lives sc;
     highest := v |}.

(** [this.communication.send...]: the message is appended to [sent]. *)
Definition send (m : Message) (s : Scene) : Scene :=
  set_communication
    {| isHost := isHost (communication s);
       latency := latency (communication s);
       sent := sent (communication s) ++ [m] |} s.

(** [sendMiss] with the position and velocity of the physics ball. *)
Definition sendMiss_ball (flag init : bool) (s : Scene) : Scene :=
  match physics_ball (physics s) with
  | Some b => send (MsgMiss (position b) (velocity b) flag init) s
  | None => s
  end.

(** ** The constructor *)

Definition Scene_new `{Collaborators} (cfg : Config) (host : bool) (lat : Q)
  : Scene :=
  {| config := cfg;
     score := {| self := 0; opponent := 0; lives := startLives cfg;
                 highest := 0 |};
     time := Time_new;
     physics := {| speed := physics_initialSpeed; physics_ball := None |};
     communication := {| isHost := host; latency := lat; sent := [] |};
     emitted := [];
     ball := None;
     paddle_position := Vector3_zero;
     paddleOpponent_position := Vector3_zero;
     crosshair_visible := false;
     physicsTimeStep := 1000;
     resetBallTimeout := None;
     ballHasHitEnemyTable := false;
     playerRequestedRestart := false;
     opponentRequestedRestart := false;
     playerRequestedCountdown := false;
     opponentRequestedCountdown := false;
     ballInterpolationAlpha := 0;
     ballPositionDifference := None;
     alphaTween := None;
     lastHitPosition := None;
     paddleInterpolationAlpha := 0;
     ghostPaddlePosition := Vector3_zero;
     hitAvailable := true;
     hitTween := false;
     display := false;
     controlMode := MOUSE;
     controllerVisible := false;
     managerModeVR := false;
     pointerIsLocked := false;
     mouseMoveSinceLastFrame := (0, 0);
     mousePosition := (0, 0) |}.

(** ** Match state machine and ball synchronizer *)

Section Methods.
Context `{Collaborators}.

Definition onBallTableCollision (bodyPosition : Vector3)
    (targetIsTable2Player : bool) (s : Scene) : Scene :=
  if targetIsTable2Player
     && Qlt_bool (z bodyPosition) (tablePositionZ (config s))
  then set_ballHasHitEnemyTable true s
  else s.

Definition onGameOver (s : Scene) : Scene :=
  let s := set_ball (option_map (with_visible false) (ball s)) s in
  let s := set_config (with_state GAME_OVER (config s)) s in
  let s := set_time (clearTimeout (resetBallTimeout s) (time s)) s in
  set_crosshair_visible true s.

(** [this.emitter.emit(EVENT.GAME_OVER, ...)]: the event is recorded and the
    listener that [setupEventListeners] registered, [onGameOver], runs. *)
Definition emit_GAME_OVER (s : Scene) : Scene :=
  onGameOver (set_emitted (emitted s ++ [EV_GAME_OVER]) s).

(** [this.emitter.emit(EVENT.RESTART_GAME, this.score)]: the scene has no
    listener of its own for it. *)
Definition emit_RESTART_GAME (s : Scene) : Scene :=
  set_emitted (emitted s ++ [EV_RESTART_GAME]) s.

Definition restartPingpongTimeout (s : Scene) : Scene :=
  let s := set_time (clearTimeout (resetBallTimeout s) (time s)) s in
  if STATE_eqb (state (config s)) GAME_OVER then s
  else
    let (h, t) := setTimeout (time s) in
    set_resetBallTimeout (Some h) (set_time t s).

(** [this.physics.initBallPosition()]. *)
Definition initBallPosition (s : Scene) : Scene :=
  set_physics
    (with_physics_ball
       (option_map physics_initBallPosition (physics_ball (physics s)))
       (physics s)) s.

Definition addBall (s : Scene) : Scene :=
  let s := set_config (with_state PLAYING (config s)) s in
  match ball s with
  | Some m =>
      let s := set_ball (Some (with_visible true m)) s in
      let s := initBallPosition s in
      restartPingpongTimeout s
  | None =>
      let s := set_ball (Some Ball_new) s in
      let s := set_physics
                 (with_physics_ball (Some physics_addBall) (physics s)) s in
      restartPingpongTimeout s
  end.

Definition slowdownBall (s : Scene) : Scene :=
  match physics_ball (physics s), ball s with
  | Some b, Some m =>
      if Qlt_bool 0 (z (velocity b)) then s
      else
        let velocity := Vector3_length (velocity b) in
        let dist :=
          Vector3_length
            (subVectors (mesh_position m) (paddleOpponent_position s)) in
        let eta := dist / velocity in
        let desirableEta := eta + latency (communication s) / 1000 in
        set_physicsTimeStep (1000 * (desirableEta / eta) * 1) s
  | _, _ => s
  end.

Definition ballHitAnimation (s : Scene) : Scene :=
  if negb (hitTween s) && hitAvailable s then
    let s := set_hitAvailable false s in
    let s := set_hitTween true s in
    match ball s with
    | Some m =>
        let p := mesh_position m in
        set_lastHitPosition
          (Some {| x := x p;
                   y := Qmax (y p) (tableHeight (config s) + 0.2);
                   z := z p |}) s
    | None => s
    end
  else s.

Definition onBallPaddleCollision (point : Vector3) (s : Scene) : Scene :=
  if hitTween s then s
  else
    let s :=
      set_physics
        (with_physics_ball
           (option_map
              (fun b => physics_onBallPaddleCollision b (paddle_position s))
              (physics_ball (physics s)))
           (physics s)) s in
    let s := ballHitAnimation s in
    let s := set_ballPositionDifference None s in
    let s := restartPingpongTimeout s in
    let s := set_ballHasHitEnemyTable false s in
    match mode (config s) with
    | SINGLEPLAYER =>
        set_score (with_self (self (score s) + 1) (score s)) s
    | MULTIPLAYER =>
        let s := slowdownBall s in
        match physics_ball (physics s) with
        | Some b => send (MsgHit point (velocity b)) s
        | None => s
        end
    end.

Definition resetTimeoutEnded (s : Scene) : Scene :=
  let s :=
    match mode (config s) with
    | MULTIPLAYER =>
        let s := set_physicsTimeStep 1000 s in
        let s :=
          if ballHasHitEnemyTable s
          then set_score (with_self (self (score s) + 1) (score s)) s
          else set_score (with_opponent (opponent (score s) + 1) (score s)) s
        in
        let s :=
          if (POINTS_FOR_WIN (config s) <=? opponent (score s))%Z
             || (POINTS_FOR_WIN (config s) <=? self (score s))%Z
          then emit_GAME_OVER s
          else initBallPosition s in
        let s := sendMiss_ball (ballHasHitEnemyTable s) false s in
        set_ballHasHitEnemyTable false s
    | SINGLEPLAYER =>
        let s :=
          set_score
            (with_highest (Z.max (self (score s)) (highest (score s)))
               (score s)) s in
        let s := set_score (with_self 0 (score s)) s in
        let s := initBallPosition s in
        let s := set_score (with_lives (lives (score s) - 1) (score s)) s in
        if (lives (score s) <? 1)%Z then emit_GAME_OVER s else s
    end in
  restartPingpongTimeout s.

Definition countdown (s : Scene) : Scene :=
  let s := set_config (with_state COUNTDOWN (config s)) s in
  let (_, t) := setInterval 2 (time s) in
  set_time t s.

(** The callback that [countdown] passes to [setInterval]; [h] is the handle
    held by its variable [countdown] and [n] the current value of its
    variable [n]. *)
Definition countdown_callback (h : nat) (n : Z) (s : Scene) : Scene :=
  let n := (n - 1)%Z in
  let s := set_time (assign_n h n (time s)) s in
  if (n <? 0)%Z then
    let s := set_time (clearInterval h (time s)) s in
    match mode (config s) with
    | SINGLEPLAYER =>
        let s := addBall s in
        initBallPosition s
    | MULTIPLAYER =>
        if negb (isHost (communication s)) then
          let s := addBall s in
          sendMiss_ball true true s
        else s
    end
  else s.

Definition requestCountdown (s : Scene) : Scene :=
  if playerRequestedCountdown s && opponentRequestedCountdown s
  then countdown s
  else s.

Definition resetScore (s : Scene) : Scene :=
  let s := set_score (with_self 0 (score s)) s in
  let s := set_score (with_opponent 0 (score s)) s in
  let s := set_score (with_highest 0 (score s)) s in
  set_score (with_lives (startLives (config s)) (score s)) s.

Definition restartGame (s : Scene) : Scene :=
  let s := set_crosshair_visible false s in
  let s := set_physics (with_speed 1 (physics s)) s in
  let s := resetScore s in
  match mode (config s) with
  | SINGLEPLAYER =>
      let s := countdown s in
      emit_RESTART_GAME s
  | MULTIPLAYER =>
      if opponentRequestedRestart s && playerRequestedRestart s then
        let s := emit_RESTART_GAME s in
        let s := set_playerRequestedRestart false s in
        let s := set_opponentRequestedRestart false s in
        countdown s
      else s
  end.

Definition onRestartButtonPressed (s : Scene) : Scene :=
  let s :=
    match mode (config s) with
    | MULTIPLAYER =>
        let s := set_playerRequestedRestart true s in
        send MsgRestartGame s
    | SINGLEPLAYER => s
    end in
  restartGame s.

Definition onReceivedRestartGame (s : Scene) : Scene :=
  let s := set_opponentRequestedRestart true s in
  restartGame s.

Definition onReceivedRequestCountdown (s : Scene) : Scene :=
  let s := set_opponentRequestedCountdown true s in
  requestCountdown s.

(** The continuation of [startGame] once the intro animation has resolved. *)
Definition startGame (s : Scene) : Scene :=
  match mode (config s) with
  | SINGLEPLAYER => countdown s
  | MULTIPLAYER =>
      let s := set_playerRequestedCountdown true s in
      let s := send MsgRequestCountdown s in
      requestCountdown s
  end.

Definition setMultiplayer (s : Scene) : Scene :=
  set_config (with_mode MULTIPLAYER (config s)) s.

Definition setSingleplayer (s : Scene) : Scene :=
  set_config (with_mode SINGLEPLAYER (config s)) s.

Definition onReceivedHit (data : Data) (wasMiss : bool) (s : Scene) : Scene :=
  let s := set_time (clearTimeout (resetBallTimeout s) (time s)) s in
  let s := match ball s with
           | None => addBall s
           | Some _ => s
           end in
  let s :=
    if negb wasMiss then
      let s :=
        match physics_ball (physics s) with
        | Some b =>
            set_ballPositionDifference
              (Some (subVectors (position b)
                       (mirrorPosition (point data)
                          (tablePositionZ (config s))))) s
        | None => s
        end in
      let s := set_ballInterpolationAlpha 1 s in
      let s :=
        set_alphaTween
          (Some (TweenMax_to (ballInterpolationAlpha s) 0.5 0)) s in
      set_physics
        (with_speed (physics_increaseSpeed (speed (physics s))) (physics s)) s
    else s in
  let s := set_physicsTimeStep 1000 s in
  let s :=
    set_physics
      (with_physics_ball
         (option_map
            (with_position
               (mirrorPosition (point data) (tablePositionZ (config s))))
            (physics_ball (physics s)))
         (physics s)) s in
  set_physics
    (with_physics_ball
       (option_map (with_velocity (mirrorVelocity (data_velocity data)))
          (physics_ball (physics s)))
       (physics s)) s.

Definition onReceivedMiss (data : Data) (s : Scene) : Scene :=
  let s := set_physics (with_speed 1 (physics s)) s in
  let s := set_ballPositionDifference None s in
  let s := set_time (clearTimeout (resetBallTimeout s) (time s)) s in
  let s :=
    if negb (isInit data) then
      if data_ballHasHitEnemyTable data
      then set_score (with_opponent (opponent (score s) + 1) (score s)) s
      else set_score (with_self (self (score s) + 1) (score s)) s
    else addBall s in
  if (POINTS_FOR_WIN (config s) <=? self (score s))%Z
     || (POINTS_FOR_WIN (config s) <=? opponent (score s))%Z
  then emit_GAME_OVER s
  else
    let s :=
      set_physics
        (with_physics_ball
           (option_map (with_angularVelocity Vector3_zero)
              (physics_ball (physics s)))
           (physics s)) s in
    let s := onReceivedHit data true s in
    set_config (with_state PLAYING (config s)) s.

Definition updateBall (s : Scene) : Scene :=
  match ball s, physics_ball (physics s) with
  | Some m, Some b =>
      match ballPositionDifference s with
      | Some d =>
          let fauxPosition :=
            lerpVectors (position b) (addVectors (position b) d)
              (ballInterpolationAlpha s) in
          set_ball (Some (with_mesh_position fauxPosition m)) s
      | None => set_ball (Some (with_mesh_position (position b) m)) s
      end
  | _, _ => s
  end.

End Methods.

(** The gsap ticker advances the tween of [ballInterpolationAlpha] by [ms]
    milliseconds and writes the eased value into the field. *)
Definition tweenTick (ms : Q) (s : Scene) : Scene :=
  match alphaTween s with
  | None => s
  | Some tw =>
      let e := elapsed tw + ms / 1000 in
      if Qle_bool (duration tw) e then
        let s := set_ballInterpolationAlpha (endValue tw) s in
        set_alphaTween None s
      else
        let s :=
          set_ballInterpolationAlpha
            (startValue tw
             + (endValue tw - startValue tw) * (e / duration tw)) s in
        set_alphaTween
          (Some {| elapsed := e; duration := duration tw;
                   startValue := startValue tw;
                   endValue := endValue tw |}) s
  end.

(** The hit timeline writes [paddleInterpolationAlpha] while it is active
    (0 to 1 in 0.05s, back to 0 in 0.4s); the eased value is an input. *)
Definition hitTweenUpdate (a : Q) (s : Scene) : Scene :=
  if hitTween s && Qle_bool 0 a && Qle_bool a 1
  then set_paddleInterpolationAlpha a s
  else s.

(** The timeline completes: [onComplete] makes the hit available again. *)
Definition hitTweenComplete (s : Scene) : Scene :=
  if hitTween s then
    let s := set_paddleInterpolationAlpha 0 s in
    let s := set_hitTween false s in
    set_hitAvailable true s
  else s.

(** ** Paddle and input controller *)

(** [e.offsetX / viewport.width] and [e.offsetY / viewport.height] are passed
    as [relX] and [relY]. *)
Definition onMouseMove (movementX movementY relX relY : Q) (s : Scene)
  : Scene :=
  if pointerIsLocked s then
    set_mouseMoveSinceLastFrame
      (fst (mouseMoveSinceLastFrame s) + movementX,
       snd (mouseMoveSinceLastFrame s) + movementY) s
  else
    set_mousePosition (relX - 0.5, - (relY - 0.5)) s.

Definition onPointerLockChange (locked : bool) (s : Scene) : Scene :=
  set_pointerIsLocked locked s.

(** [intersects] is what [raycaster.intersectObject(tablePlane, false)]
    returns for the ray of this frame (the intersection points, nearest
    first). *)
Definition computePaddlePosition (intersects : list Vector3) (s : Scene)
  : Vector3 :=
  let paddlePosition : option Vector3 :=
    if display s && CONTROLMODE_eqb (controlMode s) VR then
      let intersects :=
        if controllerVisible s then intersects
        else
          match intersects with
          | p :: rest => {| x := x p * 1.5; y := y p; z := z p |} :: rest
          | [] => []
          end in
      match intersects with
      | p :: _ => Some p
      | [] => None
      end
    else if pointerIsLocked s then
      Some {| x := x (ghostPaddlePosition s)
                   + 0.0015 * fst (mouseMoveSinceLastFrame s);
              y := tableHeight (config s) + 0.24;
              z := z (ghostPaddlePosition s)
                   + 0.0015 * snd (mouseMoveSinceLastFrame s) |}
    else
      Some {| x := 1.4 * fst (mousePosition s) * tableWidth (config s);
              y := tableHeight (config s) + 0.24;
              z := - tableDepth (config s) * 0.5
                   * (snd (mousePosition s) + 0.5) |} in
  match paddlePosition with
  | Some p =>
      let x := cap (x p) (tableWidth (config s)) (- tableWidth (config s)) in
      let z := cap (z p) (tablePositionZ (config s) + 0.5) 0 in
      let y := if Qeq_bool (y p) 0
               then tableHeight (config s) + 0.1 - z * 0.2
               else y p in
      {| x := x; y := y; z := z |}
  | None => paddle_position s
  end.

Definition updateControls (intersects : list Vector3) (s : Scene) : Scene :=
  let pos := computePaddlePosition intersects s in
  let s := set_ghostPaddlePosition pos s in
  if hitTween s then
    match lastHitPosition s with
    | Some l =>
        set_paddle_position
          (lerpVectors pos l (paddleInterpolationAlpha s)) s
    | None => s
    end
  else set_paddle_position pos s.

(** The end of [setup]: the paddle is placed where the controls point. *)
Definition setup (s : Scene) : Scene :=
  let p := computePaddlePosition [] s in
  let s := set_paddle_position p s in
  set_ghostPaddlePosition (paddle_position s) s.

(** ** The scene as a transition system *)

(** What can happen to a scene: a call from the application, a received
    message, a timer that fires, a frame of [animate]. *)
Inductive Input :=
| SetMultiplayer
| SetSingleplayer
| StartGame
| RestartButtonPressed
| ReceivedRestartGame
| ReceivedRequestCountdown
| ReceivedMove (position : Vector3)
| ReceivedHit (data : Data)
| ReceivedMiss (data : Data)
| LatencyEstimate (ms : Q)
| BallPaddleCollision
| BallTableCollision (bodyPosition : Vector3) (targetIsTable2Player : bool)
| TimeoutElapsed (h : nat)
| IntervalElapsed (h : nat)
| TweenTick (ms : Q)
| HitTweenUpdate (a : Q)
| HitTweenComplete
| MouseMove (movementX movementY relX relY : Q)
| PointerLockChange (locked : bool)
| VRChange (display : bool) (controlMode : CONTROLMODE)
    (controllerVisible managerModeVR : bool)
| UpdateControls (intersects : list Vector3)
| PhysicsStep (b : Body).

Section Step.
Context `{Collaborators}.

(** [time.step()] runs a pending timeout: it is no longer pending and its
    callback, [resetTimeoutEnded], runs. *)
Definition timeoutElapsed (h : nat) (s : Scene) : Scene :=
  if pendingTimeout h (time s) then
    resetTimeoutEnded (set_time (clearTimeout (Some h) (time s)) s)
  else s.

(** [time.step()] runs a pending interval: its callback runs. *)
Definition intervalElapsed (h : nat) (s : Scene) : Scene :=
  match pendingInterval h (time s) with
  | Some i => countdown_callback h (countdown_n i) s
  | None => s
  end.

(** The test of [animate] for a hit of the ball by the paddle. *)
Definition ballReachesPaddle (s : Scene) : bool :=
  match ball s, physics_ball (physics s) with
  | Some m, Some b =>
      let dist := subVectors (mesh_position m) (paddle_position s) in
      (Qlt_bool (Vector3_length dist) 0.4
       && Qlt_bool (Qabs (x dist)) 0.2
       && Qlt_bool (Qabs (z dist)) 0.1
       || isMobile && Qlt_bool (Vector3_length dist) 0.8
          && Qlt_bool (Qabs (x dist)) 0.3
          && Qlt_bool (Qabs (z dist)) 0.1)
      && Qlt_bool 0 (z (velocity b))
  | _, _ => false
  end.

Definition step (i : Input) (s : Scene) : Scene :=
  match i with
  | SetMultiplayer => setMultiplayer s
  | SetSingleplayer => setSingleplayer s
  | StartGame => startGame s
  | RestartButtonPressed => onRestartButtonPressed s
  | ReceivedRestartGame => onReceivedRestartGame s
  | ReceivedRequestCountdown => onReceivedRequestCountdown s
  | ReceivedMove p =>
      (* onReceivedMove: the opponent paddle is tweened (0.14s) to the
         mirrored position, shown 0.1 behind it; the end of the tween is
         assigned at once *)
      let pos := mirrorPosition p (tablePositionZ (config s)) in
      set_paddleOpponent_position
        {| x := x pos; y := y pos; z := z pos - 0.1 |} s
  | ReceivedHit data => onReceivedHit data false s
  | ReceivedMiss data => onReceivedMiss data s
  | LatencyEstimate ms =>
      set_communication
        {| isHost := isHost (communication s); latency := ms;
           sent := sent (communication s) |} s
  | BallPaddleCollision =>
      (* animate(): the ball exists and is within reach of the paddle *)
      match ball s with
      | Some m =>
          if ballReachesPaddle s
          then onBallPaddleCollision (mesh_position m) s
          else s
      | None => s
      end
  | BallTableCollision p t => onBallTableCollision p t s
  | TimeoutElapsed h => timeoutElapsed h s
  | IntervalElapsed h => intervalElapsed h s
  | TweenTick ms => if Qlt_bool 0 ms then tweenTick ms s else s
  | HitTweenUpdate a => hitTweenUpdate a s
  | HitTweenComplete => hitTweenComplete s
  | MouseMove mx my rx ry => onMouseMove mx my rx ry s
  | PointerLockChange l => onPointerLockChange l s
  | VRChange d c v m =>
      set_managerModeVR m
        (set_controllerVisible v (set_controlMode c (set_display d s)))
  | UpdateControls intersects =>
      (* animate(): updateControls, then the mouse deltas are reset *)
      let s :=
        match state (config s) with
        | PLAYING | COUNTDOWN | GAME_OVER => updateControls intersects s
        | MENU => s
        end in
      set_mouseMoveSinceLastFrame (0, 0) s
  | PhysicsStep b =>
      (* animate(): physics.step moves the ball body, then updateBall *)
      match state (config s), physics_ball (physics s) with
      | PLAYING, Some _ =>
          updateBall (set_physics (with_physics_ball (Some b) (physics s)) s)
      | _, _ => s
      end
  end.

Definition run (inputs : list Input) (s : Scene) : Scene :=
  fold_left (fun s i => step i s) inputs s.

(** The scenes that a run of the program can be in. *)
Inductive reachable (cfg : Config) (host : bool) (lat : Q) : Scene -> Prop :=
| reachable_setup : reachable cfg host lat (setup (Scene_new cfg host lat))
| reachable_step i s :
    reachable cfg host lat s -> reachable cfg host lat (step i s).

End Step.

(** ** The frame loop and the DOM listeners *)

(** [Math.PI] is the double nearest to pi, [884279719003555 / 2^48]. *)
Definition Math_PI : Q := 884279719003555 # 281474976710656.

Definition computePaddleRotation (pos : Vector3) (s : Scene) : Vector3 :=
  {| x := - ((tablePositionZ (config s) + tableDepth (config s) / 2)
             - z pos * 1);
     y := 0;
     z := cap (- x pos) (- Math_PI / 2) (Math_PI / 2) |}.

(** The scene together with the fields of [this] that only [animate] and the
    DOM listeners use.  [paddleLoaded] stands for [this.paddle] being set
    (the promise of [setup] has resolved), [viewport] is [undefined] until
    [startGame] or [onResize] measures the canvas, [ballPath] holds the
    points of the trail curve ([null] when there is no curve), [sentMoves]
    records the calls of [communication.sendMove]. *)
#[projections(primitive)]
Record Stage := {
  scene : Scene;
  paddleLoaded : bool;
  paddle_rotation : Vector3;
  viewport : option (Q * Q);
  ballPath : option (list Vector3);
  frameNumber : Z;
  lastRender : Z;
  sentMoves : list (Vector3 * Vector3)
}.

Definition put_scene (v : Scene) (g : Stage) : Stage :=
  {| scene := v; paddleLoaded := paddleLoaded g;
     paddle_rotation := paddle_rotation g; viewport := viewport g;
     ballPath := ballPath g; frameNumber := frameNumber g;
     lastRender := lastRender g; sentMoves := sentMoves g |}.

Definition put_paddle_rotation (v : Vector3) (g : Stage) : Stage :=
  {| scene := scene g; paddleLoaded := paddleLoaded g;
     paddle_rotation := v; viewport := viewport g;
     ballPath := ballPath g; frameNumber := frameNumber g;
     lastRender := lastRender g; sentMoves := sentMoves g |}.

Definition put_viewport (v : option (Q * Q)) (g : Stage) : Stage :=
  {| scene := scene g; paddleLoaded := paddleLoaded g;
     paddle_rotation := paddle_rotation g; viewport := v;
     ballPath := ballPath g; frameNumber := frameNumber g;
     lastRender := lastRender g; sentMoves := sentMoves g |}.

Definition put_ballPath (v : option (list Vector3)) (g : Stage) : Stage :=
  {| scene := scene g; paddleLoaded := paddleLoaded g;
     paddle_rotation := paddle_rotation g; viewport := viewport g;
     ballPath := v; frameNumber := frameNumber g;
     lastRender := lastRender g; sentMoves := sentMoves g |}.

Definition put_frameNumber (v : Z) (g : Stage) : Stage :=
  {| scene := scene g; paddleLoaded := paddleLoaded g;
     paddle_rotation := paddle_rotation g; viewport := viewport g;
     ballPath := ballPath g; frameNumber := v;
     lastRender := lastRender g; sentMoves := sentMoves g |}.

Definition put_lastRender (v : Z) (g : Stage) : Stage :=
  {| scene := scene g; paddleLoaded := paddleLoaded g;
     paddle_rotation := paddle_rotation g; viewport := viewport g;
     ballPath := ballPath g; frameNumber := frameNumber g;
     lastRender := v; sentMoves := sentMoves g |}.

Definition put_sentMoves (v : list (Vector3 * Vector3)) (g : Stage) : Stage :=
  {| scene := scene g; paddleLoaded := paddleLoaded g;
     paddle_rotation := paddle_rotation g; viewport := viewport g;
     ballPath := ballPath g; frameNumber := frameNumber g;
     lastRender := lastRender g; sentMoves := v |}.

(** The stage once [setup] has resolved; [rotation] is the rotation of the
    paddle model that [setupPaddles] has loaded. *)
Definition Stage_new `{Collaborators} (cfg : Config) (host : bool) (lat : Q)
    (rotation : Vector3) : Stage :=
  {| scene := setup (Scene_new cfg host lat);
     paddleLoaded := true;
     paddle_rotation := rotation;
     viewport := None;
     ballPath := None;
     frameNumber := 0;
     lastRender := 0;
     sentMoves := [] |}.

(** [width] and [height] are the measured size of the canvas. *)
Definition onResize (width height : Q) (g : Stage) : Stage :=
  put_viewport (Some (width, height)) g.

(** The listener of [mousemove], with its guard. *)
Definition Stage_onMouseMove (movementX movementY offsetX offsetY : Q)
    (g : Stage) : Stage :=
  if negb (paddleLoaded g) then g
  else
    match viewport g with
    | None => g
    | Some (width, height) =>
        put_scene
          (onMouseMove movementX movementY (offsetX / width)
             (offsetY / height) (scene g)) g
    end.

(** [updateControls] with the rotation of the paddle (the camera is left
    out). *)
Definition Stage_updateControls (intersects : list Vector3) (g : Stage)
  : Stage :=
  let g := put_scene (updateControls intersects (scene g)) g in
  let rotation :=
    computePaddleRotation (paddle_position (scene g)) (scene g) in
  put_paddle_rotation
    {| x := x rotation; y := y (paddle_rotation g); z := z rotation |} g.

(** The trail in [animate]: the curve is created with two points when there
    is none, otherwise the position is pushed; beyond 50 points the oldest
    one is shifted out. *)
Definition pushBallPath (p : Vector3) (path : option (list Vector3))
  : list Vector3 :=
  let points :=
    match path with
    | None => [p; {| x := x p; y := y p; z := z p + 0.001 |}]
    | Some points => points ++ [p]
    end in
  if Nat.ltb 50 (length points) then tl points else points.

(** A timer that [time.step()] finds due. *)
Inductive Due := DueTimeout (h : nat) | DueInterval (h : nat).

(** [time.step()] runs the callbacks of the due timers; the callback of the
    reset timer also drops the trail ([this.ballPath = null]). *)
Definition runDue `{Collaborators} (d : Due) (g : Stage) : Stage :=
  match d with
  | DueTimeout h =>
      if pendingTimeout h (time (scene g))
      then put_ballPath None (put_scene (timeoutElapsed h (scene g)) g)
      else g
  | DueInterval h => put_scene (intervalElapsed h (scene g)) g
  end.

Definition Time_step `{Collaborators} (due : list Due) (g : Stage) : Stage :=
  fold_left (fun g d => runDue d g) due g.

(** What a frame gets from outside: [Date.now()], the intersections of the
    ray of the controls with the table plane, the BALL_TABLE_COLLISION events
    that the physics world emits while it is stepped, and the timers that are
    due. *)
Record FrameEvents := {
  timestamp : Z;
  frame_intersects : list Vector3;
  tableCollisions : list (Vector3 * bool);
  due : list Due
}.

Section Loop.
Context `{Collaborators}.

(** [physics.step(dt)] as far as the ball body goes. *)
Variable physics_step : Q -> Body -> Body.

Definition animate (ev : FrameEvents) (g : Stage) : Stage :=
  let delta := Z.min (timestamp ev - lastRender g) 500 in
  let g :=
    match ball (scene g) with
    | Some m =>
        let g :=
          if ballReachesPaddle (scene g)
          then put_scene
                 (onBallPaddleCollision (mesh_position m) (scene g)) g
          else g in
        match ball (scene g) with
        | Some m =>
            put_ballPath
              (Some (pushBallPath (mesh_position m) (ballPath g))) g
        | None => g
        end
    | None => g
    end in
  let g :=
    match state (config (scene g)) with
    | PLAYING | COUNTDOWN | GAME_OVER =>
        let g := Stage_updateControls (frame_intersects ev) g in
        match mode (config (scene g)) with
        | MULTIPLAYER =>
            if (Z.rem (frameNumber g) 5 =? 0)%Z
            then put_sentMoves
                   (sentMoves g
                    ++ [(paddle_position (scene g), paddle_rotation g)]) g
            else g
        | SINGLEPLAYER => g
        end
    | MENU => g
    end in
  let g :=
    match state (config (scene g)) with
    | PLAYING =>
        let dt := inject_Z delta / physicsTimeStep (scene g) in
        let s := scene g in
        let s :=
          match physics_ball (physics s) with
          | Some b =>
              set_physics
                (with_physics_ball (Some (physics_step dt b)) (physics s)) s
          | None => s
          end in
        let s :=
          fold_left (fun s c => onBallTableCollision (fst c) (snd c) s)
            (tableCollisions ev) s in
        put_scene (updateBall s) g
    | _ => g
    end in
  let g := Time_step (due ev) g in
  let g := put_lastRender (timestamp ev) g in
  let g := put_frameNumber (frameNumber g + 1) g in
  put_scene (set_mouseMoveSinceLastFrame (0, 0) (scene g)) g.

(** A run of frames. *)
Definition frames (evs : list FrameEvents) (g : Stage) : Stage :=
  fold_left (fun g ev => animate ev g) evs g.

End Loop.

(** ** Concrete collaborators and scenes, to run the scene on examples *)

(** Exact on the squares of rationals. *)
Definition sqrt_exact (q : Q) : Q :=
  let r := Qred q in
  Z.sqrt (Qnum r) # Pos.sqrt (Qden r).

Definition exampleWorld : Collaborators :=
  {| Math_sqrt := sqrt_exact;
     isMobile := false;
     Ball_new := {| visible := true; mesh_position := Vector3_zero |};
     physics_initialSpeed := 1;
     physics_addBall :=
       {| position := {| x := 0; y := 1; z := 1 |};
          velocity := {| x := 0; y := 0; z := 1 |};
          angularVelocity := Vector3_zero |};
     physics_initBallPosition :=
       fun b =>
         {| position := {| x := 0; y := 1; z := 1 |};
            velocity := {| x := 0; y := 0; z := 1 |};
            angularVelocity := angularVelocity b |};
     physics_increaseSpeed := fun v => v * 1.05;
     physics_onBallPaddleCollision :=
       fun b _ => with_velocity (mirrorVelocity (velocity b)) b |}.

Definition exampleConfig (m : MODE) : Config :=
  {| mode := m; state := MENU; tableDepth := 4; tableWidth := 1.5;
     tableHeight := 0.7; tablePositionZ := 2; POINTS_FOR_WIN := 11;
     startLives := 3 |}.

(** A freshly set up scene. *)
Definition exampleScene (m : MODE) : Scene :=
  setup (@Scene_new exampleWorld (exampleConfig m) true 40).

(** The first serve as the host receives it, and a later Miss message that
    reports a point for the opponent. *)
Definition exampleServe : Data :=
  {| point := {| x := 0; y := 1; z := 3 |};
     data_velocity := {| x := 0; y := 0; z := -1 |};
     data_ballHasHitEnemyTable := true; isInit := true |}.

Definition exampleMiss : Data :=
  {| point := {| x := 0; y := 1; z := 3 |};
     data_velocity := {| x := 0; y := 0; z := -1 |};
     data_ballHasHitEnemyTable := true; isInit := false |}.

(** The Hit message of scenario 3. *)
Definition exampleHit : Data :=
  {| point := {| x := 0.5; y := 0; z := 1.2 |};
     data_velocity := {| x := 0; y := 0; z := -2 |};
     data_ballHasHitEnemyTable := false; isInit := false |}.

(** The start of a multiplayer match up to the first serve, as the host
    sees it. *)
Definition firstServe : list Input :=
  [SetMultiplayer; StartGame; ReceivedRequestCountdown;
   IntervalElapsed 0; IntervalElapsed 0; IntervalElapsed 0;
   ReceivedMiss exampleServe].

(** The same match on the host when the countdown has run: the host waits
    for the serve. *)
Definition hostAfterCountdown : list Input :=
  [SetMultiplayer; StartGame; ReceivedRequestCountdown;
   IntervalElapsed 0; IntervalElapsed 0; IntervalElapsed 0].

(** A multiplayer match that the opponent wins 11:0. *)
Definition lostMatch : list Input :=
  firstServe ++ repeat (ReceivedMiss exampleMiss) 11.

(** A singleplayer game in which the player returns the ball twice: the
    countdown runs, the ball comes within reach of the paddle and is hit, the
    hit animation completes, and once more. *)
Definition twoReturns : list Input :=
  let incoming :=
    PhysicsStep {| position := {| x := 0; y := 0.94; z := 0.05 |};
                   velocity := {| x := 0; y := 0; z := 1 |};
                   angularVelocity := Vector3_zero |} in
  [StartGame; IntervalElapsed 0; IntervalElapsed 0; IntervalElapsed 0;
   incoming; BallPaddleCollision; HitTweenComplete;
   incoming; BallPaddleCollision; HitTweenComplete].

(** A singleplayer game that is lost: the ball passes the paddle out of
    reach and the reset timer fires three times. *)
Definition gameLost : list Input :=
  [StartGame; IntervalElapsed 0; IntervalElapsed 0; IntervalElapsed 0;
   PhysicsStep {| position := {| x := 0.5; y := 0.94; z := 1 |};
                  velocity := {| x := 0; y := 0; z := 1 |};
                  angularVelocity := Vector3_zero |};
   TimeoutElapsed 1; TimeoutElapsed 2; TimeoutElapsed 3].


(** A singleplayer game played with a VR controller: the paddle is at the
    edge of the table ([x = tableWidth]), the ball comes by just outside the
    edge and is hit, the hit animation is half way towards the ball when the
    next frame is drawn. *)
Definition hitAtTheEdge : list Input :=
  [StartGame; IntervalElapsed 0; IntervalElapsed 0; IntervalElapsed 0;
   VRChange true VR true false;
   UpdateControls [{| x := 1.5; y := 0.94; z := 1 |}];
   PhysicsStep {| position := {| x := 1.6; y := 0.94; z := 1 |};
                  velocity := {| x := 0; y := 0; z := 1 |};
                  angularVelocity := Vector3_zero |};
   BallPaddleCollision;
   HitTweenUpdate 0.5;
   UpdateControls [{| x := 1.5; y := 0.94; z := 1 |}]].

(** A singleplayer game in which the served ball comes in low, below
    [tableHeight + 0.2]. *)
Definition lowBallAtPaddle : list Input :=
  [StartGame; IntervalElapsed 0; IntervalElapsed 0; IntervalElapsed 0;
   PhysicsStep {| position := {| x := 0; y := 0.8; z := 0.05 |};
                  velocity := {| x := 0; y := 0; z := 1 |};
                  angularVelocity := Vector3_zero |}].

(** A singleplayer game at the moment the served ball has come within reach
    of the paddle. *)
Definition ballAtPaddle : list Input :=
  [StartGame; IntervalElapsed 0; IntervalElapsed 0; IntervalElapsed 0;
   PhysicsStep {| position := {| x := 0; y := 0.94; z := 0.05 |};
                  velocity := {| x := 0; y := 0; z := 1 |};
                  angularVelocity := Vector3_zero |}].

(** The input of the transition system that a due timer amounts to. *)
Definition dueInput (d : Due) : Input :=
  match d with
  | DueTimeout h => TimeoutElapsed h
  | DueInterval h => IntervalElapsed h
  end.

(** The inputs that a frame of [animate] can amount to. *)
Definition isFrameInput (i : Input) : bool :=
  match i with
  | BallPaddleCollision | BallTableCollision _ _ | PhysicsStep _
  | TimeoutElapsed _ | IntervalElapsed _ => true
  | _ => false
  end.

(** What [computePaddlePosition] reads, but for the mouse deltas, together
    with the position of the paddle. *)
Definition controlsView (s : Scene) :=
  (display s, controlMode s, controllerVisible s, managerModeVR s,
   pointerIsLocked s, mousePosition s, ghostPaddlePosition s,
   paddle_position s,
   (tableWidth (config s), tableHeight (config s), tableDepth (config s),
    tablePositionZ (config s))).


(** A stage that has been set up and a stage in a running multiplayer
    game (the canvas is 800 by 600). *)
Definition exampleStage (m : MODE) : Stage :=
  @Stage_new exampleWorld (exampleConfig m) true 40 Vector3_zero.

Definition playingStage : Stage :=
  onResize 800 600
    (put_scene (@run exampleWorld firstServe (exampleScene SINGLEPLAYER))
       (exampleStage SINGLEPLAYER)).

(** The physics step of the examples: the ball moves along its velocity. *)
Definition exampleStep (dt : Q) (b : Body) : Body :=
  with_position
    {| x := x (position b) + dt * x (velocity b);
       y := y (position b) + dt * y (velocity b);
       z := z (position b) + dt * z (velocity b) |} b.

(** A frame 16ms after the last one in which nothing else happens. *)
Definition quietFrame (now : Z) : FrameEvents :=
  {| timestamp := now; frame_intersects := []; tableCollisions := [];
     due := [] |}.

(** What the timer invariants look at. *)
Definition timerView (s : Scene) : list nat * option nat * STATE :=
  (timeouts (time s), resetBallTimeout s, state (config s)).

(** At most one reset timer is pending, and it is the one whose handle
    [resetBallTimeout] holds. *)
Definition oneResetTimer (s : Scene) : Prop :=
  timeouts (time s) = []
  \/ exists h, timeouts (time s) = [h] /\ resetBallTimeout s = Some h.

(** In addition no reset timer is pending while the game is over. *)
Definition timersOk (s : Scene) : Prop :=
  oneResetTimer s
  /\ (state (config s) = GAME_OVER -> timeouts (time s) = []).

(** The inputs whose handler calls [restartGame]. *)
Definition isRestart (i : Input) : bool :=
  match i with
  | RestartButtonPressed | ReceivedRestartGame => true
  | _ => false
  end.

Definition Qsum (l : list Q) : Q := fold_right Qplus 0 l.

(** The tween of [ballInterpolationAlpha] that [onReceivedHit] starts, seen
    [T] milliseconds after the hit: it is still running, [T / 1000] seconds
    have elapsed and the field holds [1 - T / 500]; or 500ms or more have
    passed, the tween is gone and the field holds 0. *)
Definition alphaAfter (T : Q) (s : Scene) : Prop :=
  (T < 500
   /\ (exists e,
         alphaTween s
         = Some {| elapsed := e; duration := 0.5; startValue := 1;
                   endValue := 0 |}
         /\ e == T / 1000)
   /\ ballInterpolationAlpha s == 1 - T / 500)
  \/ (500 <= T /\ alphaTween s = None /\ ballInterpolationAlpha s = 0).

(** The pending reset timer fires (the oldest one, should there be several). *)
Definition fireResetTimeout `{Collaborators} (s : Scene) : Scene :=
  match timeouts (time s) with
  | h :: _ => step (TimeoutElapsed h) s
  | [] => s
  end.

(** The physics ball exists whenever the visual ball does. *)
Definition ballConsistent (s : Scene) : bool :=
  match ball s, physics_ball (physics s) with
  | Some _, None => false
  | _, _ => true
  end.

(** The number of ticks of interval [h] among the inputs. *)
Fixpoint ticksOf (h : nat) (inputs : list Input) : nat :=
  match inputs with
  | [] => 0
  | IntervalElapsed k :: rest =>
      if Nat.eqb k h then S (ticksOf h rest) else ticksOf h rest
  | _ :: rest => ticksOf h rest
  end.

Definition isTick (i : Input) : bool :=
  match i with IntervalElapsed _ => true | _ => false end.

(** The handles of the pending intervals have been issued and their
    counters are between 0 and 2. *)
Definition intervalsOk (s : Scene) : Prop :=
  Forall (fun j => (handle j < nextHandle (time s))%nat
                   /\ (0 <= countdown_n j <= 2)%Z)
         (intervals (time s)).

(** The entry of interval [h] after input [i], when [p] was its entry
    before: only its own tick changes the entry. *)
Definition tickInterval (h : nat) (i : Input) (p : option Interval)
  : option Interval :=
  match i, p with
  | IntervalElapsed k, Some j =>
      if Nat.eqb k h
      then if (countdown_n j - 1 <? 0)%Z then None
           else Some {| handle := h; countdown_n := countdown_n j - 1 |}
      else p
  | _, _ => p
  end.

(** The entry of interval [h] after [k] of its own ticks. *)
Definition afterTicks (h : nat) (p : option Interval) (k : nat)
  : option Interval :=
  match p with
  | Some j =>
      if (Z.of_nat k <=? countdown_n j)%Z
      then Some {| handle := h; countdown_n := countdown_n j - Z.of_nat k |}
      else None
  | None => None
  end.

(** The ball is there whenever the code is about to use it: the physics
    ball exists whenever the visual ball does, and while there is no ball
    the state is not PLAYING and no reset timer is pending. *)
Definition ballReady (s : Scene) : Prop :=
  ballConsistent s = true
  /\ (ball s = None ->
      state (config s) <> PLAYING /\ timeouts (time s) = []).

(** The ball, when there is one, is not shown. *)
Definition ballHidden (s : Scene) : Prop :=
  forall m, ball s = Some m -> visible m = false.

(** * Properties *)

Ltac break_match :=
  match goal with
  | |- context [match ?e with _ => _ end] =>
      lazymatch e with
      | context [match _ with _ => _ end] => fail
      | _ => destruct e eqn:?
      end
  end.

(** Methods are unfolded by name only. *)
Arguments restartPingpongTimeout : simpl never.
Arguments addBall : simpl never.
Arguments slowdownBall : simpl never.
Arguments ballHitAnimation : simpl never.
Arguments onBallPaddleCollision : simpl never.
Arguments resetTimeoutEnded : simpl never.
Arguments countdown_callback : simpl never.
Arguments requestCountdown : simpl never.
Arguments restartGame : simpl never.
Arguments onReceivedHit : simpl never.
Arguments onReceivedMiss : simpl never.
Arguments updateBall : simpl never.
Arguments sendMiss_ball : simpl never.
Arguments tweenTick : simpl never.
Arguments computePaddlePosition : simpl never.
Arguments updateControls : simpl never.

Section Frame.
Context `{Collaborators}.

(** What the timer and ball helpers leave alone. *)

Lemma score_restartPingpongTimeout s :
  score (restartPingpongTimeout s) = score s.
Proof.
  unfold restartPingpongTimeout; cbn.
  destruct (STATE_eqb (state (config s)) GAME_OVER); reflexivity.
Qed.

Lemma config_restartPingpongTimeout s :
  config (restartPingpongTimeout s) = config s.
Proof.
  unfold restartPingpongTimeout; cbn.
  destruct (STATE_eqb (state (config s)) GAME_OVER); reflexivity.
Qed.

Lemma emitted_restartPingpongTimeout s :
  emitted (restartPingpongTimeout s) = emitted s.
Proof.
  unfold restartPingpongTimeout; cbn.
  destruct (STATE_eqb (state (config s)) GAME_OVER); reflexivity.
Qed.

Lemma score_addBall s : score (addBall s) = score s.
Proof.
  unfold addBall; cbn.
  destruct (ball s); rewrite score_restartPingpongTimeout; reflexivity.
Qed.

Lemma emitted_addBall s : emitted (addBall s) = emitted s.
Proof.
  unfold addBall; cbn.
  destruct (ball s); rewrite emitted_restartPingpongTimeout; reflexivity.
Qed.

Lemma score_onReceivedHit data wasMiss s :
  score (onReceivedHit data wasMiss s) = score s.
Proof.
  unfold onReceivedHit; cbn.
  destruct (ball s), wasMiss; cbn; repeat break_match; cbn;
    rewrite ?score_addBall; reflexivity.
Qed.

Lemma emitted_onReceivedHit data wasMiss s :
  emitted (onReceivedHit data wasMiss s) = emitted s.
Proof.
  unfold onReceivedHit; cbn.
  destruct (ball s), wasMiss; cbn; repeat break_match; cbn;
    rewrite ?emitted_addBall; reflexivity.
Qed.

(** The fields a helper may assign: the result is the argument with those
    fields set to some values. *)

Lemma restartPingpongTimeout_shape s :
  exists t r,
    restartPingpongTimeout s = set_resetBallTimeout r (set_time t s).
Proof.
  unfold restartPingpongTimeout; cbn.
  destruct (STATE_eqb (state (config s)) GAME_OVER).
  - exists (clearTimeout (resetBallTimeout s) (time s)), (resetBallTimeout s).
    destruct s; reflexivity.
  - eexists; eexists; reflexivity.
Qed.

Lemma ballHitAnimation_shape s :
  exists l t a,
    ballHitAnimation s
    = set_lastHitPosition l (set_hitTween t (set_hitAvailable a s)).
Proof.
  unfold ballHitAnimation.
  destruct (negb (hitTween s) && hitAvailable s); cbn.
  - destruct (ball s).
    + eexists; eexists; eexists; reflexivity.
    + exists (lastHitPosition s), true, false. destruct s; reflexivity.
  - exists (lastHitPosition s), (hitTween s), (hitAvailable s).
    destruct s; reflexivity.
Qed.

Lemma slowdownBall_shape s :
  exists t, slowdownBall s = set_physicsTimeStep t s.
Proof.
  unfold slowdownBall.
  destruct (physics_ball (physics s)) as [b|];
    [destruct (ball s) as [m|];
     [destruct (Qlt_bool 0 (z (velocity b)))|]|];
    try (exists (physicsTimeStep s); destruct s; reflexivity).
  eexists; reflexivity.
Qed.

Lemma sendMiss_ball_shape f i s :
  exists c, sendMiss_ball f i s = set_communication c s.
Proof.
  unfold sendMiss_ball.
  destruct (physics_ball (physics s)).
  - eexists; reflexivity.
  - exists (communication s); destruct s; reflexivity.
Qed.

Lemma addBall_shape s :
  exists c b p t r,
    addBall s
    = set_resetBallTimeout r
        (set_time t (set_physics p (set_ball b (set_config c s)))).
Proof.
  unfold addBall; cbn.
  destruct (ball s);
    match goal with
    | |- context [restartPingpongTimeout ?a] =>
        destruct (restartPingpongTimeout_shape a) as (t & r & ->)
    end;
    do 5 eexists; reflexivity.
Qed.

End Frame.

(** ** Restart handshake *)

Section Restart.
Context `{Collaborators}.

Lemma restartGame_unfold_multiplayer s :
  mode (config s) = MULTIPLAYER ->
  opponentRequestedRestart s && playerRequestedRestart s = false ->
  restartGame s
  = resetScore
      (set_physics (with_speed 1 (physics s))
         (set_crosshair_visible false s)).
Proof.
  intros Hm Hf. unfold restartGame, resetScore; cbn.
  rewrite Hm; cbn.
  rewrite Hf. reflexivity.
Qed.

(** C2 (amended): in multiplayer mode, a call to [restartGame] in which
    [playerRequestedRestart] and [opponentRequestedRestart] are not both true
    emits no RESTART_GAME event, starts no countdown (the configuration with
    its state and the scheduler are unchanged) and leaves both flags as they
    are; it does hide the crosshair, set the physics speed to 1 and reset the
    score: self, opponent and highest become 0 and lives becomes
    [startLives]. *)
Theorem restartGame_without_handshake (s : Scene) :
  mode (config s) = MULTIPLAYER ->
  opponentRequestedRestart s && playerRequestedRestart s = false ->
  restartGame s
  = resetScore
      (set_physics (with_speed 1 (physics s))
         (set_crosshair_visible false s))
  /\ score (restartGame s)
     = {| self := 0; opponent := 0; lives := startLives (config s);
          highest := 0 |}
  /\ crosshair_visible (restartGame s) = false
  /\ speed (physics (restartGame s)) == 1
  /\ emitted (restartGame s) = emitted s
  /\ config (restartGame s) = config s
  /\ time (restartGame s) = time s
  /\ playerRequestedRestart (restartGame s) = playerRequestedRestart s
  /\ opponentRequestedRestart (restartGame s) = opponentRequestedRestart s.
Proof.
  intros Hm Hf.
  rewrite (restartGame_unfold_multiplayer s Hm Hf).
  repeat split; reflexivity.
Qed.

End Restart.

Lemma restartGame_without_handshake_witness :
  let s := set_playerRequestedRestart true
             (@run exampleWorld lostMatch (exampleScene SINGLEPLAYER)) in
  mode (config s) = MULTIPLAYER
  /\ opponentRequestedRestart s && playerRequestedRestart s = false
  /\ score (restartGame s)
     = {| self := 0; opponent := 0; lives := 3; highest := 0 |}
  /\ emitted (restartGame s) = emitted s.
Proof.
  intro s.
  split; [reflexivity | split; [reflexivity | ]].
  pose proof (restartGame_without_handshake s eq_refl eq_refl) as W.
  split; [exact (proj1 (proj2 W)) | exact (proj1 (proj2 (proj2 (proj2 (proj2 W)))))].
Defined.

(** C2 as stated fails: the opponent has won 11:0, the player presses the
    restart button while the opponent has not asked for a restart; the call
    to [restartGame] emits nothing and starts no countdown, yet the score
    is back to 0:0. *)
Lemma restartGame_resets_score_before_handshake :
  let s := @run exampleWorld lostMatch (exampleScene SINGLEPLAYER) in
  let s' := @run exampleWorld [RestartButtonPressed] s in
  mode (config s) = MULTIPLAYER
  /\ state (config s) = GAME_OVER
  /\ opponentRequestedRestart s' = false
  /\ opponent (score s) = 11%Z
  /\ opponent (score s') = 0%Z
  /\ score s' <> score s
  /\ s' = restartGame (send MsgRestartGame
                         (set_playerRequestedRestart true s)).
Proof.
  vm_compute. repeat split; try reflexivity. discriminate.
Qed.

(** ** Receiving a hit *)

Section ReceivedHit.
Context `{Collaborators}.

Lemma physics_restartPingpongTimeout s :
  physics (restartPingpongTimeout s) = physics s.
Proof.
  unfold restartPingpongTimeout; cbn.
  destruct (STATE_eqb (state (config s)) GAME_OVER); reflexivity.
Qed.

Lemma ball_restartPingpongTimeout s :
  ball (restartPingpongTimeout s) = ball s.
Proof.
  unfold restartPingpongTimeout; cbn.
  destruct (STATE_eqb (state (config s)) GAME_OVER); reflexivity.
Qed.

Lemma config_addBall s :
  config (addBall s) = with_state PLAYING (config s).
Proof.
  unfold addBall; cbn.
  destruct (ball s); rewrite config_restartPingpongTimeout; reflexivity.
Qed.

(** After [addBall] both the visual ball and the physics ball exist. *)
Lemma addBall_creates s :
  ballConsistent s = true ->
  (exists m, ball (addBall s) = Some m)
  /\ (exists b, physics_ball (physics (addBall s)) = Some b).
Proof.
  unfold ballConsistent, addBall; cbn. intros Hc.
  destruct (ball s) as [m|] eqn:Eb;
    rewrite ball_restartPingpongTimeout, physics_restartPingpongTimeout;
    cbn.
  - split; [eexists; reflexivity|].
    unfold initBallPosition; simpl.
    destruct (physics_ball (physics s));
      [simpl; eexists; reflexivity | discriminate].
  - split; eexists; reflexivity.
Qed.

(** The position and velocity [onReceivedHit] leaves in the physics ball. *)
Lemma onReceivedHit_ball (s : Scene) (data : Data) (wasMiss : bool) :
  ballConsistent s = true ->
  exists b,
    physics_ball (physics (onReceivedHit data wasMiss s)) = Some b
    /\ position b
       = mirrorPosition (point data) (tablePositionZ (config s))
    /\ velocity b = mirrorVelocity (data_velocity data).
Proof.
  intros Hc. unfold onReceivedHit; cbn.
  destruct (ball s) as [m|] eqn:Eb.
  - unfold ballConsistent in Hc. rewrite Eb in Hc.
    destruct (physics_ball (physics s)) as [b|] eqn:Ep; [|discriminate].
    destruct wasMiss; cbn; repeat (rewrite Ep; cbn);
      eexists; repeat split; reflexivity.
  - set (s' := set_time (clearTimeout (resetBallTimeout s) (time s)) s).
    assert (Hc' : ballConsistent s' = true) by exact Hc.
    destruct (addBall_creates s' Hc') as [_ [b Ep]].
    assert (Ez : tablePositionZ (config (addBall s'))
                 = tablePositionZ (config s))
      by (rewrite config_addBall; reflexivity).
    destruct wasMiss; cbn; repeat (rewrite Ep; cbn); rewrite ?Ez;
      eexists; repeat split; reflexivity.
Qed.

(** C3: [onReceivedHit] puts the physics ball at the reported point mirrored
    across the centre plane of the table (x negated, z reflected about
    [tablePositionZ]) and gives it the reported velocity with x and z
    inverted.  With point (0.5, 0, 1.2), velocity (0, 0, -2) and
    [tablePositionZ = 2] the ball is at (-0.5, 0, 2.8) with velocity
    (0, 0, 2). *)
Theorem onReceivedHit_mirrors (s : Scene) (data : Data) (wasMiss : bool) :
  ballConsistent s = true ->
  exists b,
    physics_ball (physics (onReceivedHit data wasMiss s)) = Some b
    /\ x (position b) == - x (point data)
    /\ y (position b) == y (point data)
    /\ z (position b) == 2 * tablePositionZ (config s) - z (point data)
    /\ x (velocity b) == - x (data_velocity data)
    /\ y (velocity b) == y (data_velocity data)
    /\ z (velocity b) == - z (data_velocity data)
    /\ (point data = {| x := 0.5; y := 0; z := 1.2 |} ->
        data_velocity data = {| x := 0; y := 0; z := -2 |} ->
        tablePositionZ (config s) == 2 ->
        Vector3_eq (position b) {| x := -0.5; y := 0; z := 2.8 |}
        /\ Vector3_eq (velocity b) {| x := 0; y := 0; z := 2 |}).
Proof.
  intros Hc.
  destruct (onReceivedHit_ball s data wasMiss Hc) as [b [Eb [Ep Ev]]].
  exists b. rewrite Ep, Ev. split; [exact Eb|]. cbn.
  split; [reflexivity|]. split; [reflexivity|]. split; [ring|].
  split; [reflexivity|]. split; [reflexivity|]. split; [reflexivity|].
  intros Hp Hv Hz. rewrite Hp, Hv; unfold Vector3_eq; cbn.
  rewrite Hz. repeat split; reflexivity.
Qed.

End ReceivedHit.

Lemma onReceivedHit_mirrors_witness :
  let s := exampleScene MULTIPLAYER in
  let data := {| point := {| x := 0.5; y := 0; z := 1.2 |};
                 data_velocity := {| x := 0; y := 0; z := -2 |};
                 data_ballHasHitEnemyTable := false; isInit := false |} in
  ballConsistent s = true
  /\ exists b,
       physics_ball (physics (@onReceivedHit exampleWorld data false s))
       = Some b
       /\ Vector3_eq (position b) {| x := -0.5; y := 0; z := 2.8 |}
       /\ Vector3_eq (velocity b) {| x := 0; y := 0; z := 2 |}.
Proof.
  intros s data. split; [reflexivity|].
  destruct (@onReceivedHit_mirrors exampleWorld s data false eq_refl)
    as [b [Eb [_ [_ [_ [_ [_ [_ Hsc]]]]]]]].
  exists b. split; [exact Eb|].
  apply Hsc; reflexivity.
Defined.

(** ** Latency compensation *)

Section Slowdown.
Context `{Collaborators}.

Lemma time_step_formula (eta lat : Q) :
  1000 * ((eta + lat / 1000) / eta) * 1 == 1000 * (eta + lat / 1000) / eta.
Proof. unfold Qdiv. ring. Qed.

(** [slowdownBall] on a scene where the ball exists. *)
Lemma slowdownBall_cases (s : Scene) (b : Body) (m : Mesh) :
  physics_ball (physics s) = Some b ->
  ball s = Some m ->
  let eta :=
    Vector3_length (subVectors (mesh_position m) (paddleOpponent_position s))
    / Vector3_length (velocity b) in
  (z (velocity b) <= 0 ->
   physicsTimeStep (slowdownBall s)
   == 1000 * (eta + latency (communication s) / 1000) / eta)
  /\ (0 < z (velocity b) -> slowdownBall s = s).
Proof.
  intros Ep Eb eta. unfold slowdownBall. rewrite Ep, Eb.
  unfold Qlt_bool.
  destruct (Qle_bool (z (velocity b)) 0) eqn:E; cbn.
  - apply Qle_bool_iff in E. split.
    + intros _. apply time_step_formula.
    + intros Hp. exfalso. apply (Qlt_not_le _ _ Hp E).
  - split.
    + intros Hn. apply Qle_bool_iff in Hn. congruence.
    + reflexivity.
Qed.

(** In multiplayer mode [onBallPaddleCollision] leaves the time step that
    [slowdownBall] computes from the ball after the collision response. *)
Lemma onBallPaddleCollision_time_step (s : Scene) (b : Body) (point : Vector3) :
  mode (config s) = MULTIPLAYER ->
  hitTween s = false ->
  physics_ball (physics s) = Some b ->
  physicsTimeStep (onBallPaddleCollision point s)
  = physicsTimeStep
      (slowdownBall
         (set_physics
            (with_physics_ball
               (Some (physics_onBallPaddleCollision b (paddle_position s)))
               (physics s)) s)).
Proof.
  intros Hm Ht Ep. unfold onBallPaddleCollision. rewrite Ht, Ep. cbn.
  match goal with
  | |- context [ballHitAnimation ?a] =>
      destruct (ballHitAnimation_shape a) as (l & t & a' & ->)
  end.
  match goal with
  | |- context [restartPingpongTimeout ?a] =>
      destruct (restartPingpongTimeout_shape a) as (t' & r & ->)
  end.
  cbn. rewrite Hm.
  unfold slowdownBall; cbn.
  destruct (ball s); [|reflexivity].
  destruct (Qlt_bool 0 _); reflexivity.
Qed.

(** C5: on a local hit in multiplayer mode, when the z-velocity of the ball
    (after the collision response) is not positive, the ball travels towards
    the opponent and the physics time step becomes
    [1000 * (eta + latency / 1000) / eta], where [eta] is the distance from
    the ball to the opponent's paddle divided by the length of the velocity;
    when the z-velocity is positive the time step is left unchanged.  The
    same holds of [slowdownBall] on its own. *)
Theorem slowdownBall_time_step (s : Scene) (b : Body) (m : Mesh)
    (point : Vector3) :
  physics_ball (physics s) = Some b ->
  ball s = Some m ->
  let dist :=
    Vector3_length
      (subVectors (mesh_position m) (paddleOpponent_position s)) in
  let lat := latency (communication s) in
  (let eta := dist / Vector3_length (velocity b) in
   (z (velocity b) <= 0 -> ~ eta == 0 ->
    physicsTimeStep (slowdownBall s) == 1000 * (eta + lat / 1000) / eta)
   /\ (0 < z (velocity b) -> slowdownBall s = s))
  /\ (mode (config s) = MULTIPLAYER -> hitTween s = false ->
      let b' := physics_onBallPaddleCollision b (paddle_position s) in
      let eta := dist / Vector3_length (velocity b') in
      (z (velocity b') <= 0 -> ~ eta == 0 ->
       physicsTimeStep (onBallPaddleCollision point s)
       == 1000 * (eta + lat / 1000) / eta)
      /\ (0 < z (velocity b') ->
          physicsTimeStep (onBallPaddleCollision point s)
          = physicsTimeStep s)).
Proof.
  intros Ep Eb dist lat. split.
  - destruct (slowdownBall_cases s b m Ep Eb) as [H1 H2].
    split; [intros Hz _; exact (H1 Hz) | exact H2].
  - intros Hm Ht b' eta.
    rewrite (onBallPaddleCollision_time_step s b point Hm Ht Ep).
    set (s' := set_physics _ s).
    destruct (slowdownBall_cases s' b' m eq_refl Eb) as [H1 H2].
    split; [intros Hz _; exact (H1 Hz) | intros Hz; rewrite (H2 Hz)].
    reflexivity.
Qed.

End Slowdown.

Lemma slowdownBall_time_step_witness :
  let s :=
    @run exampleWorld
      [SetMultiplayer; StartGame; ReceivedRequestCountdown;
       IntervalElapsed 0; IntervalElapsed 0; IntervalElapsed 0;
       ReceivedMiss exampleServe;
       ReceivedMove {| x := 0; y := 1; z := -0.1 |};
       PhysicsStep {| position := {| x := 0; y := 1; z := 1 |};
                      velocity := {| x := 0; y := 0; z := -2 |};
                      angularVelocity := Vector3_zero |}]
      (exampleScene SINGLEPLAYER) in
  let b := {| position := {| x := 0; y := 1; z := 1 |};
              velocity := {| x := 0; y := 0; z := -2 |};
              angularVelocity := Vector3_zero |} in
  let m := {| visible := true;
              mesh_position := {| x := 0; y := 1; z := 1 |} |} in
  physics_ball (physics s) = Some b
  /\ ball s = Some m
  /\ z (velocity b) <= 0
  /\ physicsTimeStep (@slowdownBall exampleWorld s)
     == 1000 * (3 / 2 + 40 / 1000) / (3 / 2).
Proof.
  intros s b m.
  split; [reflexivity|]. split; [reflexivity|].
  assert (Hz : z (velocity b) <= 0) by (vm_compute; discriminate).
  split; [exact Hz|].
  destruct (@slowdownBall_time_step exampleWorld s b m Vector3_zero
              eq_refl eq_refl) as [[H1 _] _].
  etransitivity; [apply (H1 Hz); vm_compute; discriminate|].
  vm_compute; reflexivity.
Defined.

(** ** Scoring *)

Section Scoring.
Context `{Collaborators}.


Lemma STATE_eqb_neq a b : STATE_eqb a b = false <-> a <> b.
Proof. destruct a, b; cbn; split; congruence. Qed.

Ltac rpt_shape :=
  match goal with
  | |- context [restartPingpongTimeout ?a] =>
      let t := fresh "t" in
      let r := fresh "r" in
      destruct (restartPingpongTimeout_shape a) as (t & r & ->)
  end.

Ltac sendMiss_shape :=
  match goal with
  | |- context [sendMiss_ball ?f ?i ?a] =>
      let c := fresh "c" in
      destruct (sendMiss_ball_shape f i a) as (c & ->)
  end.

(** Score, events and state after the reset timeout in singleplayer mode. *)
Lemma resetTimeoutEnded_singleplayer (s : Scene) :
  mode (config s) = SINGLEPLAYER ->
  let s' := resetTimeoutEnded s in
  score s'
  = {| self := 0; opponent := opponent (score s);
       lives := lives (score s) - 1;
       highest := Z.max (self (score s)) (highest (score s)) |}
  /\ mode (config s') = SINGLEPLAYER
  /\ ((lives (score s) - 1 < 1)%Z
      /\ emitted s' = emitted s ++ [EV_GAME_OVER]
      /\ state (config s') = GAME_OVER
      \/ (1 <= lives (score s) - 1)%Z
         /\ emitted s' = emitted s
         /\ state (config s') = state (config s)).
Proof.
  intros Hm s'. subst s'. unfold resetTimeoutEnded. rewrite Hm.
  rpt_shape. cbn.
  destruct (lives (score s) - 1 <? 1)%Z eqn:E; cbn.
  - apply Z.ltb_lt in E. auto 10.
  - apply Z.ltb_ge in E. auto 10.
Qed.

(** The reset timer after the reset timeout in singleplayer mode, when no
    other timer is pending. *)
Lemma resetTimeoutEnded_singleplayer_timer (s : Scene) :
  mode (config s) = SINGLEPLAYER ->
  timeouts (time s) = [] ->
  state (config s) <> GAME_OVER ->
  let s' := resetTimeoutEnded s in
  ((lives (score s) - 1 < 1)%Z /\ timeouts (time s') = []
   \/ (1 <= lives (score s) - 1)%Z
      /\ timeouts (time s') = [nextHandle (time s)]
      /\ resetBallTimeout s' = Some (nextHandle (time s))).
Proof.
  intros Hm Ht Hs s'. subst s'.
  unfold resetTimeoutEnded, restartPingpongTimeout. rewrite Hm. cbn.
  destruct (lives (score s) - 1 <? 1)%Z eqn:E; cbn.
  - apply Z.ltb_lt in E. left. split; [exact E|].
    destruct (resetBallTimeout s); cbn; rewrite Ht; reflexivity.
  - apply Z.ltb_ge in E. right. split; [exact E|].
    apply STATE_eqb_neq in Hs. rewrite Hs. cbn.
    destruct (resetBallTimeout s); cbn; rewrite Ht; split; reflexivity.
Qed.

(** Score, events and state after the reset timeout in multiplayer mode. *)
Lemma resetTimeoutEnded_multiplayer (s : Scene) :
  mode (config s) = MULTIPLAYER ->
  let s' := resetTimeoutEnded s in
  score s'
  = (if ballHasHitEnemyTable s
     then with_self (self (score s) + 1) (score s)
     else with_opponent (opponent (score s) + 1) (score s))
  /\ ((POINTS_FOR_WIN (config s) <= opponent (score s')
       \/ POINTS_FOR_WIN (config s) <= self (score s'))%Z
      /\ emitted s' = emitted s ++ [EV_GAME_OVER]
      /\ state (config s') = GAME_OVER
      \/ (opponent (score s') < POINTS_FOR_WIN (config s)
          /\ self (score s') < POINTS_FOR_WIN (config s))%Z
         /\ emitted s' = emitted s
         /\ state (config s') = state (config s)).
Proof.
  intros Hm s'. subst s'. unfold resetTimeoutEnded. rewrite Hm.
  rpt_shape. cbn. sendMiss_shape. cbn.
  destruct (ballHasHitEnemyTable s); cbn;
    match goal with
    | |- context [(?a <=? ?b)%Z || (?c <=? ?d)%Z] =>
        destruct (Z.leb_spec a b); destruct (Z.leb_spec c d); cbn
    end;
    (split; [reflexivity|]);
    first [ left; split; [lia | split; reflexivity]
          | right; split; [lia | split; reflexivity] ].
Qed.

(** Score, events and state after a received Miss that is not the first
    serve. *)
Lemma onReceivedMiss_scores (data : Data) (s : Scene) :
  isInit data = false ->
  let s' := onReceivedMiss data s in
  score s'
  = (if data_ballHasHitEnemyTable data
     then with_opponent (opponent (score s) + 1) (score s)
     else with_self (self (score s) + 1) (score s))
  /\ ((POINTS_FOR_WIN (config s) <= self (score s')
       \/ POINTS_FOR_WIN (config s) <= opponent (score s'))%Z
      /\ emitted s' = emitted s ++ [EV_GAME_OVER]
      /\ state (config s') = GAME_OVER
      \/ (self (score s') < POINTS_FOR_WIN (config s)
          /\ opponent (score s') < POINTS_FOR_WIN (config s))%Z
         /\ emitted s' = emitted s
         /\ state (config s') = PLAYING).
Proof.
  intros Hi s'. subst s'. unfold onReceivedMiss. rewrite Hi. cbn.
  destruct (data_ballHasHitEnemyTable data); cbn;
    match goal with
    | |- context [(?a <=? ?b)%Z || (?c <=? ?d)%Z] =>
        destruct (Z.leb_spec a b); destruct (Z.leb_spec c d); cbn
    end;
    rewrite ?score_onReceivedHit, ?emitted_onReceivedHit; cbn;
    (split; [reflexivity|]);
    first [ left; split; [lia | split; reflexivity]
          | right; split; [lia | split; reflexivity] ].
Qed.

(** C4 (amended): in multiplayer mode every scoring event -- the reset
    timeout, or a received Miss message that is not the first serve --
    increases [score.self + score.opponent] by exactly 1, and from a scene
    in which neither side has reached [POINTS_FOR_WIN] the game goes to
    GAME_OVER (the event is emitted, the state becomes GAME_OVER) exactly
    when one side then reaches it, that is, first reaches it.  In
    singleplayer mode the reset timeout does not add a point: it leaves
    [score.opponent], records [score.highest] as the maximum of
    [score.self] and [score.highest], sets [score.self] to 0 and takes one
    life, and from a scene with at least one life the game goes to GAME_OVER
    exactly when [score.lives] then drops below 1.  (The ball exists:
    [onGameOver] hides it.) *)
Theorem scoring_events (s : Scene) :
  ball s <> None ->
  (mode (config s) = MULTIPLAYER ->
   let s' := resetTimeoutEnded s in
   (self (score s') + opponent (score s')
    = self (score s) + opponent (score s) + 1)%Z
   /\ ((self (score s) < POINTS_FOR_WIN (config s)
        /\ opponent (score s) < POINTS_FOR_WIN (config s))%Z ->
       (POINTS_FOR_WIN (config s) <= self (score s')
        \/ POINTS_FOR_WIN (config s) <= opponent (score s'))%Z
       /\ emitted s' = emitted s ++ [EV_GAME_OVER]
       /\ state (config s') = GAME_OVER
       \/ (self (score s') < POINTS_FOR_WIN (config s)
           /\ opponent (score s') < POINTS_FOR_WIN (config s))%Z
          /\ emitted s' = emitted s
          /\ state (config s') = state (config s)))
  /\ (forall data, isInit data = false ->
      let s' := onReceivedMiss data s in
      (self (score s') + opponent (score s')
       = self (score s) + opponent (score s) + 1)%Z
      /\ ((self (score s) < POINTS_FOR_WIN (config s)
           /\ opponent (score s) < POINTS_FOR_WIN (config s))%Z ->
          (POINTS_FOR_WIN (config s) <= self (score s')
           \/ POINTS_FOR_WIN (config s) <= opponent (score s'))%Z
          /\ emitted s' = emitted s ++ [EV_GAME_OVER]
          /\ state (config s') = GAME_OVER
          \/ (self (score s') < POINTS_FOR_WIN (config s)
              /\ opponent (score s') < POINTS_FOR_WIN (config s))%Z
             /\ emitted s' = emitted s
             /\ state (config s') = PLAYING))
  /\ (mode (config s) = SINGLEPLAYER ->
      let s' := resetTimeoutEnded s in
      self (score s') = 0%Z
      /\ opponent (score s') = opponent (score s)
      /\ highest (score s') = Z.max (self (score s)) (highest (score s))
      /\ lives (score s') = (lives (score s) - 1)%Z
      /\ ((1 <= lives (score s))%Z ->
          (lives (score s') < 1)%Z
          /\ emitted s' = emitted s ++ [EV_GAME_OVER]
          /\ state (config s') = GAME_OVER
          \/ (1 <= lives (score s'))%Z
             /\ emitted s' = emitted s
             /\ state (config s') = state (config s))).
Proof.
  intros _. cbv zeta. split; [|split].
  - intros Hm.
    destruct (resetTimeoutEnded_multiplayer s Hm) as [Es Hg].
    rewrite Es in *. split.
    + destruct (ballHasHitEnemyTable s); cbn; lia.
    + intros _. destruct Hg as [[Hw Hg] | [Hw Hg]]; [left | right];
        (split; [lia | exact Hg]).
  - intros data Hi.
    destruct (onReceivedMiss_scores data s Hi) as [Es Hg].
    rewrite Es in *. split.
    + destruct (data_ballHasHitEnemyTable data); cbn; lia.
    + intros _. exact Hg.
  - intros Hm.
    destruct (resetTimeoutEnded_singleplayer s Hm) as [Es [_ Hg]].
    rewrite Es. cbn.
    repeat split; try reflexivity. intros _. exact Hg.
Qed.

End Scoring.

Lemma scoring_events_witness :
  let s := @run exampleWorld
             (firstServe ++ repeat (ReceivedMiss exampleMiss) 10)
             (exampleScene SINGLEPLAYER) in
  let s' := @resetTimeoutEnded exampleWorld s in
  ball s <> None
  /\ mode (config s) = MULTIPLAYER
  /\ (self (score s) < POINTS_FOR_WIN (config s)
      /\ opponent (score s) < POINTS_FOR_WIN (config s))%Z
  /\ opponent (score s) = 10%Z
  /\ (self (score s') + opponent (score s')
      = self (score s) + opponent (score s) + 1)%Z
  /\ opponent (score s') = 11%Z
  /\ emitted s' = emitted s ++ [EV_GAME_OVER]
  /\ state (config s') = GAME_OVER.
Proof.
  intros s s'.
  assert (Hb : ball s <> None) by (vm_compute; discriminate).
  assert (Hm : mode (config s) = MULTIPLAYER) by (vm_compute; reflexivity).
  assert (Hp : (self (score s) < POINTS_FOR_WIN (config s)
                /\ opponent (score s) < POINTS_FOR_WIN (config s))%Z)
    by (split; vm_compute; reflexivity).
  assert (Ho : opponent (score s') = 11%Z) by (vm_compute; reflexivity).
  split; [exact Hb|]. split; [exact Hm|]. split; [exact Hp|].
  split; [vm_compute; reflexivity|].
  destruct (proj1 (@scoring_events exampleWorld s Hb) Hm) as [Hsum Hg].
  split; [exact Hsum|]. split; [exact Ho|].
  destruct (Hg Hp) as [[_ [He Hs]] | [[_ Hlt] _]].
  - split; [exact He | exact Hs].
  - exfalso. fold s' in Hlt. rewrite Ho in Hlt.
    revert Hlt. vm_compute. discriminate.
Defined.

(** C4 as stated fails in singleplayer mode: the player has returned the ball
    twice ([score.self = 2]), then the reset timeout ends the round; the sum
    of the two scores goes from 2 to 0 instead of 3. *)
Lemma singleplayer_timeout_adds_no_point :
  let s := @run exampleWorld twoReturns (exampleScene SINGLEPLAYER) in
  let s' := @fireResetTimeout exampleWorld s in
  mode (config s) = SINGLEPLAYER
  /\ (self (score s) + opponent (score s) = 2)%Z
  /\ lives (score s) = 3%Z
  /\ lives (score s') = 2%Z
  /\ (self (score s') + opponent (score s') = 0)%Z
  /\ (self (score s') + opponent (score s')
      <> self (score s) + opponent (score s) + 1)%Z.
Proof.
  vm_compute. repeat split; discriminate.
Qed.

(** ** Lives in singleplayer mode *)

Section Lives.
Context `{Collaborators}.

Lemma fireResetTimeout_one (s : Scene) (h : nat) :
  timeouts (time s) = [h] ->
  fireResetTimeout s
  = resetTimeoutEnded (set_time (clearTimeout (Some h) (time s)) s)
  /\ timeouts (clearTimeout (Some h) (time s)) = [].
Proof.
  intros Ht.
  unfold fireResetTimeout, step, timeoutElapsed, pendingTimeout.
  rewrite Ht; cbn. rewrite Ht; cbn. rewrite Nat.eqb_refl; cbn.
  split; reflexivity.
Qed.

(** One firing of the reset timer in singleplayer mode, the timer being the
    only pending one. *)
Lemma fireResetTimeout_singleplayer (s : Scene) (h : nat) :
  mode (config s) = SINGLEPLAYER ->
  timeouts (time s) = [h] ->
  state (config s) <> GAME_OVER ->
  lives (score (fireResetTimeout s)) = (lives (score s) - 1)%Z
  /\ mode (config (fireResetTimeout s)) = SINGLEPLAYER
  /\ ((lives (score s) - 1 < 1)%Z
      /\ emitted (fireResetTimeout s) = emitted s ++ [EV_GAME_OVER]
      /\ state (config (fireResetTimeout s)) = GAME_OVER
      /\ timeouts (time (fireResetTimeout s)) = []
      \/ (1 <= lives (score s) - 1)%Z
         /\ emitted (fireResetTimeout s) = emitted s
         /\ state (config (fireResetTimeout s)) = state (config s)
         /\ exists h', timeouts (time (fireResetTimeout s)) = [h']).
Proof.
  intros Hm Ht Hs.
  destruct (fireResetTimeout_one s h Ht) as [-> Hc].
  set (s0 := set_time (clearTimeout (Some h) (time s)) s).
  change (lives (score s)) with (lives (score s0)).
  change (emitted s) with (emitted s0).
  change (state (config s)) with (state (config s0)).
  destruct (resetTimeoutEnded_singleplayer s0 Hm) as [Es [Hm' Hg]].
  destruct (resetTimeoutEnded_singleplayer_timer s0 Hm Hc Hs) as [Ht'|Ht'];
    rewrite Es; clearbody s0; cbn.
  - split; [reflexivity|]. split; [exact Hm'|].
    left. destruct Hg as [Hg|Hg]; [|lia].
    destruct Ht' as [Hl Ht'], Hg as [_ [He Hst]]. auto.
  - split; [reflexivity|]. split; [exact Hm'|].
    right. destruct Hg as [Hg|Hg]; [lia|].
    destruct Ht' as [Hl [Ht' _]], Hg as [_ [He Hst]].
    repeat split; try assumption. eexists; exact Ht'.
Qed.

(** C7: in singleplayer mode every firing of the reset timeout takes exactly
    one life, and GAME_OVER is emitted exactly when [score.lives] is then
    below 1.  Starting with 3 lives and the reset timer pending, three
    firings with no paddle hit in between leave 2, 1 and 0 lives; GAME_OVER is
    emitted by the third firing and by no earlier one, the state is then
    GAME_OVER and no timer is pending.  (The ball exists: [onGameOver] hides
    it.) *)
Theorem three_timeouts_end_the_game (s : Scene) (h : nat) :
  ball s <> None ->
  mode (config s) = SINGLEPLAYER ->
  (lives (score (resetTimeoutEnded s)) = lives (score s) - 1)%Z
  /\ ((lives (score (resetTimeoutEnded s)) < 1)%Z
      /\ emitted (resetTimeoutEnded s) = emitted s ++ [EV_GAME_OVER]
      /\ state (config (resetTimeoutEnded s)) = GAME_OVER
      \/ (1 <= lives (score (resetTimeoutEnded s)))%Z
         /\ emitted (resetTimeoutEnded s) = emitted s
         /\ state (config (resetTimeoutEnded s)) = state (config s))
  /\ (lives (score s) = 3%Z ->
      timeouts (time s) = [h] ->
      state (config s) <> GAME_OVER ->
      let s1 := fireResetTimeout s in
      let s2 := fireResetTimeout s1 in
      let s3 := fireResetTimeout s2 in
      lives (score s1) = 2%Z /\ emitted s1 = emitted s
      /\ state (config s1) = state (config s)
      /\ lives (score s2) = 1%Z /\ emitted s2 = emitted s
      /\ state (config s2) = state (config s)
      /\ lives (score s3) = 0%Z
      /\ emitted s3 = emitted s ++ [EV_GAME_OVER]
      /\ state (config s3) = GAME_OVER
      /\ timeouts (time s3) = []).
Proof.
  intros _ Hm.
  destruct (resetTimeoutEnded_singleplayer s Hm) as [Es [_ Hg]].
  split; [rewrite Es; reflexivity|].
  split; [rewrite Es; exact Hg|].
  intros Hl Ht Hs. cbv zeta.
  destruct (fireResetTimeout_singleplayer s h Hm Ht Hs)
    as [L1 [M1 [[? _]|[_ [E1 [S1 [h1 T1]]]]]]]; [lia|].
  assert (Hs1 : state (config (fireResetTimeout s)) <> GAME_OVER)
    by (rewrite S1; exact Hs).
  destruct (fireResetTimeout_singleplayer _ h1 M1 T1 Hs1)
    as [L2 [M2 [[? _]|[_ [E2 [S2 [h2 T2]]]]]]]; [lia|].
  assert (Hs2 : state (config (fireResetTimeout (fireResetTimeout s)))
                <> GAME_OVER)
    by (rewrite S2; exact Hs1).
  destruct (fireResetTimeout_singleplayer _ h2 M2 T2 Hs2)
    as [L3 [M3 [[_ [E3 [S3 T3]]]|[? _]]]]; [|lia].
  rewrite L3, L2, L1, E3, E2, E1, S2, S1, Hl.
  repeat split; try reflexivity; assumption.
Qed.

End Lives.

Lemma three_timeouts_end_the_game_witness :
  let s := @run exampleWorld
             [StartGame; IntervalElapsed 0; IntervalElapsed 0;
              IntervalElapsed 0]
             (exampleScene SINGLEPLAYER) in
  let s3 := @fireResetTimeout exampleWorld
              (@fireResetTimeout exampleWorld
                 (@fireResetTimeout exampleWorld s)) in
  ball s <> None
  /\ mode (config s) = SINGLEPLAYER
  /\ lives (score s) = 3%Z
  /\ timeouts (time s) = [1%nat]
  /\ state (config s) <> GAME_OVER
  /\ lives (score s3) = 0%Z
  /\ emitted s3 = emitted s ++ [EV_GAME_OVER]
  /\ state (config s3) = GAME_OVER.
Proof.
  intros s s3.
  assert (Hb : ball s <> None) by discriminate.
  assert (Hs : state (config s) <> GAME_OVER) by (vm_compute; discriminate).
  split; [exact Hb|].
  split; [reflexivity|]. split; [reflexivity|]. split; [reflexivity|].
  split; [exact Hs|].
  destruct (@three_timeouts_end_the_game exampleWorld s 1%nat Hb eq_refl)
    as [_ [_ W]].
  destruct (W eq_refl eq_refl Hs)
    as [_ [_ [_ [_ [_ [_ [L3 [E3 [S3 _]]]]]]]]].
  repeat split; assumption.
Defined.

(** ** Interpolation after a received hit *)

Section Interpolation.
Context `{Collaborators}.

Lemma onReceivedHit_starts_tween (s : Scene) (data : Data) :
  ballConsistent s = true ->
  ballInterpolationAlpha (onReceivedHit data false s) = 1
  /\ alphaTween (onReceivedHit data false s) = Some (TweenMax_to 1 0.5 0)
  /\ exists d, ballPositionDifference (onReceivedHit data false s) = Some d.
Proof.
  intros Hc. unfold onReceivedHit; cbn.
  split; [reflexivity|]. split; [reflexivity|].
  destruct (ball s) as [m|] eqn:Eb.
  - unfold ballConsistent in Hc. rewrite Eb in Hc.
    destruct (physics_ball (physics s)) as [b|] eqn:Ep; [|discriminate].
    cbn. rewrite Ep. eexists; reflexivity.
  - set (s' := set_time (clearTimeout (resetBallTimeout s) (time s)) s).
    assert (Hc' : ballConsistent s' = true) by exact Hc.
    destruct (addBall_creates s' Hc') as [_ [b Ep]].
    rewrite Ep. eexists; reflexivity.
Qed.

Lemma ballPositionDifference_tweenTick ms s :
  ballPositionDifference (tweenTick ms s) = ballPositionDifference s.
Proof.
  unfold tweenTick. destruct (alphaTween s) as [tw|]; [|reflexivity].
  destruct (Qle_bool (duration tw) (elapsed tw + ms / 1000)); reflexivity.
Qed.


Lemma div_1000 (q : Q) : q / 1000 == q * (1 # 1000).
Proof. unfold Qdiv. reflexivity. Qed.

Lemma div_500 (q : Q) : q / 500 == q * (1 # 500).
Proof. unfold Qdiv. reflexivity. Qed.

Lemma div_half (q : Q) : q / 0.5 == q * 2.
Proof.
  unfold Qdiv. assert (E : / 0.5 == 2) by reflexivity.
  rewrite E. reflexivity.
Qed.

(** One tick of the gsap ticker. *)
Lemma alphaAfter_tick (T ms : Q) (s : Scene) :
  0 < ms -> alphaAfter T s -> alphaAfter (T + ms) (tweenTick ms s).
Proof.
  intros Hms [[HT [[e [Etw Ee]] Ha]] | [HT [Etw Ha]]]; unfold tweenTick;
    rewrite Etw; cbn.
  - rewrite div_1000 in Ee.
    destruct (Qle_bool 0.5 (e + ms / 1000)) eqn:E; cbn.
    + apply Qle_bool_iff in E. rewrite div_1000 in E. right.
      split; [lra | split; reflexivity].
    + assert (E' : ~ 0.5 <= e + ms / 1000)
        by (intros C; apply Qle_bool_iff in C; congruence).
      apply Qnot_le_lt in E'. rewrite div_1000 in E'. left.
      split; [lra|]. split.
      * eexists. split; [reflexivity|]. rewrite !div_1000. lra.
      * cbn. rewrite div_half, div_500, div_1000. lra.
  - right. split; [lra|]. split; assumption.
Qed.

(** Any number of ticks. *)
Lemma alphaAfter_ticks (dts : list Q) :
  Forall (fun ms => 0 < ms) dts ->
  forall (T : Q) (s : Scene),
    alphaAfter T s ->
    alphaAfter (T + Qsum dts) (run (map TweenTick dts) s)
    /\ ballPositionDifference (run (map TweenTick dts) s)
       = ballPositionDifference s.
Proof.
  induction 1 as [|ms dts Hms _ IH]; intros T s Hs.
  - cbn. split; [|reflexivity].
    destruct Hs as [[HT [[e [Etw Ee]] Ha]] | [HT [Etw Ha]]];
      [left | right].
    + split; [lra|]. split; [exists e; split; [exact Etw|]|].
      * rewrite Ee. rewrite !div_1000. lra.
      * rewrite Ha. rewrite !div_500. lra.
    + split; [lra|]. split; assumption.
  - cbn [map]. change (Qsum (ms :: dts)) with (ms + Qsum dts).
    unfold run; cbn [fold_left step].
    assert (Hb : Qlt_bool 0 ms = true).
    { unfold Qlt_bool. destruct (Qle_bool ms 0) eqn:E; [|reflexivity].
      apply Qle_bool_iff in E. lra. }
    rewrite Hb.
    destruct (IH (T + ms) (tweenTick ms s) (alphaAfter_tick T ms s Hms Hs))
      as [IH1 IH2].
    fold (run (map TweenTick dts) (tweenTick ms s)).
    split.
    + destruct IH1 as [[HT [[e [Etw Ee]] Ha]] | [HT [Etw Ha]]];
        [left | right].
      * split; [lra|]. split; [exists e; split; [exact Etw|]|].
        -- rewrite Ee. rewrite !div_1000. lra.
        -- rewrite Ha. rewrite !div_500. lra.
      * split; [lra|]. split; assumption.
    + rewrite IH2. apply ballPositionDifference_tweenTick.
Qed.








End Interpolation.



(** ** The highest score *)

(** Symbolic execution of a handler: calls of the helpers are replaced by
    the field assignments they amount to, tests are split. *)
Ltac shapes :=
  repeat match goal with
  | |- context [restartPingpongTimeout ?a] =>
      let t := fresh "t" in
      let r := fresh "r" in
      destruct (restartPingpongTimeout_shape a) as (t & r & ->)
  | |- context [addBall ?a] =>
      let c := fresh "c" in
      let b := fresh "b" in
      let p := fresh "p" in
      let t := fresh "t" in
      let r := fresh "r" in
      destruct (addBall_shape a) as (c & b & p & t & r & ->)
  | |- context [slowdownBall ?a] =>
      let t := fresh "t" in
      destruct (slowdownBall_shape a) as (t & ->)
  | |- context [ballHitAnimation ?a] =>
      let l := fresh "l" in
      let t := fresh "t" in
      let v := fresh "v" in
      destruct (ballHitAnimation_shape a) as (l & t & v & ->)
  | |- context [sendMiss_ball ?f ?i ?a] =>
      let c := fresh "c" in
      destruct (sendMiss_ball_shape f i a) as (c & ->)
  end.

Ltac exec := repeat (cbn; shapes; try break_match).

Lemma onReceivedHit_shape `{Collaborators} data wasMiss s :
  exists c b p t r d a w ts,
    onReceivedHit data wasMiss s
    = set_physicsTimeStep ts
        (set_alphaTween w
           (set_ballInterpolationAlpha a
              (set_ballPositionDifference d
                 (set_resetBallTimeout r
                    (set_time t
                       (set_physics p (set_ball b (set_config c s)))))))).
Proof.
  exists (config (onReceivedHit data wasMiss s)),
    (ball (onReceivedHit data wasMiss s)),
    (physics (onReceivedHit data wasMiss s)),
    (time (onReceivedHit data wasMiss s)),
    (resetBallTimeout (onReceivedHit data wasMiss s)),
    (ballPositionDifference (onReceivedHit data wasMiss s)),
    (ballInterpolationAlpha (onReceivedHit data wasMiss s)),
    (alphaTween (onReceivedHit data wasMiss s)),
    (physicsTimeStep (onReceivedHit data wasMiss s)).
  unfold onReceivedHit. exec; reflexivity.
Qed.

Ltac shapes' :=
  repeat match goal with
  | |- context [onReceivedHit ?d ?m ?a] =>
      let c := fresh "c" in
      let b := fresh "b" in
      let p := fresh "p" in
      let t := fresh "t" in
      let r := fresh "r" in
      let d' := fresh "d" in
      let al := fresh "a" in
      let w := fresh "w" in
      let ts := fresh "ts" in
      destruct (onReceivedHit_shape d m a)
        as (c & b & p & t & r & d' & al & w & ts & ->)
  end.

Ltac exec' := repeat (cbn; shapes; shapes'; try break_match).

Section Highest.
Context `{Collaborators}.

Lemma highest_step (i : Input) (s : Scene) :
  isRestart i = false ->
  (highest (score s) <= highest (score (step i s)))%Z.
Proof.
  intros Hi. destruct i; try discriminate Hi; clear Hi; cbn [step].
  all: unfold setMultiplayer, setSingleplayer, startGame,
      onReceivedRequestCountdown, requestCountdown, onReceivedHit,
      onReceivedMiss, onBallPaddleCollision, onBallTableCollision,
      timeoutElapsed, resetTimeoutEnded, intervalElapsed,
      countdown_callback, tweenTick, hitTweenUpdate, hitTweenComplete,
      onMouseMove, onPointerLockChange, updateControls, updateBall.
  all: exec'; lia.
Qed.

Lemma highest_restart (i : Input) (s : Scene) :
  isRestart i = true -> highest (score (step i s)) = 0%Z.
Proof.
  intros Hi. destruct i; try discriminate Hi; clear Hi; cbn [step];
    unfold onRestartButtonPressed, onReceivedRestartGame, restartGame;
    exec'; reflexivity.
Qed.

(** C10: no input other than a restart lowers [score.highest]: every
    scoring and timeout operation leaves it or raises it.  The singleplayer
    reset timeout sets it to [max(score.self, score.highest)] and then
    [score.self] to 0.  [resetScore] sets it to 0, and so do the two inputs
    whose handler reaches [resetScore] through [restartGame]. *)
Theorem highest_never_decreases (i : Input) (s : Scene) :
  (isRestart i = false ->
   (highest (score s) <= highest (score (step i s)))%Z)
  /\ (mode (config s) = SINGLEPLAYER ->
      highest (score (resetTimeoutEnded s))
      = Z.max (self (score s)) (highest (score s))
      /\ self (score (resetTimeoutEnded s)) = 0%Z)
  /\ highest (score (resetScore s)) = 0%Z
  /\ (isRestart i = true -> highest (score (step i s)) = 0%Z).
Proof.
  split; [apply highest_step|].
  split; [|split; [reflexivity | apply highest_restart]].
  intros Hm. destruct (resetTimeoutEnded_singleplayer s Hm) as [Es _].
  rewrite Es. split; reflexivity.
Qed.

End Highest.

Lemma highest_never_decreases_witness :
  let s := @run exampleWorld twoReturns (exampleScene SINGLEPLAYER) in
  isRestart (TimeoutElapsed 3) = false
  /\ highest (score s) = 0%Z
  /\ highest (score (@step exampleWorld (TimeoutElapsed 3) s)) = 2%Z
  /\ (highest (score s)
      <= highest (score (@step exampleWorld (TimeoutElapsed 3) s)))%Z.
Proof.
  intros s. split; [reflexivity|]. split; [reflexivity|].
  split; [reflexivity|].
  exact (proj1 (@highest_never_decreases exampleWorld (TimeoutElapsed 3) s)
           eq_refl).
Defined.

(** ** Timers *)

Section Timers.
Context `{Collaborators}.

Lemma timersOk_ext (s s' : Scene) :
  timerView s = timerView s' -> timersOk s' -> timersOk s.
Proof.
  unfold timerView, timersOk, oneResetTimer.
  intros E. injection E as E1 E2 E3. rewrite E1, E2, E3. exact (fun x => x).
Qed.

Lemma timersOk_empty (s : Scene) : timeouts (time s) = [] -> timersOk s.
Proof. intros E. split; [left; exact E | intros _; exact E]. Qed.

(** [clearTimeout(this.resetBallTimeout)] leaves no reset timer pending. *)
Lemma clearTimeout_empties (s : Scene) :
  oneResetTimer s ->
  timeouts (clearTimeout (resetBallTimeout s) (time s)) = [].
Proof.
  intros [E | [h [E Er]]].
  - destruct (resetBallTimeout s); cbn; rewrite ?E; reflexivity.
  - rewrite Er; cbn. rewrite E; cbn. rewrite Nat.eqb_refl. reflexivity.
Qed.

Lemma timersOk_clear (s s' : Scene) :
  timersOk s ->
  timersOk (set_time (clearTimeout (resetBallTimeout s) (time s)) s').
Proof.
  intros [Ho _]. apply timersOk_empty. exact (clearTimeout_empties s Ho).
Qed.

(** A timer that fires is no longer pending. *)
Lemma timersOk_fire (s : Scene) (h : nat) :
  timersOk s -> timersOk (set_time (clearTimeout (Some h) (time s)) s).
Proof.
  intros [[E | [k [E Er]]] Hg].
  - apply timersOk_empty. cbn. rewrite E. reflexivity.
  - destruct (Nat.eqb k h) eqn:Ek.
    + apply timersOk_empty. cbn. rewrite E; cbn. rewrite Ek. reflexivity.
    + split.
      * right. exists k. cbn. rewrite E; cbn. rewrite Ek. auto.
      * intros Hs. cbn in Hs. rewrite (Hg Hs) in E. discriminate.
Qed.

Lemma timersOk_set_state (c : Config) (s : Scene) :
  state c <> GAME_OVER -> timersOk s -> timersOk (set_config c s).
Proof.
  intros Hc [Ho _]. split; [exact Ho | intros E; contradiction].
Qed.

(** The interval operations do not touch the timeouts. *)
Lemma timersOk_set_time (t : Time) (s : Scene) :
  timeouts t = timeouts (time s) -> timersOk s -> timersOk (set_time t s).
Proof.
  unfold timersOk, oneResetTimer. cbn. intros ->. exact (fun x => x).
Qed.

Lemma timersOk_set_mode (m : MODE) (s : Scene) :
  timersOk s -> timersOk (set_config (with_mode m (config s)) s).
Proof. exact (fun x => x). Qed.

Lemma timersOk_restartPingpongTimeout (s : Scene) :
  timersOk s -> timersOk (restartPingpongTimeout s).
Proof.
  intros [Ho _]. unfold restartPingpongTimeout; cbn.
  pose proof (clearTimeout_empties s Ho) as Ec.
  destruct (STATE_eqb (state (config s)) GAME_OVER) eqn:Es.
  - apply timersOk_empty. exact Ec.
  - apply STATE_eqb_neq in Es. split.
    + right. eexists. cbn. rewrite Ec. split; reflexivity.
    + intros E. contradiction.
Qed.

Lemma timersOk_onGameOver (s : Scene) :
  timersOk s -> timersOk (onGameOver s).
Proof.
  intros [Ho _]. apply timersOk_empty. exact (clearTimeout_empties s Ho).
Qed.

Lemma timersOk_emit_GAME_OVER (s : Scene) :
  timersOk s -> timersOk (emit_GAME_OVER s).
Proof. intros Hs. apply timersOk_onGameOver. exact Hs. Qed.

End Timers.

(** One step of the proof that a handler keeps the timer invariant: the
    outermost call or assignment of the scene expression is peeled off. *)
Ltac timers_step :=
  lazymatch goal with
  | Hs : timersOk ?s |- timersOk ?s => exact Hs
  | |- timersOk (restartPingpongTimeout _) =>
      apply timersOk_restartPingpongTimeout
  | |- timersOk (emit_GAME_OVER _) => apply timersOk_emit_GAME_OVER
  | |- timersOk (onGameOver _) => apply timersOk_onGameOver
  | |- timersOk (set_time (clearTimeout (resetBallTimeout ?a) (time ?a)) ?b)
    => apply (timersOk_clear a b)
  | |- timersOk (set_time (clearTimeout (Some ?h) (time ?a)) ?a) =>
      apply (timersOk_fire a h)
  | |- timersOk (set_time ?t ?s) => apply (timersOk_set_time t s eq_refl)
  | |- timersOk (set_config (with_state _ _) _) =>
      apply timersOk_set_state; [discriminate|]
  | |- timersOk (set_config (with_mode ?m (config ?s)) ?s) =>
      apply (timersOk_set_mode m s)
  | |- timersOk (if ?c then _ else _) => destruct c
  | |- timersOk (match ?x with _ => _ end) => destruct x
  | |- timersOk (?f ?v ?s) =>
      refine ((fun y Hy => timersOk_ext (f v y) y eq_refl Hy) s _)
  | |- timersOk (?f ?s) =>
      refine ((fun y Hy => timersOk_ext (f y) y eq_refl Hy) s _)
  end.

Arguments timersOk : simpl never.
Arguments clearTimeout : simpl never.

Section TimersInvariant.
Context `{Collaborators}.

Lemma timersOk_sendMiss_ball f i (s : Scene) :
  timersOk s -> timersOk (sendMiss_ball f i s).
Proof.
  intros Hs. destruct (sendMiss_ball_shape f i s) as (c & ->).
  repeat timers_step.
Qed.

Lemma timersOk_slowdownBall (s : Scene) :
  timersOk s -> timersOk (slowdownBall s).
Proof.
  intros Hs. destruct (slowdownBall_shape s) as (t & ->).
  repeat timers_step.
Qed.

Lemma timersOk_ballHitAnimation (s : Scene) :
  timersOk s -> timersOk (ballHitAnimation s).
Proof.
  intros Hs. destruct (ballHitAnimation_shape s) as (l & t & a & ->).
  repeat timers_step.
Qed.

Lemma timersOk_addBall (s : Scene) : timersOk s -> timersOk (addBall s).
Proof. intros Hs. unfold addBall. cbn. repeat timers_step. Qed.

Ltac timers_call :=
  lazymatch goal with
  | |- timersOk (sendMiss_ball _ _ _) => apply timersOk_sendMiss_ball
  | |- timersOk (slowdownBall _) => apply timersOk_slowdownBall
  | |- timersOk (ballHitAnimation _) => apply timersOk_ballHitAnimation
  | |- timersOk (addBall _) => apply timersOk_addBall
  | |- _ => timers_step
  end.

Lemma timersOk_onReceivedHit data wasMiss (s : Scene) :
  timersOk s -> timersOk (onReceivedHit data wasMiss s).
Proof.
  intros Hs. unfold onReceivedHit. cbn. repeat timers_call.
Qed.

Lemma timersOk_onReceivedMiss data (s : Scene) :
  timersOk s -> timersOk (onReceivedMiss data s).
Proof.
  intros Hs. unfold onReceivedMiss. cbn.
  repeat lazymatch goal with
         | |- timersOk (onReceivedHit _ _ _) => apply timersOk_onReceivedHit
         | |- _ => timers_call
         end.
Qed.

Lemma timersOk_resetTimeoutEnded (s : Scene) :
  timersOk s -> timersOk (resetTimeoutEnded s).
Proof.
  intros Hs. unfold resetTimeoutEnded. cbn. repeat timers_call.
Qed.

Lemma timersOk_onBallPaddleCollision point (s : Scene) :
  timersOk s -> timersOk (onBallPaddleCollision point s).
Proof.
  intros Hs. unfold onBallPaddleCollision. cbn. repeat timers_call.
Qed.

Lemma timersOk_countdown (s : Scene) : timersOk s -> timersOk (countdown s).
Proof.
  intros Hs. unfold countdown. cbn. repeat timers_step.
Qed.

Lemma timersOk_countdown_callback h n (s : Scene) :
  timersOk s -> timersOk (countdown_callback h n s).
Proof.
  intros Hs. unfold countdown_callback. cbn. repeat timers_call.
Qed.

Lemma timersOk_restartGame (s : Scene) :
  timersOk s -> timersOk (restartGame s).
Proof.
  intros Hs. unfold restartGame. cbn.
  repeat lazymatch goal with
         | |- timersOk (countdown _) => apply timersOk_countdown
         | |- _ => timers_call
         end.
Qed.

(** Every input keeps the timer invariant. *)
Lemma timersOk_step (i : Input) (s : Scene) :
  timersOk s -> timersOk (step i s).
Proof.
  intros Hs. destruct i; cbn [step];
    unfold setMultiplayer, setSingleplayer, startGame,
      onRestartButtonPressed, onReceivedRestartGame,
      onReceivedRequestCountdown, requestCountdown, onBallTableCollision,
      timeoutElapsed, intervalElapsed, tweenTick, hitTweenUpdate,
      hitTweenComplete, onMouseMove, onPointerLockChange, updateControls,
      updateBall;
    cbn;
    repeat lazymatch goal with
           | |- timersOk (onReceivedHit _ _ _) =>
               apply timersOk_onReceivedHit
           | |- timersOk (onReceivedMiss _ _) => apply timersOk_onReceivedMiss
           | |- timersOk (resetTimeoutEnded _) =>
               apply timersOk_resetTimeoutEnded
           | |- timersOk (onBallPaddleCollision _ _) =>
               apply timersOk_onBallPaddleCollision
           | |- timersOk (countdown _) => apply timersOk_countdown
           | |- timersOk (countdown_callback _ _ _) =>
               apply timersOk_countdown_callback
           | |- timersOk (restartGame _) => apply timersOk_restartGame
           | |- _ => timers_call
           end.
Qed.

Lemma timersOk_reachable cfg host lat (s : Scene) :
  reachable cfg host lat s -> timersOk s.
Proof.
  induction 1 as [|i s _ IH].
  - apply timersOk_empty. reflexivity.
  - apply timersOk_step. exact IH.
Qed.

End TimersInvariant.

Section PendingTimers.
Context `{Collaborators}.

Lemma reachable_run cfg host lat (inputs : list Input) (s : Scene) :
  reachable cfg host lat s -> reachable cfg host lat (run inputs s).
Proof.
  revert s. induction inputs as [|i inputs IH]; intros s Hs.
  - exact Hs.
  - apply (IH (step i s)). apply reachable_step. exact Hs.
Qed.

Lemma intervals_restartPingpongTimeout (s : Scene) :
  intervals (time (restartPingpongTimeout s)) = intervals (time s).
Proof.
  unfold restartPingpongTimeout, clearTimeout; cbn.
  destruct (STATE_eqb _ _), (resetBallTimeout s); reflexivity.
Qed.

Lemma intervals_addBall (s : Scene) :
  intervals (time (addBall s)) = intervals (time s).
Proof.
  unfold addBall; cbn.
  destruct (ball s); rewrite intervals_restartPingpongTimeout; reflexivity.
Qed.

(** The pending intervals after the callback of interval [h] has run. *)
Lemma intervals_countdown_callback (h : nat) (n : Z) (s : Scene) :
  intervals (time (countdown_callback h n s))
  = if (n - 1 <? 0)%Z
    then intervals (clearInterval h (assign_n h (n - 1) (time s)))
    else intervals (assign_n h (n - 1) (time s)).
Proof.
  unfold countdown_callback. cbv zeta.
  destruct (n - 1 <? 0)%Z; [|reflexivity].
  destruct (mode (config _)); [|destruct (negb _)];
    try destruct (sendMiss_ball_shape true true
                    (addBall
                       (set_time
                          (clearInterval h
                             (time (set_time (assign_n h (n - 1) (time s)) s)))
                          (set_time (assign_n h (n - 1) (time s)) s))))
      as (c & ->);
    cbn; rewrite ?intervals_addBall; reflexivity.
Qed.

(** The interval of a countdown: two ticks leave it pending, the third
    cancels it. *)
Lemma countdown_interval_ticks (h : nat) (s : Scene) :
  intervals (time s) = [{| handle := h; countdown_n := 2 |}] ->
  intervals (time (step (IntervalElapsed h) s))
  = [{| handle := h; countdown_n := 1 |}]
  /\ intervals (time (run [IntervalElapsed h; IntervalElapsed h] s))
     = [{| handle := h; countdown_n := 0 |}]
  /\ intervals
       (time (run [IntervalElapsed h; IntervalElapsed h; IntervalElapsed h]
                s))
     = [].
Proof.
  intros E0.
  assert (tick : forall n s',
            intervals (time s') = [{| handle := h; countdown_n := n |}] ->
            intervals (time (step (IntervalElapsed h) s'))
            = if (n - 1 <? 0)%Z then []
              else [{| handle := h; countdown_n := (n - 1)%Z |}]).
  { intros n s' E. cbn [step]. unfold intervalElapsed, pendingInterval.
    rewrite E; cbn. rewrite Nat.eqb_refl.
    rewrite intervals_countdown_callback. cbn. rewrite E; cbn.
    rewrite Nat.eqb_refl; cbn. rewrite Nat.eqb_refl; cbn.
    destruct (n - 1 <? 0)%Z; reflexivity. }
  pose proof (tick 2%Z s E0) as E1. cbn in E1.
  pose proof (tick 1%Z _ E1) as E2. cbn in E2.
  pose proof (tick 0%Z _ E2) as E3. cbn in E3.
  split; [exact E1|]. split; [exact E2 | exact E3].
Qed.

(** *** Countdown intervals among other inputs *)

Lemma clearTimeout_nextHandle (r : option nat) (t : Time) :
  nextHandle (clearTimeout r t) = nextHandle t.
Proof. destruct r; reflexivity. Qed.

Lemma intervals_clearTimeout (r : option nat) (t : Time) :
  intervals (clearTimeout r t) = intervals t.
Proof. destruct r; reflexivity. Qed.

Lemma restartPingpongTimeout_shape_time (s : Scene) :
  exists t r,
    restartPingpongTimeout s = set_resetBallTimeout r (set_time t s)
    /\ intervals t = intervals (time s)
    /\ (nextHandle (time s) <= nextHandle t)%nat.
Proof.
  destruct (restartPingpongTimeout_shape s) as (t & r & E).
  exists t, r. split; [exact E|].
  pose proof (f_equal time E) as Et.
  change (time (restartPingpongTimeout s) = t) in Et.
  rewrite <- Et. split; [apply intervals_restartPingpongTimeout|].
  unfold restartPingpongTimeout. cbv zeta.
  change (state (config (set_time (clearTimeout (resetBallTimeout s) (time s))
                           s)))
    with (state (config s)).
  destruct (STATE_eqb (state (config s)) GAME_OVER); cbn;
    rewrite clearTimeout_nextHandle; lia.
Qed.

Lemma addBall_shape_time (s : Scene) :
  exists c b p t r,
    addBall s
    = set_resetBallTimeout r
        (set_time t (set_physics p (set_ball b (set_config c s))))
    /\ intervals t = intervals (time s)
    /\ (nextHandle (time s) <= nextHandle t)%nat.
Proof.
  unfold addBall. cbv zeta.
  destruct (ball (set_config (with_state PLAYING (config s)) s));
    match goal with
    | |- context [restartPingpongTimeout ?a] =>
        destruct (restartPingpongTimeout_shape_time a)
          as (t & r & -> & Hi & Hn)
    end;
    do 5 eexists; (split; [reflexivity|]); split; assumption.
Qed.

Lemma onReceivedHit_shape_time data wasMiss (s : Scene) :
  exists c b p t r d a w ts,
    onReceivedHit data wasMiss s
    = set_physicsTimeStep ts
        (set_alphaTween w
           (set_ballInterpolationAlpha a
              (set_ballPositionDifference d
                 (set_resetBallTimeout r
                    (set_time t
                       (set_physics p (set_ball b (set_config c s))))))))
    /\ intervals t = intervals (time s)
    /\ (nextHandle (time s) <= nextHandle t)%nat.
Proof.
  destruct (onReceivedHit_shape data wasMiss s)
    as (c & b & p & t & r & d & a & w & ts & E).
  exists c, b, p, t, r, d, a, w, ts. split; [exact E|].
  pose proof (f_equal time E) as Et.
  change (time (onReceivedHit data wasMiss s) = t) in Et.
  rewrite <- Et. clear E Et.
  unfold onReceivedHit. cbv zeta.
  set (s0 := set_time (clearTimeout (resetBallTimeout s) (time s)) s).
  assert (E0 : intervals (time s0) = intervals (time s)
               /\ nextHandle (time s0) = nextHandle (time s))
    by (split; [apply intervals_clearTimeout | apply clearTimeout_nextHandle]).
  destruct E0 as [Ei En]. rewrite <- Ei, <- En. clearbody s0.
  destruct (ball s0).
  - destruct wasMiss; cbn;
      repeat match goal with
             | |- context [match ?e with _ => _ end] => destruct e
             end; cbn; split; first [reflexivity | lia].
  - destruct (addBall_shape_time s0) as (c' & b' & p' & t' & r' & -> & Hi & Hn).
    destruct wasMiss; cbn;
      repeat match goal with
             | |- context [match ?e with _ => _ end] => destruct e
             end; cbn; split; assumption.
Qed.

(** Symbolic execution that keeps track of the scheduler: the helpers
    leave the intervals alone and never lower the next handle. *)
Ltac shapesT :=
  repeat match goal with
  | |- context [ballHitAnimation ?a] =>
      let l := fresh "l" in
      let t := fresh "t" in
      let v := fresh "v" in
      destruct (ballHitAnimation_shape a) as (l & t & v & ->)
  | |- context [slowdownBall ?a] =>
      let t := fresh "t" in
      destruct (slowdownBall_shape a) as (t & ->)
  | |- context [sendMiss_ball ?f ?i ?a] =>
      let c := fresh "c" in
      destruct (sendMiss_ball_shape f i a) as (c & ->)
  | |- context [addBall ?a] =>
      let c := fresh "c" in
      let b := fresh "b" in
      let p := fresh "p" in
      let t := fresh "t" in
      let r := fresh "r" in
      let Hi := fresh "Hi" in
      let Hn := fresh "Hn" in
      destruct (addBall_shape_time a) as (c & b & p & t & r & -> & Hi & Hn);
      cbn in Hi, Hn;
      rewrite ?intervals_clearTimeout in Hi;
      rewrite ?clearTimeout_nextHandle in Hn
  | |- context [onReceivedHit ?d ?m ?a] =>
      let c := fresh "c" in
      let b := fresh "b" in
      let p := fresh "p" in
      let t := fresh "t" in
      let r := fresh "r" in
      let d' := fresh "d" in
      let al := fresh "a" in
      let w := fresh "w" in
      let ts := fresh "ts" in
      let Hi := fresh "Hi" in
      let Hn := fresh "Hn" in
      destruct (onReceivedHit_shape_time d m a)
        as (c & b & p & t & r & d' & al & w & ts & -> & Hi & Hn);
      cbn in Hi, Hn;
      rewrite ?intervals_clearTimeout in Hi;
      rewrite ?clearTimeout_nextHandle in Hn
  | |- context [restartPingpongTimeout ?a] =>
      let t := fresh "t" in
      let r := fresh "r" in
      let Hi := fresh "Hi" in
      let Hn := fresh "Hn" in
      destruct (restartPingpongTimeout_shape_time a)
        as (t & r & -> & Hi & Hn);
      cbn in Hi, Hn;
      rewrite ?intervals_clearTimeout in Hi;
      rewrite ?clearTimeout_nextHandle in Hn
  end.

Ltac execT := repeat (cbn; shapesT; try break_match).

Ltac norm_time :=
  repeat match goal with
         | Hx : intervals _ = _ |- _ =>
             progress (cbn in Hx; rewrite ?intervals_clearTimeout in Hx)
         | Hx : (_ <= nextHandle _)%nat |- _ =>
             progress (cbn in Hx; rewrite ?clearTimeout_nextHandle in Hx)
         end.

Lemma time_resetTimeoutEnded (s : Scene) :
  intervals (time (resetTimeoutEnded s)) = intervals (time s)
  /\ (nextHandle (time s) <= nextHandle (time (resetTimeoutEnded s)))%nat.
Proof.
  unfold resetTimeoutEnded, emit_GAME_OVER, onGameOver, initBallPosition.
  repeat (cbn; try break_match); execT; norm_time;
    rewrite ?intervals_clearTimeout, ?clearTimeout_nextHandle;
    (split; [congruence | lia]).
Qed.

Ltac unfold_handlers :=
  unfold setMultiplayer, setSingleplayer, startGame,
    onRestartButtonPressed, onReceivedRestartGame, restartGame,
    onReceivedRequestCountdown, requestCountdown, onReceivedMiss,
    onBallPaddleCollision, onBallTableCollision,
    tweenTick, hitTweenUpdate, hitTweenComplete,
    onMouseMove, onPointerLockChange, updateControls, updateBall.

Lemma time_step_other (i : Input) (s : Scene) :
  isTick i = false ->
  (nextHandle (time s) <= nextHandle (time (step i s)))%nat
  /\ (intervals (time (step i s)) = intervals (time s)
      \/ intervals (time (step i s))
         = intervals (time s)
           ++ [{| handle := nextHandle (time s); countdown_n := 2 |}]
         /\ (nextHandle (time s) < nextHandle (time (step i s)))%nat).
Proof.
  intros Hi0.
  destruct i; try discriminate Hi0; clear Hi0; cbn [step];
    try (unfold timeoutElapsed;
         destruct (pendingTimeout h (time s));
           [|split; [lia | left; reflexivity]];
         destruct (time_resetTimeoutEnded
                     (set_time (clearTimeout (Some h) (time s)) s))
           as [Ei En];
         cbn in Ei, En; rewrite clearTimeout_nextHandle in En;
         split; [exact En | left; exact Ei]);
    unfold_handlers;
    unfold emit_GAME_OVER, emit_RESTART_GAME, onGameOver, resetScore, send;
    execT.
  all: rewrite ?intervals_clearTimeout, ?clearTimeout_nextHandle.
  all: try (split; [lia | left; reflexivity]).
  all: try (split; [lia | right; split; [reflexivity | lia]]).
  all: norm_time.
  all: split; [lia | left; congruence].
Qed.

Lemma find_handle (h : nat) (l : list Interval) (j : Interval) :
  find (fun i => Nat.eqb (handle i) h) l = Some j -> handle j = h.
Proof.
  intros E. apply find_some in E. destruct E as [_ E].
  apply Nat.eqb_eq in E. exact E.
Qed.

Lemma find_app_fresh (h : nat) (l : list Interval) (j : Interval) :
  handle j <> h ->
  find (fun i => Nat.eqb (handle i) h) (l ++ [j])
  = find (fun i => Nat.eqb (handle i) h) l.
Proof.
  intros Hj. induction l as [|a l IH]; cbn.
  - destruct (Nat.eqb_spec (handle j) h); [contradiction | reflexivity].
  - destruct (Nat.eqb (handle a) h); [reflexivity | exact IH].
Qed.

Lemma find_filter_other (h k : nat) (l : list Interval) :
  find (fun i => Nat.eqb (handle i) h)
    (filter (fun i => negb (Nat.eqb (handle i) k)) l)
  = if Nat.eqb k h then None else find (fun i => Nat.eqb (handle i) h) l.
Proof.
  induction l as [|a l IH]; cbn.
  - destruct (Nat.eqb k h); reflexivity.
  - destruct (Nat.eqb_spec (handle a) k) as [Ek | Ek]; cbn.
    + rewrite IH. destruct (Nat.eqb_spec k h) as [Eh | Eh]; [reflexivity|].
      destruct (Nat.eqb_spec (handle a) h); [congruence | reflexivity].
    + destruct (Nat.eqb_spec (handle a) h) as [Eh | Eh].
      * destruct (Nat.eqb_spec k h); [congruence | reflexivity].
      * exact IH.
Qed.

Lemma find_map_assign (h k : nat) (n : Z) (l : list Interval) :
  find (fun i => Nat.eqb (handle i) h)
    (map (fun i => if Nat.eqb (handle i) k
                   then {| handle := k; countdown_n := n |} else i) l)
  = if Nat.eqb k h
    then match find (fun i => Nat.eqb (handle i) h) l with
         | Some _ => Some {| handle := k; countdown_n := n |}
         | None => None
         end
    else find (fun i => Nat.eqb (handle i) h) l.
Proof.
  induction l as [|a l IH]; cbn.
  - destruct (Nat.eqb k h); reflexivity.
  - destruct (Nat.eqb_spec (handle a) k) as [Ek | Ek]; cbn.
    + destruct (Nat.eqb_spec k h) as [Eh | Eh].
      * rewrite Ek, Eh, Nat.eqb_refl. reflexivity.
      * rewrite Ek. destruct (Nat.eqb_spec k h); [contradiction|].
        rewrite IH. destruct (Nat.eqb_spec k h); [contradiction|].
        reflexivity.
    + destruct (Nat.eqb_spec (handle a) h) as [Eh | Eh].
      * destruct (Nat.eqb_spec k h); [congruence | reflexivity].
      * exact IH.
Qed.

(** The pending intervals after a tick of interval [k]. *)
Lemma intervals_tick (k : nat) (s : Scene) :
  (nextHandle (time s) <= nextHandle (time (step (IntervalElapsed k) s)))%nat
  /\ intervals (time (step (IntervalElapsed k) s))
     = match pendingInterval k (time s) with
       | None => intervals (time s)
       | Some j =>
           if (countdown_n j - 1 <? 0)%Z
           then filter (fun i => negb (Nat.eqb (handle i) k))
                  (intervals (time s))
           else map (fun i => if Nat.eqb (handle i) k
                              then {| handle := k;
                                      countdown_n := countdown_n j - 1 |}
                              else i)
                  (intervals (time s))
       end.
Proof.
  cbn [step]. unfold intervalElapsed.
  destruct (pendingInterval k (time s)) as [j|]; [|split; [lia|reflexivity]].
  split.
  - unfold countdown_callback. execT; lia.
  - rewrite intervals_countdown_callback.
    destruct (countdown_n j - 1 <? 0)%Z; [|reflexivity].
    cbn. induction (intervals (time s)) as [|a l IH]; [reflexivity|].
    cbn. destruct (Nat.eqb_spec (handle a) k) as [Ek | Ek]; cbn.
    + rewrite Nat.eqb_refl. cbn. exact IH.
    + destruct (Nat.eqb_spec (handle a) k); [contradiction|]. cbn.
      rewrite IH. reflexivity.
Qed.

(** Every input keeps the handles of the pending intervals below the next
    handle and their counters between 0 and 2. *)
Lemma intervalsOk_step (i : Input) (s : Scene) :
  intervalsOk s -> intervalsOk (step i s).
Proof.
  unfold intervalsOk. intros Hs.
  destruct (isTick i) eqn:Ei.
  - destruct i; try discriminate Ei. clear Ei.
    destruct (intervals_tick h s) as [Hn ->].
    destruct (pendingInterval h (time s)) as [j|] eqn:Ej.
    + assert (Hj : (handle j < nextHandle (time s))%nat
                   /\ (0 <= countdown_n j <= 2)%Z).
      { unfold pendingInterval in Ej. apply find_some in Ej.
        rewrite Forall_forall in Hs. apply Hs. exact (proj1 Ej). }
      assert (Hh : handle j = h) by exact (find_handle h _ j Ej).
      destruct (countdown_n j - 1 <? 0)%Z eqn:En.
      * rewrite Forall_forall in *. intros a Ha.
        apply filter_In in Ha. destruct (Hs a (proj1 Ha)). split; lia.
      * apply Z.ltb_ge in En.
        rewrite Forall_forall in *. intros a Ha.
        apply in_map_iff in Ha. destruct Ha as (a0 & <- & Ha0).
        destruct (Hs a0 Ha0).
        destruct (Nat.eqb (handle a0) h); cbn [handle countdown_n];
          split; lia.
    + eapply Forall_impl; [|exact Hs]. cbn beta. intros a [? ?]. split; lia.
  - destruct (time_step_other i s Ei) as [Hn [-> | [-> Hlt]]].
    + eapply Forall_impl; [|exact Hs]. cbn beta. intros a [? ?]. split; lia.
    + apply Forall_app. split.
      * eapply Forall_impl; [|exact Hs]. cbn beta. intros a [? ?].
        split; lia.
      * constructor; [|constructor]. cbn [handle countdown_n]. split; lia.
Qed.

Lemma pending_step (h : nat) (i : Input) (s : Scene) :
  (h < nextHandle (time s))%nat ->
  pendingInterval h (time (step i s))
  = tickInterval h i (pendingInterval h (time s))
  /\ (h < nextHandle (time (step i s)))%nat.
Proof.
  intros Hh.
  destruct (isTick i) eqn:Ei.
  - destruct i; try discriminate Ei. clear Ei.
    destruct (intervals_tick h0 s) as [Hn E].
    split; [|lia].
    unfold pendingInterval at 1. rewrite E. unfold tickInterval.
    destruct (pendingInterval h0 (time s)) as [j0|] eqn:Ej0.
    + destruct (countdown_n j0 - 1 <? 0)%Z eqn:En.
      * rewrite find_filter_other.
        destruct (Nat.eqb_spec h0 h) as [-> | Hne].
        -- unfold pendingInterval in *. rewrite Ej0, En. reflexivity.
        -- unfold pendingInterval.
           destruct (find _ (intervals (time s))); reflexivity.
      * rewrite find_map_assign.
        destruct (Nat.eqb_spec h0 h) as [-> | Hne].
        -- unfold pendingInterval in *. rewrite Ej0, En. reflexivity.
        -- unfold pendingInterval.
           destruct (find _ (intervals (time s))); reflexivity.
    + destruct (Nat.eqb_spec h0 h) as [-> | Hne].
      * rewrite Ej0. unfold pendingInterval in Ej0. exact Ej0.
      * unfold pendingInterval.
        destruct (find _ (intervals (time s))); reflexivity.
  - destruct (time_step_other i s Ei) as [Hn Hor].
    split; [|lia].
    assert (Et : tickInterval h i (pendingInterval h (time s))
                 = pendingInterval h (time s))
      by (destruct i; try discriminate Ei; reflexivity).
    rewrite Et. unfold pendingInterval.
    destruct Hor as [-> | [-> _]]; [reflexivity|].
    apply find_app_fresh. cbn. lia.
Qed.

Lemma pending_run (h : nat) (inputs : list Input) (s : Scene) :
  (h < nextHandle (time s))%nat ->
  (forall j, pendingInterval h (time s) = Some j ->
             (0 <= countdown_n j)%Z) ->
  pendingInterval h (time (run inputs s))
  = afterTicks h (pendingInterval h (time s)) (ticksOf h inputs).
Proof.
  revert s. induction inputs as [|i inputs IH]; intros s Hh Hpos.
  - cbn. destruct (pendingInterval h (time s)) as [j|] eqn:Ej; [|reflexivity].
    pose proof (find_handle h _ j Ej) as Hj.
    pose proof (Hpos j eq_refl) as Hn.
    cbn. destruct (Z.leb_spec 0 (countdown_n j)); [|lia].
    destruct j as [hj nj]. cbn in *. subst hj. f_equal. f_equal. lia.
  - change (run (i :: inputs) s) with (run inputs (step i s)).
    destruct (pending_step h i s Hh) as [E Hh'].
    rewrite (IH (step i s) Hh').
    2:{ intros j. rewrite E. unfold tickInterval.
        destruct i; try (apply Hpos).
        destruct (pendingInterval h (time s)) as [j0|];
          [|intros C; discriminate C].
        destruct (Nat.eqb h0 h); [|apply Hpos].
        destruct (countdown_n j0 - 1 <? 0)%Z eqn:En;
          [intros C; discriminate C|].
        apply Z.ltb_ge in En. intros C. injection C as <-. cbn. lia. }
    rewrite E. unfold tickInterval, afterTicks.
    destruct i; try reflexivity.
    cbn [ticksOf].
    destruct (pendingInterval h (time s)) as [j|] eqn:Ej.
    2:{ destruct (Nat.eqb h0 h); reflexivity. }
    pose proof (Hpos j eq_refl) as Hn.
    destruct (Nat.eqb h0 h); [|reflexivity].
    destruct (countdown_n j - 1 <? 0)%Z eqn:En.
    + apply Z.ltb_lt in En.
      destruct (Z.leb_spec (Z.of_nat (S (ticksOf h inputs))) (countdown_n j));
        [lia | reflexivity].
    + apply Z.ltb_ge in En. cbn [countdown_n].
      destruct (Z.leb_spec (Z.of_nat (ticksOf h inputs)) (countdown_n j - 1));
        destruct (Z.leb_spec (Z.of_nat (S (ticksOf h inputs)))
                    (countdown_n j));
        try lia; [|reflexivity].
      f_equal. f_equal. lia.
Qed.

Lemma intervalsOk_reachable cfg host lat (s : Scene) :
  reachable cfg host lat s -> intervalsOk s.
Proof.
  induction 1 as [|i s _ IH].
  - constructor.
  - apply intervalsOk_step. exact IH.
Qed.

(** C8 (amended): in every reachable scene at most one reset timer is
    pending.  [restartPingpongTimeout] is the only function that schedules
    it, and the cancellation it starts with leaves no reset timer pending.
    [countdown] itself cancels nothing: it adds an interval to the pending
    ones.  Every countdown interval cancels itself on its third tick,
    whatever other intervals are pending and whatever other inputs come in
    between: the interval that [countdown] starts is pending with counter
    [2 - k] after [k <= 2] of its ticks and is not pending from its third
    tick on; an interval that is pending with counter [n] is cancelled by
    its tick number [n + 1] from there.  The tick that cancels the interval
    clears it before the ball is added. *)
Theorem pending_timers cfg host lat (s : Scene) :
  reachable cfg host lat s ->
  (length (timeouts (time s)) <= 1)%nat
  /\ timeouts (clearTimeout (resetBallTimeout s) (time s)) = []
  /\ (length (timeouts (time (restartPingpongTimeout s))) <= 1)%nat
  /\ intervals (time (countdown s))
     = intervals (time s)
       ++ [{| handle := nextHandle (time s); countdown_n := 2 |}]
  /\ (forall h,
      intervals (time s) = [{| handle := h; countdown_n := 2 |}] ->
      intervals (time (step (IntervalElapsed h) s))
      = [{| handle := h; countdown_n := 1 |}]
      /\ intervals (time (run [IntervalElapsed h; IntervalElapsed h] s))
         = [{| handle := h; countdown_n := 0 |}]
      /\ intervals
           (time (run [IntervalElapsed h; IntervalElapsed h;
                       IntervalElapsed h] s))
         = [])
  /\ (forall inputs,
      let h := nextHandle (time s) in
      let k := ticksOf h inputs in
      pendingInterval h (time (run inputs (countdown s)))
      = if (k <=? 2)%nat
        then Some {| handle := h; countdown_n := 2 - Z.of_nat k |}
        else None)
  /\ (forall h j,
      pendingInterval h (time s) = Some j ->
      handle j = h
      /\ (0 <= countdown_n j <= 2)%Z
      /\ (forall inputs,
          let k := ticksOf h inputs in
          pendingInterval h (time (run inputs s))
          = if (Z.of_nat k <=? countdown_n j)%Z
            then Some {| handle := h;
                         countdown_n := countdown_n j - Z.of_nat k |}
            else None)
      /\ (countdown_n j = 0%Z ->
          let s0 :=
            set_time (clearInterval h (assign_n h (-1) (time s))) s in
          pendingInterval h (time s0) = None
          /\ step (IntervalElapsed h) s
             = match mode (config s) with
               | SINGLEPLAYER => initBallPosition (addBall s0)
               | MULTIPLAYER =>
                   if negb (isHost (communication s))
                   then sendMiss_ball true true (addBall s0)
                   else s0
               end)).
Proof.
  intros Hr.
  pose proof (timersOk_reachable cfg host lat s Hr) as Hs.
  pose proof (intervalsOk_reachable cfg host lat s Hr) as Hok.
  assert (Hlen : forall s', timersOk s' ->
                            (length (timeouts (time s')) <= 1)%nat).
  { intros s' [[E | [h [E _]]] _]; rewrite E; cbn; lia. }
  split; [exact (Hlen s Hs)|].
  split; [exact (clearTimeout_empties s (proj1 Hs))|].
  split; [exact (Hlen _ (timersOk_restartPingpongTimeout s Hs))|].
  split; [reflexivity|].
  split; [intros h; apply countdown_interval_ticks|].
  split.
  - intros inputs h k.
    assert (Hfresh : find (fun i => Nat.eqb (handle i) h)
                       (intervals (time s)) = None).
    { destruct (find _ (intervals (time s))) as [j|] eqn:Ej; [|reflexivity].
      pose proof (find_handle h _ j Ej) as Hj.
      apply find_some in Ej. unfold intervalsOk in Hok.
      rewrite Forall_forall in Hok. destruct (Hok j (proj1 Ej)) as [Hlt _].
      subst h. lia. }
    assert (E0 : pendingInterval h (time (countdown s))
                 = Some {| handle := h; countdown_n := 2 |}).
    { unfold pendingInterval, countdown. cbn.
      induction (intervals (time s)) as [|a l IH].
      - cbn. fold h. rewrite Nat.eqb_refl. reflexivity.
      - cbn in *. destruct (Nat.eqb (handle a) h);
          [discriminate Hfresh | exact (IH Hfresh)]. }
    rewrite (pending_run h inputs (countdown s)).
    + rewrite E0. fold k. unfold afterTicks. cbn [countdown_n].
      destruct (Nat.leb_spec k 2);
        destruct (Z.leb_spec (Z.of_nat k) 2); try lia; reflexivity.
    + unfold countdown. cbn. fold h. lia.
    + intros j. rewrite E0. intros C. injection C as <-. cbn. lia.
  - intros h j Ej.
    pose proof (find_handle h _ j Ej) as Hj.
    assert (Hin : (handle j < nextHandle (time s))%nat
                  /\ (0 <= countdown_n j <= 2)%Z).
    { unfold pendingInterval in Ej. apply find_some in Ej.
      unfold intervalsOk in Hok. rewrite Forall_forall in Hok.
      apply Hok. exact (proj1 Ej). }
    split; [exact Hj|]. split; [exact (proj2 Hin)|]. split.
    + intros inputs k.
      rewrite (pending_run h inputs s).
      * rewrite Ej. reflexivity.
      * rewrite <- Hj. exact (proj1 Hin).
      * intros j'. rewrite Ej. intros C. injection C as <-.
        exact (proj1 (proj2 Hin)).
    + intros Hn s0. split.
      * unfold s0, pendingInterval, clearInterval. cbn.
        rewrite find_filter_other, Nat.eqb_refl. reflexivity.
      * cbn [step]. unfold intervalElapsed. rewrite Ej.
        unfold countdown_callback. rewrite Hn. reflexivity.
Qed.


End PendingTimers.

Lemma pending_timers_witness :
  let s := @run exampleWorld twoReturns (exampleScene SINGLEPLAYER) in
  let s2 := @run exampleWorld
              [SetMultiplayer; StartGame; ReceivedRequestCountdown;
               ReceivedRequestCountdown]
              (exampleScene SINGLEPLAYER) in
  let ticks := [IntervalElapsed 0; IntervalElapsed 1; IntervalElapsed 0;
                IntervalElapsed 0] in
  @reachable exampleWorld (exampleConfig SINGLEPLAYER) true 40 s
  /\ timeouts (time s) = [3%nat]
  /\ (length (timeouts (time s)) <= 1)%nat
  /\ (length (timeouts (time (restartPingpongTimeout s))) <= 1)%nat
  /\ @reachable exampleWorld (exampleConfig SINGLEPLAYER) true 40 s2
  /\ intervals (time s2)
     = [{| handle := 0; countdown_n := 2 |};
        {| handle := 1; countdown_n := 2 |}]
  /\ pendingInterval 0 (time (@run exampleWorld ticks s2)) = None
  /\ pendingInterval 1 (time (@run exampleWorld ticks s2))
     = Some {| handle := 1; countdown_n := 1 |}.
Proof.
  intros s s2 ticks.
  assert (Hr : @reachable exampleWorld (exampleConfig SINGLEPLAYER) true 40 s)
    by (apply reachable_run, reachable_setup).
  assert (Hr2 : @reachable exampleWorld (exampleConfig SINGLEPLAYER) true 40
                  s2)
    by (apply reachable_run, reachable_setup).
  split; [exact Hr|]. split; [reflexivity|].
  destruct (@pending_timers exampleWorld _ _ _ s Hr) as [H1 [_ [H3 _]]].
  split; [exact H1|]. split; [exact H3|].
  split; [exact Hr2|]. split; [reflexivity|].
  destruct (@pending_timers exampleWorld _ _ _ s2 Hr2)
    as [_ [_ [_ [_ [_ [_ W]]]]]].
  split.
  - destruct (W 0%nat {| handle := 0; countdown_n := 2 |} eq_refl)
      as [_ [_ [W0 _]]].
    exact (W0 ticks).
  - destruct (W 1%nat {| handle := 1; countdown_n := 2 |} eq_refl)
      as [_ [_ [W1 _]]].
    exact (W1 ticks).
Defined.

(** C8 as stated fails for the countdown interval.  The peer's
    RequestCountdown message arrives twice: the flags are still set, so
    [countdown] runs again while the first interval is pending.  The same
    happens in singleplayer mode when the restart button is pressed twice
    within the countdown.  Both scenes are reachable and have two pending
    intervals. *)
Lemma two_countdown_intervals_pending :
  let s := @run exampleWorld
             [SetMultiplayer; StartGame; ReceivedRequestCountdown;
              ReceivedRequestCountdown]
             (exampleScene SINGLEPLAYER) in
  let s' := @run exampleWorld
              (gameLost ++ [RestartButtonPressed; RestartButtonPressed])
              (exampleScene SINGLEPLAYER) in
  @reachable exampleWorld (exampleConfig SINGLEPLAYER) true 40 s
  /\ intervals (time s)
     = [{| handle := 0; countdown_n := 2 |};
        {| handle := 1; countdown_n := 2 |}]
  /\ ~ (length (intervals (time s)) <= 1)%nat
  /\ @reachable exampleWorld (exampleConfig SINGLEPLAYER) true 40 s'
  /\ length (intervals (time s')) = 2%nat.
Proof.
  intros s s'.
  split; [apply reachable_run, reachable_setup|].
  split; [reflexivity|].
  split; [vm_compute; lia|].
  split; [apply reachable_run, reachable_setup | reflexivity].
Qed.



(** ** Paddle position *)

Section Paddle.

Lemma cap_bounds (value cap1 cap2 : Q) :
  Qmin cap1 cap2 <= cap value cap1 cap2 <= Qmax cap1 cap2.
Proof.
  unfold cap. split.
  - apply Q.le_max_l.
  - apply Q.max_lub.
    + apply Qle_trans with cap1; [apply Q.le_min_l | apply Q.le_max_l].
    + apply Q.le_min_l.
Qed.

(** With the bounds in the order of the call, upper bound first. *)
Lemma cap_between (value hi lo : Q) :
  lo <= hi -> lo <= cap value hi lo <= hi.
Proof.
  intros Hle. destruct (cap_bounds value hi lo) as [H1 H2].
  rewrite (Q.min_r hi lo Hle) in H1. rewrite (Q.max_l hi lo Hle) in H2.
  split; assumption.
Qed.

(** The candidate position of [computePaddlePosition]: none in VR mode when
    the ray misses the table plane. *)
Lemma computePaddlePosition_cases (intersects : list Vector3) (s : Scene) :
  (exists p,
     x (computePaddlePosition intersects s)
     = cap (x p) (tableWidth (config s)) (- tableWidth (config s))
     /\ z (computePaddlePosition intersects s)
        = cap (z p) (tablePositionZ (config s) + 0.5) 0)
  \/ (display s && CONTROLMODE_eqb (controlMode s) VR = true
      /\ intersects = []
      /\ computePaddlePosition intersects s = paddle_position s).
Proof.
  unfold computePaddlePosition.
  destruct (display s && CONTROLMODE_eqb (controlMode s) VR).
  - destruct intersects as [|p rest].
    + right. destruct (controllerVisible s); auto.
    + left. destruct (controllerVisible s); eexists; split; reflexivity.
  - left. destruct (pointerIsLocked s); eexists; split; reflexivity.
Qed.

(** C6 (amended): whenever [computePaddlePosition] has a candidate position
    -- any desktop mouse input, or a VR ray that hits the table plane -- the
    x component of the result lies between [-tableWidth] and [tableWidth]
    and the z component between 0 and [tablePositionZ + 0.5] (the bounds
    taken in either order; in [[-tableWidth, tableWidth]] and
    [[0, tablePositionZ + 0.5]] when these intervals are not empty).  When
    the VR ray misses the table plane the result is the current paddle
    position, unclamped. *)
Theorem computePaddlePosition_bounds (intersects : list Vector3) (s : Scene) :
  let p := computePaddlePosition intersects s in
  let w := tableWidth (config s) in
  let d := tablePositionZ (config s) + 0.5 in
  (display s && CONTROLMODE_eqb (controlMode s) VR = false
   \/ intersects <> [] ->
   (Qmin w (- w) <= x p <= Qmax w (- w))
   /\ (Qmin d 0 <= z p <= Qmax d 0)
   /\ (0 <= w -> - w <= x p <= w)
   /\ (0 <= d -> 0 <= z p <= d))
  /\ (display s && CONTROLMODE_eqb (controlMode s) VR = true ->
      intersects = [] -> p = paddle_position s).
Proof.
  intros p w d. subst p w d.
  destruct (computePaddlePosition_cases intersects s)
    as [[q [Ex Ez]] | [Hvr [Hi Ep]]].
  - split.
    + intros _. rewrite Ex, Ez.
      split; [apply cap_bounds|]. split; [apply cap_bounds|].
      split; intros Hle; apply cap_between; lra.
    + intros Hvr Hi. unfold computePaddlePosition. rewrite Hvr, Hi.
      destruct (controllerVisible s); reflexivity.
  - split.
    + intros [Hd | Hn]; [congruence | contradiction].
    + intros _ _. exact Ep.
Qed.

End Paddle.

Lemma computePaddlePosition_bounds_witness :
  let s := @run exampleWorld hitAtTheEdge (exampleScene SINGLEPLAYER) in
  let hit := [{| x := 9; y := 0.94; z := -1 |}] in
  hit <> []
  /\ - (1.5) <= x (computePaddlePosition hit s) <= 1.5
  /\ 0 <= z (computePaddlePosition hit s) <= 2 + 0.5.
Proof.
  intros s hit.
  assert (Hn : hit <> []) by discriminate.
  split; [exact Hn|].
  destruct (proj1 (computePaddlePosition_bounds hit s) (or_intror Hn))
    as [_ [_ [Hx Hz]]].
  split; [apply Hx | apply Hz]; vm_compute; discriminate.
Defined.

(** C6 as stated fails when the VR ray misses the table plane: the function
    returns the current paddle position, and during the hit animation that
    one is between the clamped position and the ball.  Here the ball was
    hit just outside the edge of the table ([tableWidth = 1.5]) and the
    paddle is at [x = 1.55]. *)
Lemma paddle_position_outside_table :
  let s := @run exampleWorld hitAtTheEdge (exampleScene SINGLEPLAYER) in
  @reachable exampleWorld (exampleConfig SINGLEPLAYER) true 40 s
  /\ tableWidth (config s) == 1.5
  /\ x (computePaddlePosition [] s) == 1.55
  /\ ~ (- tableWidth (config s) <= x (computePaddlePosition [] s)
        <= tableWidth (config s)).
Proof.
  intros s.
  split; [apply reachable_run, reachable_setup|].
  split; [reflexivity|]. split; [reflexivity|].
  intros [_ C]. vm_compute in C. apply C. reflexivity.
Qed.

(** * Further properties *)

(** ** Handshakes *)

Section Handshakes.
Context `{Collaborators}.

(** [restartGame] when both players have asked for the restart. *)
Lemma restartGame_unfold_both (s : Scene) :
  mode (config s) = MULTIPLAYER ->
  opponentRequestedRestart s = true ->
  playerRequestedRestart s = true ->
  restartGame s
  = countdown
      (set_opponentRequestedRestart false
         (set_playerRequestedRestart false
            (emit_RESTART_GAME
               (resetScore
                  (set_physics (with_speed 1 (physics s))
                     (set_crosshair_visible false s)))))).
Proof.
  intros Hm Ho Hp. unfold restartGame, resetScore; cbn.
  rewrite Hm; cbn. rewrite Ho, Hp. reflexivity.
Qed.

(** X1: the restart handshake of a multiplayer game.  With neither restart
    flag set, the first request -- the restart button or the peer's
    RestartGame message -- emits nothing and starts no countdown (the button
    also sends RestartGame to the peer).  The second request completes the
    handshake, and the two orders end in the same scene: RESTART_GAME has
    been emitted once, both flags are false again, the state is COUNTDOWN,
    one countdown interval has been added, and the score is reset. *)
Theorem restart_handshake (s : Scene) :
  mode (config s) = MULTIPLAYER ->
  playerRequestedRestart s = false ->
  opponentRequestedRestart s = false ->
  let a := onRestartButtonPressed s in
  let b := onReceivedRestartGame s in
  let ab := onReceivedRestartGame a in
  let ba := onRestartButtonPressed b in
  (emitted a = emitted s /\ config a = config s /\ time a = time s
   /\ sent (communication a) = sent (communication s) ++ [MsgRestartGame])
  /\ (emitted b = emitted s /\ config b = config s /\ time b = time s
      /\ sent (communication b) = sent (communication s))
  /\ ab = ba
  /\ emitted ab = emitted s ++ [EV_RESTART_GAME]
  /\ state (config ab) = COUNTDOWN
  /\ playerRequestedRestart ab = false
  /\ opponentRequestedRestart ab = false
  /\ intervals (time ab)
     = intervals (time s)
       ++ [{| handle := nextHandle (time s); countdown_n := 2 |}]
  /\ timeouts (time ab) = timeouts (time s)
  /\ sent (communication ab) = sent (communication s) ++ [MsgRestartGame]
  /\ score ab
     = {| self := 0; opponent := 0; lives := startLives (config s);
          highest := 0 |}.
Proof.
  intros Hm Hp Ho a b ab ba.
  assert (Ea : a = resetScore
                     (set_physics (with_speed 1 (physics s))
                        (set_crosshair_visible false
                           (send MsgRestartGame
                              (set_playerRequestedRestart true s))))).
  { subst a. unfold onRestartButtonPressed. rewrite Hm.
    rewrite restartGame_unfold_multiplayer;
      [reflexivity | exact Hm | cbn; rewrite Ho; reflexivity]. }
  assert (Eb : b = resetScore
                     (set_physics (with_speed 1 (physics s))
                        (set_crosshair_visible false
                           (set_opponentRequestedRestart true s)))).
  { subst b. unfold onReceivedRestartGame.
    rewrite restartGame_unfold_multiplayer;
      [reflexivity | exact Hm | cbn; rewrite Hp; reflexivity]. }
  assert (Eab : ab = restartGame (set_opponentRequestedRestart true a))
    by reflexivity.
  assert (Eba : ba = restartGame
                       (send MsgRestartGame
                          (set_playerRequestedRestart true b))).
  { subst ba. unfold onRestartButtonPressed.
    replace (mode (config b)) with MULTIPLAYER; [reflexivity|].
    rewrite Eb. symmetry. exact Hm. }
  rewrite restartGame_unfold_both in Eab;
    [|rewrite Ea; exact Hm | reflexivity | rewrite Ea; reflexivity].
  rewrite restartGame_unfold_both in Eba;
    [|rewrite Eb; exact Hm | rewrite Eb; reflexivity | reflexivity].
  clearbody a b ab ba. subst.
  repeat split; reflexivity.
Qed.

Lemma restartGame_unfold_singleplayer (s : Scene) :
  mode (config s) = SINGLEPLAYER ->
  restartGame s
  = emit_RESTART_GAME
      (countdown
         (resetScore
            (set_physics (with_speed 1 (physics s))
               (set_crosshair_visible false s)))).
Proof.
  intros Hm. unfold restartGame, resetScore; cbn.
  rewrite Hm; cbn. reflexivity.
Qed.

(** X2: in singleplayer mode the restart button restarts at once, whatever
    the restart flags hold: RESTART_GAME is emitted once, the score is reset
    ([lives] to [startLives]), the state is COUNTDOWN with one countdown
    interval added, the crosshair is hidden, the physics speed is 1, and
    nothing is sent. *)
Theorem singleplayer_restart (s : Scene) :
  mode (config s) = SINGLEPLAYER ->
  let s' := onRestartButtonPressed s in
  emitted s' = emitted s ++ [EV_RESTART_GAME]
  /\ state (config s') = COUNTDOWN
  /\ mode (config s') = SINGLEPLAYER
  /\ score s'
     = {| self := 0; opponent := 0; lives := startLives (config s);
          highest := 0 |}
  /\ intervals (time s')
     = intervals (time s)
       ++ [{| handle := nextHandle (time s); countdown_n := 2 |}]
  /\ timeouts (time s') = timeouts (time s)
  /\ communication s' = communication s
  /\ crosshair_visible s' = false
  /\ speed (physics s') = 1
  /\ playerRequestedRestart s' = playerRequestedRestart s
  /\ opponentRequestedRestart s' = opponentRequestedRestart s.
Proof.
  intros Hm s'.
  assert (E : s' = restartGame s)
    by (subst s'; unfold onRestartButtonPressed; rewrite Hm; reflexivity).
  rewrite (restartGame_unfold_singleplayer s Hm) in E.
  clearbody s'. subst s'.
  repeat split; try reflexivity.
  cbn. rewrite Hm. reflexivity.
Qed.

Lemma requestCountdown_unfold (s : Scene) :
  requestCountdown s
  = if playerRequestedCountdown s && opponentRequestedCountdown s
    then countdown s else s.
Proof. reflexivity. Qed.

(** X3: the countdown handshake of a multiplayer game.  With neither
    countdown flag set, [startGame] alone sends RequestCountdown and starts
    nothing, and the peer's RequestCountdown alone starts nothing either.
    Once both have happened, in either order, the scene is the same: the
    state is COUNTDOWN and exactly one countdown interval has been added. *)
Theorem countdown_handshake (s : Scene) :
  mode (config s) = MULTIPLAYER ->
  playerRequestedCountdown s = false ->
  opponentRequestedCountdown s = false ->
  let a := startGame s in
  let b := onReceivedRequestCountdown s in
  let ab := onReceivedRequestCountdown a in
  let ba := startGame b in
  (config a = config s /\ time a = time s
   /\ sent (communication a) = sent (communication s) ++ [MsgRequestCountdown])
  /\ (config b = config s /\ time b = time s
      /\ communication b = communication s)
  /\ ab = ba
  /\ state (config ab) = COUNTDOWN
  /\ intervals (time ab)
     = intervals (time s)
       ++ [{| handle := nextHandle (time s); countdown_n := 2 |}]
  /\ timeouts (time ab) = timeouts (time s)
  /\ sent (communication ab)
     = sent (communication s) ++ [MsgRequestCountdown]
  /\ score ab = score s
  /\ playerRequestedCountdown ab = true
  /\ opponentRequestedCountdown ab = true.
Proof.
  intros Hm Hp Ho a b ab ba.
  assert (Ea : a = send MsgRequestCountdown
                     (set_playerRequestedCountdown true s)).
  { subst a. unfold startGame. rewrite Hm, requestCountdown_unfold.
    cbn. rewrite Ho. reflexivity. }
  assert (Eb : b = set_opponentRequestedCountdown true s).
  { subst b. unfold onReceivedRequestCountdown.
    rewrite requestCountdown_unfold. cbn. rewrite Hp. reflexivity. }
  assert (Eab : ab = countdown (set_opponentRequestedCountdown true a)).
  { subst ab. unfold onReceivedRequestCountdown.
    rewrite requestCountdown_unfold, Ea. reflexivity. }
  assert (Eba : ba = countdown
                       (send MsgRequestCountdown
                          (set_playerRequestedCountdown true b))).
  { subst ba. unfold startGame.
    replace (mode (config b)) with MULTIPLAYER
      by (rewrite Eb; symmetry; exact Hm).
    rewrite requestCountdown_unfold, Eb. reflexivity. }
  clearbody a b ab ba. subst.
  repeat split; reflexivity.
Qed.

End Handshakes.

Lemma restart_handshake_witness :
  let s := @run exampleWorld lostMatch (exampleScene SINGLEPLAYER) in
  let ab := onReceivedRestartGame (onRestartButtonPressed s) in
  mode (config s) = MULTIPLAYER
  /\ playerRequestedRestart s = false
  /\ opponentRequestedRestart s = false
  /\ state (config s) = GAME_OVER
  /\ emitted ab = emitted s ++ [EV_RESTART_GAME]
  /\ state (config ab) = COUNTDOWN.
Proof.
  intros s ab.
  split; [reflexivity|]. split; [reflexivity|]. split; [reflexivity|].
  split; [reflexivity|].
  destruct (restart_handshake s eq_refl eq_refl eq_refl)
    as [_ [_ [_ [He [Hs _]]]]].
  split; [exact He | exact Hs].
Defined.

Lemma singleplayer_restart_witness :
  let s := @run exampleWorld gameLost (exampleScene SINGLEPLAYER) in
  let s' := onRestartButtonPressed s in
  mode (config s) = SINGLEPLAYER
  /\ state (config s) = GAME_OVER
  /\ lives (score s) = 0%Z
  /\ state (config s') = COUNTDOWN
  /\ emitted s' = emitted s ++ [EV_RESTART_GAME].
Proof.
  intros s s'.
  split; [reflexivity|]. split; [reflexivity|]. split; [reflexivity|].
  destruct (singleplayer_restart s eq_refl)
    as [He [Hs _]].
  split; [exact Hs | exact He].
Defined.

Lemma countdown_handshake_witness :
  let s := setMultiplayer (exampleScene SINGLEPLAYER) in
  let ab := onReceivedRequestCountdown (startGame s) in
  mode (config s) = MULTIPLAYER
  /\ playerRequestedCountdown s = false
  /\ opponentRequestedCountdown s = false
  /\ state (config s) = MENU
  /\ state (config ab) = COUNTDOWN
  /\ intervals (time ab) = [{| handle := 0%nat; countdown_n := 2 |}].
Proof.
  intros s ab.
  split; [reflexivity|]. split; [reflexivity|]. split; [reflexivity|].
  split; [reflexivity|].
  destruct (countdown_handshake s eq_refl eq_refl eq_refl)
    as [_ [_ [_ [Hs [Hi _]]]]].
  split; [exact Hs | exact Hi].
Defined.

(** ** The countdown *)

Section Countdown.
Context `{Collaborators}.

(** A tick of the only pending interval that is not its last one. *)
Lemma tick_pending (h : nat) (n : Z) (s : Scene) :
  intervals (time s) = [{| handle := h; countdown_n := n |}] ->
  (0 <= n - 1)%Z ->
  step (IntervalElapsed h) s = set_time (assign_n h (n - 1) (time s)) s.
Proof.
  intros E Hn. cbn [step]. unfold intervalElapsed, pendingInterval.
  rewrite E; cbn. rewrite Nat.eqb_refl. cbn.
  unfold countdown_callback. cbv zeta.
  apply Z.ltb_ge in Hn. rewrite Hn. reflexivity.
Qed.

(** The last tick: the interval is cancelled and the ball is added. *)
Lemma tick_last (h : nat) (n : Z) (s : Scene) :
  intervals (time s) = [{| handle := h; countdown_n := n |}] ->
  (n - 1 < 0)%Z ->
  let s1 := set_time (assign_n h (n - 1) (time s)) s in
  let s2 := set_time (clearInterval h (time s1)) s1 in
  step (IntervalElapsed h) s
  = match mode (config s) with
    | SINGLEPLAYER => initBallPosition (addBall s2)
    | MULTIPLAYER =>
        if negb (isHost (communication s))
        then sendMiss_ball true true (addBall s2)
        else s2
    end.
Proof.
  intros E Hn. cbn [step]. unfold intervalElapsed, pendingInterval.
  rewrite E; cbn. rewrite Nat.eqb_refl. cbn.
  unfold countdown_callback. cbv zeta.
  apply Z.ltb_lt in Hn. rewrite Hn. reflexivity.
Qed.

Lemma nextHandle_clearTimeout (h : option nat) (t : Time) :
  nextHandle (clearTimeout h t) = nextHandle t.
Proof. destruct h; reflexivity. Qed.

(** [addBall] leaves exactly one reset timer pending. *)
Lemma addBall_arms (s : Scene) :
  oneResetTimer s ->
  timeouts (time (addBall s)) = [nextHandle (time s)]
  /\ resetBallTimeout (addBall s) = Some (nextHandle (time s)).
Proof.
  intros Ho. pose proof (clearTimeout_empties s Ho) as Ec.
  unfold addBall, restartPingpongTimeout, initBallPosition; cbn.
  destruct (ball s); cbn; rewrite Ec, nextHandle_clearTimeout;
    split; reflexivity.
Qed.

Lemma communication_addBall (s : Scene) :
  communication (addBall s) = communication s.
Proof.
  destruct (addBall_shape s) as (c & b & p & t & r & ->). reflexivity.
Qed.

Lemma sendMiss_ball_sent (f i : bool) (s : Scene) (b : Body) :
  physics_ball (physics s) = Some b ->
  sendMiss_ball f i s = send (MsgMiss (position b) (velocity b) f i) s.
Proof. intros E. unfold sendMiss_ball. rewrite E. reflexivity. Qed.

(** X4: the countdown.  [countdown] sets the state to COUNTDOWN and starts
    an interval; when no other interval is pending, its first two ticks
    change nothing but its counter, and the third one cancels it and starts
    the rally: in singleplayer mode and on the peer that is not the host the
    ball is added, the state becomes PLAYING and the reset timer is armed;
    that peer also sends the serve as a Miss message with [isInit] set,
    carrying the position and velocity of the new ball.  The host adds no
    ball and stays in COUNTDOWN: it waits for that message.  The score is
    not touched. *)
Theorem countdown_ticks (s : Scene) :
  intervals (time s) = [] ->
  oneResetTimer s ->
  ballConsistent s = true ->
  let h := nextHandle (time s) in
  let s0 := countdown s in
  let s2 := run [IntervalElapsed h; IntervalElapsed h] s0 in
  let s3 := step (IntervalElapsed h) s2 in
  state (config s0) = COUNTDOWN
  /\ (state (config s2) = COUNTDOWN
      /\ ball s2 = ball s
      /\ physics s2 = physics s
      /\ timeouts (time s2) = timeouts (time s)
      /\ intervals (time s2) = [{| handle := h; countdown_n := 0 |}]
      /\ communication s2 = communication s
      /\ score s2 = score s)
  /\ intervals (time s3) = []
  /\ score s3 = score s
  /\ (mode (config s) = SINGLEPLAYER
      \/ mode (config s) = MULTIPLAYER /\ isHost (communication s) = false ->
      state (config s3) = PLAYING
      /\ (exists m, ball s3 = Some m)
      /\ timeouts (time s3) = [S h]
      /\ resetBallTimeout s3 = Some (S h))
  /\ (mode (config s) = SINGLEPLAYER ->
      communication s3 = communication s)
  /\ (mode (config s) = MULTIPLAYER ->
      isHost (communication s) = false ->
      exists b,
        physics_ball (physics s3) = Some b
        /\ sent (communication s3)
           = sent (communication s)
             ++ [MsgMiss (position b) (velocity b) true true])
  /\ (mode (config s) = MULTIPLAYER ->
      isHost (communication s) = true ->
      state (config s3) = COUNTDOWN
      /\ ball s3 = ball s
      /\ physics s3 = physics s
      /\ timeouts (time s3) = timeouts (time s)
      /\ communication s3 = communication s).
Proof.
  intros Ei Ho Hc h s0 s2 s3.
  assert (E0 : intervals (time s0) = [{| handle := h; countdown_n := 2 |}])
    by (subst s0 h; unfold countdown; cbn; rewrite Ei; reflexivity).
  assert (F0 : state (config s0) = COUNTDOWN
               /\ mode (config s0) = mode (config s)
               /\ ball s0 = ball s /\ physics s0 = physics s
               /\ timeouts (time s0) = timeouts (time s)
               /\ communication s0 = communication s
               /\ score s0 = score s
               /\ resetBallTimeout s0 = resetBallTimeout s
               /\ nextHandle (time s0) = S h)
    by (subst s0 h; repeat split; reflexivity).
  destruct F0 as (Gs & Gm & Gb & Gp & Gt & Gc & Gsc & Gr & Gn).
  set (s1 := step (IntervalElapsed h) s0).
  assert (E1 : s1 = set_time (assign_n h 1 (time s0)) s0)
    by (apply (tick_pending h 2 s0 E0); lia).
  change (run [IntervalElapsed h; IntervalElapsed h] s0)
    with (step (IntervalElapsed h) s1) in s2.
  clearbody s0 s1.
  assert (Ei1 : intervals (time s1) = [{| handle := h; countdown_n := 1 |}]).
  { rewrite E1; cbn. rewrite E0; cbn. rewrite Nat.eqb_refl. reflexivity. }
  assert (F1 : state (config s1) = COUNTDOWN
               /\ mode (config s1) = mode (config s)
               /\ ball s1 = ball s /\ physics s1 = physics s
               /\ timeouts (time s1) = timeouts (time s)
               /\ communication s1 = communication s
               /\ score s1 = score s
               /\ resetBallTimeout s1 = resetBallTimeout s
               /\ nextHandle (time s1) = S h)
    by (rewrite E1; cbn; auto 10).
  clear E1 E0 Gm Gb Gp Gt Gc Gsc Gr Gn.
  assert (E2 : s2 = set_time (assign_n h 0 (time s1)) s1)
    by (apply (tick_pending h 1 s1 Ei1); lia).
  clearbody s2.
  assert (Ei2 : intervals (time s2) = [{| handle := h; countdown_n := 0 |}]).
  { rewrite E2; cbn. rewrite Ei1; cbn. rewrite Nat.eqb_refl. reflexivity. }
  assert (F2 : state (config s2) = COUNTDOWN
               /\ mode (config s2) = mode (config s)
               /\ ball s2 = ball s /\ physics s2 = physics s
               /\ timeouts (time s2) = timeouts (time s)
               /\ communication s2 = communication s
               /\ score s2 = score s
               /\ resetBallTimeout s2 = resetBallTimeout s
               /\ nextHandle (time s2) = S h)
    by (rewrite E2; cbn; exact F1).
  clear E2 F1 Ei1.
  pose proof (tick_last h 0 s2 Ei2 ltac:(lia)) as E3.
  fold s3 in E3. cbv zeta in E3. clearbody s3.
  set (s2' := set_time
                (clearInterval h
                   (time (set_time (assign_n h (0 - 1) (time s2)) s2)))
                (set_time (assign_n h (0 - 1) (time s2)) s2)) in E3.
  assert (Ei2' : intervals (time s2') = []).
  { subst s2'; cbn. rewrite Ei2; cbn. rewrite Nat.eqb_refl; cbn.
    rewrite Nat.eqb_refl. reflexivity. }
  assert (F2' : state (config s2') = COUNTDOWN
               /\ mode (config s2') = mode (config s)
               /\ ball s2' = ball s /\ physics s2' = physics s
               /\ timeouts (time s2') = timeouts (time s)
               /\ communication s2' = communication s
               /\ score s2' = score s
               /\ resetBallTimeout s2' = resetBallTimeout s
               /\ nextHandle (time s2') = S h)
    by (subst s2'; cbn; exact F2).
  clearbody s2'.
  destruct F2 as (Fs & Fm & Fb & Fp & Ft & Fc & Fsc & _ & _).
  destruct F2' as (Fs' & _ & Fb' & Fp' & Ft' & Fc' & Fsc' & Fr' & Fn').
  assert (Ho' : oneResetTimer s2').
  { unfold oneResetTimer. rewrite Ft', Fr'. exact Ho. }
  assert (Hc' : ballConsistent s2' = true).
  { unfold ballConsistent. rewrite Fb', Fp'. exact Hc. }
  destruct (addBall_arms s2' Ho') as [Ha1 Ha2]. rewrite Fn' in Ha1, Ha2.
  destruct (addBall_creates s2' Hc') as [[m Em] [b Eb]].
  rewrite Fm, Fc in E3.
  split; [exact Gs|].
  split; [auto 10|].
  split.
  { rewrite E3. destruct (mode (config s));
      [|destruct (isHost (communication s)); cbn [negb]].
    - unfold initBallPosition; cbn. rewrite intervals_addBall. exact Ei2'.
    - exact Ei2'.
    - destruct (sendMiss_ball_shape true true (addBall s2')) as (c & ->).
      cbn. rewrite intervals_addBall. exact Ei2'. }
  split.
  { rewrite E3. destruct (mode (config s));
      [|destruct (isHost (communication s)); cbn [negb]].
    - unfold initBallPosition; cbn. rewrite score_addBall. exact Fsc'.
    - exact Fsc'.
    - destruct (sendMiss_ball_shape true true (addBall s2')) as (c & ->).
      cbn. rewrite score_addBall. exact Fsc'. }
  split.
  { intros [Hm | [Hm Hh]]; rewrite E3, Hm; [|rewrite Hh; cbn [negb]].
    - unfold initBallPosition; cbn. rewrite config_addBall.
      split; [reflexivity|]. split; [exists m; exact Em|].
      split; assumption.
    - rewrite (sendMiss_ball_sent true true _ b Eb). unfold send; cbn.
      rewrite config_addBall.
      split; [reflexivity|]. split; [exists m; exact Em|].
      split; assumption. }
  split.
  { intros Hm. rewrite E3, Hm. unfold initBallPosition; cbn.
    rewrite communication_addBall. exact Fc'. }
  split.
  { intros Hm Hh. rewrite E3, Hm, Hh; cbn [negb].
    rewrite (sendMiss_ball_sent true true _ b Eb). unfold send; cbn.
    exists b. split; [exact Eb|].
    rewrite communication_addBall, Fc'. reflexivity. }
  intros Hm Hh. rewrite E3, Hm, Hh; cbn [negb]. auto.
Qed.

End Countdown.

Lemma countdown_ticks_witness :
  let s := exampleScene SINGLEPLAYER in
  let s3 := @run exampleWorld
              [IntervalElapsed 0; IntervalElapsed 0; IntervalElapsed 0]
              (countdown s) in
  intervals (time s) = []
  /\ oneResetTimer s
  /\ ballConsistent s = true
  /\ state (config s3) = PLAYING
  /\ timeouts (time s3) = [1%nat]
  /\ intervals (time s3) = [].
Proof.
  intros s s3.
  assert (Ho : oneResetTimer s) by (left; reflexivity).
  split; [reflexivity|]. split; [exact Ho|]. split; [reflexivity|].
  destruct (@countdown_ticks exampleWorld s eq_refl Ho eq_refl)
    as [_ [_ [Hi [_ [Hp _]]]]].
  destruct (Hp (or_introl eq_refl)) as [Hs [_ [Ht _]]].
  split; [exact Hs|]. split; [exact Ht | exact Hi].
Defined.

(** ** Paddle hits *)

Section PaddleHits.
Context `{Collaborators}.

(** The hit of a scene in which no hit animation runs, with the helpers that
    only assign fields replaced by those assignments. *)
Lemma onBallPaddleCollision_shape (point : Vector3) (s : Scene) (b : Body) :
  hitTween s = false ->
  physics_ball (physics s) = Some b ->
  exists l ht ha t r ts,
    let b' := physics_onBallPaddleCollision b (paddle_position s) in
    let s1 :=
      set_ballHasHitEnemyTable false
        (set_resetBallTimeout r
           (set_time t
              (set_ballPositionDifference None
                 (set_lastHitPosition l
                    (set_hitTween ht
                       (set_hitAvailable ha
                          (set_physics
                             (with_physics_ball (Some b') (physics s))
                             s))))))) in
    onBallPaddleCollision point s
    = match mode (config s) with
      | SINGLEPLAYER =>
          set_score (with_self (self (score s) + 1) (score s)) s1
      | MULTIPLAYER =>
          send (MsgHit point (velocity b')) (set_physicsTimeStep ts s1)
      end
    /\ (hitAvailable s = true -> ht = true /\ ha = false)
    /\ (hitAvailable s = true -> forall m, ball s = Some m ->
        l = Some {| x := x (mesh_position m);
                    y := Qmax (y (mesh_position m))
                           (tableHeight (config s) + 0.2);
                    z := z (mesh_position m) |})
    /\ (oneResetTimer s -> state (config s) <> GAME_OVER ->
        timeouts t = [nextHandle (time s)]
        /\ r = Some (nextHandle (time s)))
    /\ intervals t = intervals (time s).
Proof.
  intros Ht Ep.
  set (s0 := set_physics
               (with_physics_ball
                  (Some (physics_onBallPaddleCollision b (paddle_position s)))
                  (physics s)) s).
  destruct (ballHitAnimation_shape s0) as (l & ht & ha & EA).
  set (sB := set_ballPositionDifference None
               (set_lastHitPosition l
                  (set_hitTween ht (set_hitAvailable ha s0)))).
  destruct (restartPingpongTimeout_shape sB) as (t & r & ER).
  set (sC := set_ballHasHitEnemyTable false
               (set_resetBallTimeout r (set_time t sB))).
  destruct (slowdownBall_shape sC) as (ts & ES).
  exists l, ht, ha, t, r, ts. cbv zeta.
  split; [|split; [|split; [|split]]].
  - unfold onBallPaddleCollision. rewrite Ht, Ep. cbv zeta. cbn [option_map].
    fold s0. rewrite EA. fold sB. rewrite ER. fold sC.
    change (mode (config sC)) with (mode (config s)).
    destruct (mode (config s)); [reflexivity|].
    rewrite ES. reflexivity.
  - intros Ha.
    assert (E : negb (hitTween s0) && hitAvailable s0 = true)
      by (subst s0; cbn; rewrite Ht, Ha; reflexivity).
    unfold ballHitAnimation in EA. rewrite E in EA.
    pose proof (f_equal hitTween EA) as E1.
    pose proof (f_equal hitAvailable EA) as E2.
    destruct (ball _); cbn in E1, E2; auto.
  - intros Ha m Em.
    assert (E : negb (hitTween s0) && hitAvailable s0 = true)
      by (subst s0; cbn; rewrite Ht, Ha; reflexivity).
    unfold ballHitAnimation in EA. rewrite E in EA.
    assert (Em0 : ball (set_hitTween true (set_hitAvailable false s0))
                  = Some m) by exact Em.
    rewrite Em0 in EA.
    pose proof (f_equal lastHitPosition EA) as E1.
    cbn in E1. symmetry. exact E1.
  - intros Ho Hs.
    assert (Ho' : oneResetTimer sB) by exact Ho.
    pose proof (clearTimeout_empties sB Ho') as Ec.
    assert (Eg : STATE_eqb (state (config sB)) GAME_OVER = false)
      by (apply STATE_eqb_neq; exact Hs).
    assert (Hn : nextHandle (time sB) = nextHandle (time s))
      by reflexivity.
    clear ES. clear sC. clearbody sB.
    unfold restartPingpongTimeout in ER. cbn in ER. rewrite Eg in ER.
    pose proof (f_equal (fun a => timeouts (time a)) ER) as E1.
    pose proof (f_equal resetBallTimeout ER) as E2.
    cbn in E1, E2. rewrite Ec, nextHandle_clearTimeout, Hn in E1.
    rewrite nextHandle_clearTimeout, Hn in E2.
    split; [symmetry; exact E1 | symmetry; exact E2].
  - pose proof (f_equal (fun a => intervals (time a)) ER) as E1.
    cbn beta in E1. rewrite intervals_restartPingpongTimeout in E1.
    symmetry. exact E1.
Qed.

(** X5: what a paddle hit does when no hit animation runs and the ball
    exists.  The physics ball gets the collision response, the position
    difference of the last received hit is dropped, the fault flag
    [ballHasHitEnemyTable] is cleared, and the reset timer is re-armed (one
    timer pending, unless the game is over).  In singleplayer mode the hit
    scores one point and nothing is sent; in multiplayer mode the score is
    left alone and exactly one Hit message is sent, with the hit point and
    the velocity of the ball after the collision. *)
Theorem paddle_hit_effects (point : Vector3) (s : Scene) (b : Body)
    (m : Mesh) :
  hitTween s = false ->
  physics_ball (physics s) = Some b ->
  ball s = Some m ->
  let s' := onBallPaddleCollision point s in
  let b' := physics_onBallPaddleCollision b (paddle_position s) in
  physics_ball (physics s') = Some b'
  /\ ballPositionDifference s' = None
  /\ ballHasHitEnemyTable s' = false
  /\ config s' = config s
  /\ emitted s' = emitted s
  /\ (mode (config s) = SINGLEPLAYER ->
      score s' = with_self (self (score s) + 1) (score s)
      /\ communication s' = communication s
      /\ physicsTimeStep s' = physicsTimeStep s)
  /\ (mode (config s) = MULTIPLAYER ->
      score s' = score s
      /\ sent (communication s')
         = sent (communication s) ++ [MsgHit point (velocity b')])
  /\ (oneResetTimer s -> state (config s) <> GAME_OVER ->
      timeouts (time s') = [nextHandle (time s)]
      /\ resetBallTimeout s' = Some (nextHandle (time s))).
Proof.
  intros Ht Ep _ s' b'.
  destruct (onBallPaddleCollision_shape point s b Ht Ep)
    as (l & ht & ha & t & r & ts & E & _ & _ & Htm & _).
  cbv zeta in E. fold s' in E. clearbody s'. subst b'.
  destruct (mode (config s)) eqn:Em; subst s';
    (split; [reflexivity|]); (split; [reflexivity|]);
    (split; [reflexivity|]); (split; [reflexivity|]);
    (split; [reflexivity|]);
    (split; [intros Hm; try discriminate Hm; repeat split; reflexivity|]);
    (split; [intros Hm; try discriminate Hm; repeat split; reflexivity|]);
    exact Htm.
Qed.

(** A hit starts the hit animation. *)
Lemma hit_starts_animation (p : Vector3) (s : Scene) (b : Body) :
  hitTween s = false ->
  hitAvailable s = true ->
  physics_ball (physics s) = Some b ->
  hitTween (onBallPaddleCollision p s) = true
  /\ hitAvailable (onBallPaddleCollision p s) = false.
Proof.
  intros Ht Ha Ep.
  destruct (onBallPaddleCollision_shape p s b Ht Ep)
    as (l & ht & ha & t & r & ts & E & Hh & _).
  destruct (Hh Ha) as [-> ->].
  cbv zeta in E. rewrite E.
  destruct (mode (config s)); split; reflexivity.
Qed.

(** X6: a paddle hit on a scene that has its ball starts the hit animation
    ([hitTween] active, no further hit available), and a hit that [animate]
    reports while the animation runs changes nothing at all: the ball is not
    hit twice and the point is not counted twice.  When the animation
    completes the hit is available again. *)
Theorem second_hit_ignored (p q : Vector3) (s : Scene) (b : Body)
    (m : Mesh) :
  hitTween s = false ->
  hitAvailable s = true ->
  physics_ball (physics s) = Some b ->
  ball s = Some m ->
  let s' := onBallPaddleCollision p s in
  hitTween s' = true
  /\ hitAvailable s' = false
  /\ onBallPaddleCollision q s' = s'
  /\ hitTween (hitTweenComplete s') = false
  /\ hitAvailable (hitTweenComplete s') = true.
Proof.
  intros Ht Ha Ep _ s'.
  destruct (hit_starts_animation p s b Ht Ha Ep) as [E1 E2].
  fold s' in E1, E2. clearbody s'.
  split; [exact E1|]. split; [exact E2|].
  split; [unfold onBallPaddleCollision; rewrite E1; reflexivity|].
  unfold hitTweenComplete. rewrite E1. split; reflexivity.
Qed.

(** Every input keeps [hitAvailable] the negation of [hitTween]. *)
Lemma hitAvailable_step (i : Input) (s : Scene) :
  hitAvailable s = negb (hitTween s) ->
  hitAvailable (step i s) = negb (hitTween (step i s)).
Proof.
  intros Hs.
  destruct i; cbn [step];
    try (unfold setMultiplayer, setSingleplayer, startGame,
           onRestartButtonPressed, onReceivedRestartGame, restartGame,
           onReceivedRequestCountdown, requestCountdown, onReceivedHit,
           onReceivedMiss, onBallTableCollision,
           timeoutElapsed, resetTimeoutEnded, intervalElapsed,
           countdown_callback, tweenTick, hitTweenUpdate, hitTweenComplete,
           onMouseMove, onPointerLockChange, updateControls, updateBall;
         exec'; solve [exact Hs | reflexivity | cbn in *; congruence]).
  - destruct (ball s) as [m|]; [|exact Hs].
    destruct (ballReachesPaddle s) eqn:Er; [|exact Hs].
    destruct (physics_ball (physics s)) as [b|] eqn:Ep.
    + destruct (hitTween s) eqn:Ht.
      * unfold onBallPaddleCollision. rewrite Ht, Ht. exact Hs.
      * destruct (hit_starts_animation (mesh_position m) s b Ht Hs Ep)
          as [E1 E2].
        rewrite E1, E2. reflexivity.
    + unfold ballReachesPaddle in Er. rewrite Ep in Er.
      destruct (ball s); discriminate Er.
  - unfold hitTweenComplete. destruct (hitTween s) eqn:Ht.
    + reflexivity.
    + rewrite Ht. exact Hs.
  - destruct (state (config s)); cbn; try exact Hs;
      unfold updateControls; cbn;
      destruct (hitTween s) eqn:Ht; try destruct (lastHitPosition s);
      cbn; rewrite ?Ht; exact Hs.
Qed.

(** X7: in every reachable scene [hitAvailable] is the negation of "the hit
    animation is active": a hit is available exactly when no hit animation
    runs. *)
Theorem hitAvailable_tracks_animation cfg host lat (s : Scene) :
  reachable cfg host lat s -> hitAvailable s = negb (hitTween s).
Proof.
  induction 1 as [|i s _ IH].
  - reflexivity.
  - apply hitAvailable_step. exact IH.
Qed.

(** A linear interpolation with a weight between 0 and 1 lies between its
    two ends. *)
Lemma lerp_between (u v a : Q) :
  0 <= a <= 1 ->
  Qmin u v <= u + (v - u) * a <= Qmax u v.
Proof.
  intros [H0 H1].
  destruct (Qlt_le_dec u v) as [Hlt | Hle].
  - rewrite (Q.min_l u v), (Q.max_r u v) by lra. split; nra.
  - rewrite (Q.min_r u v), (Q.max_l u v) by lra. split; nra.
Qed.

(** X8: the hit animation.  The hit stores as the target of the animation
    the position of the ball with its height replaced by the maximum of that
    height and [tableHeight + 0.2]: the target is raised to
    [tableHeight + 0.2] when the ball is lower and is the position of the
    ball otherwise.  While the animation runs, [updateControls] puts the
    paddle at [lerpVectors(pos, target, paddleInterpolationAlpha)], where
    [pos] is the position the controls ask for: with an alpha between 0 and
    1 every coordinate lies between that of [pos] and that of the target,
    at alpha 1 the paddle is at the target and at alpha 0 at [pos].  Without
    animation the paddle is at [pos].  [ghostPaddlePosition] is [pos] in
    every case. *)
Theorem hit_animation_target (point : Vector3) (intersects : list Vector3)
    (s : Scene) (b : Body) (m : Mesh) :
  hitTween s = false ->
  hitAvailable s = true ->
  physics_ball (physics s) = Some b ->
  ball s = Some m ->
  let l := {| x := x (mesh_position m);
              y := Qmax (y (mesh_position m)) (tableHeight (config s) + 0.2);
              z := z (mesh_position m) |} in
  lastHitPosition (onBallPaddleCollision point s) = Some l
  /\ (y (mesh_position m) <= tableHeight (config s) + 0.2 ->
      y l == tableHeight (config s) + 0.2)
  /\ (tableHeight (config s) + 0.2 <= y (mesh_position m) ->
      y l == y (mesh_position m))
  /\ forall s', lastHitPosition s' = Some l ->
       let pos := computePaddlePosition intersects s' in
       let a := paddleInterpolationAlpha s' in
       let p := paddle_position (updateControls intersects s') in
       ghostPaddlePosition (updateControls intersects s') = pos
       /\ (hitTween s' = false -> p = pos)
       /\ (hitTween s' = true ->
           p = lerpVectors pos l a
           /\ (0 <= a <= 1 ->
               Qmin (x pos) (x l) <= x p <= Qmax (x pos) (x l)
               /\ Qmin (y pos) (y l) <= y p <= Qmax (y pos) (y l)
               /\ Qmin (z pos) (z l) <= z p <= Qmax (z pos) (z l))
           /\ (a == 1 -> Vector3_eq p l)
           /\ (a == 0 -> Vector3_eq p pos)).
Proof.
  intros Ht Ha Ep Em l.
  destruct (onBallPaddleCollision_shape point s b Ht Ep)
    as (l0 & ht & ha & t & r & ts & E & _ & Hl & _).
  pose proof (Hl Ha m Em) as El. cbv zeta in E.
  split.
  { rewrite E. destruct (mode (config s)); cbn; exact El. }
  split; [intros Hle; unfold l; cbn [y]; rewrite Q.max_r by exact Hle;
          reflexivity|].
  split; [intros Hle; unfold l; cbn [y]; rewrite Q.max_l by exact Hle;
          reflexivity|].
  clearbody l. clear E El Hl.
  intros s' El'. cbv zeta. unfold updateControls. cbv zeta.
  change (hitTween (set_ghostPaddlePosition
                      (computePaddlePosition intersects s') s'))
    with (hitTween s').
  change (lastHitPosition (set_ghostPaddlePosition
                             (computePaddlePosition intersects s') s'))
    with (lastHitPosition s').
  rewrite El'.
  destruct (hitTween s') eqn:Eh.
  - split; [reflexivity|]. split; [intros C; discriminate C|].
    intros _. split; [reflexivity|].
    cbn. split; [|split].
    + intros Hal. repeat split; apply lerp_between; exact Hal.
    + intros Hal. unfold Vector3_eq; cbn. rewrite Hal.
      repeat split; ring.
    + intros Hal. unfold Vector3_eq; cbn. rewrite Hal.
      repeat split; ring.
  - split; [reflexivity|]. split; [intros _; reflexivity|].
    intros C; discriminate C.
Qed.

End PaddleHits.

Lemma paddle_hit_effects_witness :
  let s := @run exampleWorld ballAtPaddle (exampleScene SINGLEPLAYER) in
  let s' := @onBallPaddleCollision exampleWorld
              {| x := 0; y := 0.94; z := 0.05 |} s in
  hitTween s = false
  /\ (exists b, physics_ball (physics s) = Some b)
  /\ (exists m, ball s = Some m)
  /\ mode (config s) = SINGLEPLAYER
  /\ self (score s) = 0%Z
  /\ self (score s') = 1%Z
  /\ communication s' = communication s.
Proof.
  intros s s'.
  split; [reflexivity|]. split; [eexists; reflexivity|].
  split; [eexists; reflexivity|].
  split; [reflexivity|]. split; [reflexivity|].
  destruct (@paddle_hit_effects exampleWorld
              {| x := 0; y := 0.94; z := 0.05 |} s _ _
              eq_refl eq_refl eq_refl)
    as [_ [_ [_ [_ [_ [Hs _]]]]]].
  destruct (Hs eq_refl) as [E1 [E2 _]].
  fold s' in E1, E2. split; [rewrite E1; reflexivity | exact E2].
Defined.

Lemma second_hit_ignored_witness :
  let s := @run exampleWorld ballAtPaddle (exampleScene SINGLEPLAYER) in
  let p := {| x := 0; y := 0.94; z := 0.05 |} in
  let s' := @onBallPaddleCollision exampleWorld p s in
  hitTween s = false
  /\ hitAvailable s = true
  /\ (exists b, physics_ball (physics s) = Some b)
  /\ (exists m, ball s = Some m)
  /\ @onBallPaddleCollision exampleWorld p s' = s'
  /\ self (score s') = 1%Z.
Proof.
  intros s p s'.
  split; [reflexivity|]. split; [reflexivity|].
  split; [eexists; reflexivity|]. split; [eexists; reflexivity|].
  destruct (@second_hit_ignored exampleWorld p p s _ _
              eq_refl eq_refl eq_refl eq_refl) as [_ [_ [E _]]].
  split; [exact E | reflexivity].
Defined.

Lemma hitAvailable_tracks_animation_witness :
  let s := @run exampleWorld (ballAtPaddle ++ [BallPaddleCollision])
             (exampleScene SINGLEPLAYER) in
  @reachable exampleWorld (exampleConfig SINGLEPLAYER) true 40 s
  /\ hitTween s = true
  /\ hitAvailable s = false.
Proof.
  intros s.
  assert (Hr : @reachable exampleWorld (exampleConfig SINGLEPLAYER) true 40 s)
    by (apply reachable_run, reachable_setup).
  split; [exact Hr|]. split; [reflexivity|].
  rewrite (@hitAvailable_tracks_animation exampleWorld _ _ _ s Hr).
  reflexivity.
Defined.

Lemma hit_animation_target_witness :
  let s := @run exampleWorld lowBallAtPaddle (exampleScene SINGLEPLAYER) in
  let p := {| x := 0; y := 0.8; z := 0.05 |} in
  hitTween s = false
  /\ hitAvailable s = true
  /\ (exists b, physics_ball (physics s) = Some b)
  /\ ball s = Some {| visible := true; mesh_position := p |}
  /\ y p <= tableHeight (config s) + 0.2
  /\ exists l,
       lastHitPosition (@onBallPaddleCollision exampleWorld p s) = Some l
       /\ y l == 0.9
       /\ y p < y l.
Proof.
  intros s p.
  assert (Em : ball s = Some {| visible := true; mesh_position := p |})
    by reflexivity.
  assert (Hle : y p <= tableHeight (config s) + 0.2)
    by (vm_compute; discriminate).
  split; [reflexivity|]. split; [reflexivity|].
  split; [eexists; reflexivity|]. split; [exact Em|].
  split; [exact Hle|].
  destruct (@hit_animation_target exampleWorld p [] s _ _
              eq_refl eq_refl eq_refl Em)
    as [E [Hraise _]].
  eexists. split; [exact E|].
  assert (Ey : Qmax (y p) (tableHeight (config s) + 0.2) == 0.9).
  { apply (Qeq_trans _ _ _ (Hraise Hle)). vm_compute. reflexivity. }
  split; [exact Ey|].
  cbn [y] in *. rewrite Ey. vm_compute. reflexivity.
Defined.

(** ** Synchronisation with the peer *)

Section Sync.
Context `{Collaborators}.

(** A run of ticks of the tween leaves the balls alone. *)
Lemma tweenTicks_frame (dts : list Q) (s : Scene) :
  ball (run (map TweenTick dts) s) = ball s
  /\ physics (run (map TweenTick dts) s) = physics s.
Proof.
  revert s. induction dts as [|ms dts IH]; intros s; [split; reflexivity|].
  cbn [map]. unfold run; cbn [fold_left].
  fold (run (map TweenTick dts) (step (TweenTick ms) s)).
  destruct (IH (step (TweenTick ms) s)) as [E1 E2]. rewrite E1, E2.
  cbn [step]. destruct (Qlt_bool 0 ms); [|split; reflexivity].
  unfold tweenTick. destruct (alphaTween s) as [tw|]; [|split; reflexivity].
  destruct (Qle_bool _ _); split; reflexivity.
Qed.

(** [onReceivedHit] on a scene that has its ball. *)
Lemma onReceivedHit_with_ball (data : Data) (s : Scene) (m : Mesh) (b : Body) :
  ball s = Some m ->
  physics_ball (physics s) = Some b ->
  let target := mirrorPosition (point data) (tablePositionZ (config s)) in
  let s0 := onReceivedHit data false s in
  ball s0 = Some m
  /\ physics_ball (physics s0)
     = Some (with_velocity (mirrorVelocity (data_velocity data))
               (with_position target b))
  /\ ballPositionDifference s0 = Some (subVectors (position b) target).
Proof.
  intros Em Ep target s0. subst s0 target. unfold onReceivedHit.
  cbn. rewrite Em. cbn. rewrite Ep. cbn. rewrite Ep. cbn.
  repeat split; first [reflexivity | exact Em].
Qed.

(** X9: the glide of the drawn ball after a received Hit.  In a scene that
    has its ball, the first frame after [onReceivedHit] draws the ball where
    the physics ball was before the message, although the physics ball is
    already at the mirrored received point.  When no earlier glide is still
    running ([ballPositionDifference] is null or [ballInterpolationAlpha] is
    0) that is where the frame before the Hit drew it, so the drawn ball
    does not jump; for a Hit that arrives during a running glide only the
    place of the first frame is stated.  While the physics ball stands
    still, the drawn ball moves linearly towards the received point as the
    tween of [ballInterpolationAlpha] advances: [T] milliseconds after the
    hit it is at [lerp(target, old position, 1 - T/500)], and from 500ms on
    at the target itself. *)
Theorem received_hit_glide (data : Data) (s : Scene) (m : Mesh) (b : Body)
    (dts : list Q) :
  ball s = Some m ->
  physics_ball (physics s) = Some b ->
  Forall (fun ms => 0 < ms) dts ->
  let target := mirrorPosition (point data) (tablePositionZ (config s)) in
  let T := Qsum dts in
  let s1 := updateBall (run (map TweenTick dts) (onReceivedHit data false s)) in
  exists m',
    ball s1 = Some m'
    /\ (T == 0 -> Vector3_eq (mesh_position m') (position b))
    /\ (T < 500 ->
        Vector3_eq (mesh_position m')
          (lerpVectors target (position b) (1 - T / 500)))
    /\ (500 <= T -> Vector3_eq (mesh_position m') target)
    /\ (ballPositionDifference s = None \/ ballInterpolationAlpha s == 0 ->
        exists m0,
          ball (updateBall s) = Some m0
          /\ Vector3_eq (mesh_position m0) (position b)
          /\ (T == 0 ->
              Vector3_eq (mesh_position m') (mesh_position m0))).
Proof.
  intros Em Ep Hpos target T s1.
  assert (Hbefore :
            ballPositionDifference s = None
            \/ ballInterpolationAlpha s == 0 ->
            exists m0,
              ball (updateBall s) = Some m0
              /\ Vector3_eq (mesh_position m0) (position b)).
  { intros Hq. unfold updateBall. rewrite Em, Ep.
    destruct (ballPositionDifference s) as [d|].
    - destruct Hq as [C | Hal]; [discriminate C|].
      eexists. split; [reflexivity|].
      unfold Vector3_eq; cbn. rewrite Hal. repeat split; ring.
    - eexists. split; [reflexivity|].
      unfold Vector3_eq; cbn. repeat split; reflexivity. }
  destruct (onReceivedHit_with_ball data s m b Em Ep) as (E1 & E2 & E3).
  assert (Hc : ballConsistent s = true)
    by (unfold ballConsistent; rewrite Em, Ep; reflexivity).
  destruct (onReceivedHit_starts_tween s data Hc) as [Ha [Etw _]].
  set (s0 := onReceivedHit data false s) in *.
  assert (H0 : alphaAfter 0 s0).
  { left. split; [lra|]. split.
    - exists 0. split; [exact Etw | reflexivity].
    - rewrite Ha. reflexivity. }
  destruct (alphaAfter_ticks dts Hpos 0 s0 H0) as [H1 Hd].
  destruct (tweenTicks_frame dts s0) as [F1 F2].
  fold T in H1. fold target in E2, E3.
  set (s' := run (map TweenTick dts) s0) in *.
  clearbody s0 s'.
  assert (Eu : s1 = set_ball
                      (Some (with_mesh_position
                               (lerpVectors target
                                  (addVectors target
                                     (subVectors (position b) target))
                                  (ballInterpolationAlpha s')) m)) s').
  { subst s1. unfold updateBall. rewrite F1, F2, E1, E2, Hd, E3.
    reflexivity. }
  clearbody s1. subst s1.
  eexists. split; [reflexivity|].
  assert (Hlow : T < 500 -> ballInterpolationAlpha s' == 1 - T / 500).
  { intros HT. destruct H1 as [[_ [_ Hv]] | [HT' _]]; [|lra].
    rewrite Hv, !div_500. lra. }
  assert (Hhigh : 500 <= T -> ballInterpolationAlpha s' == 0).
  { intros HT. destruct H1 as [[HT' _] | [_ [_ Hv]]]; [lra|].
    rewrite Hv. reflexivity. }
  assert (H0' : T == 0 ->
                Vector3_eq
                  (lerpVectors target
                     (addVectors target (subVectors (position b) target))
                     (ballInterpolationAlpha s'))
                  (position b)).
  { intros HT. assert (HT' : T < 500) by lra.
    unfold Vector3_eq; cbn.
    rewrite (Hlow HT'), !div_500, HT. repeat split; ring. }
  split; [exact H0'|].
  split; [|split].
  - intros HT. unfold Vector3_eq; cbn.
    rewrite (Hlow HT). repeat split; ring.
  - intros HT. unfold Vector3_eq; cbn.
    rewrite (Hhigh HT). repeat split; ring.
  - intros Hq. destruct (Hbefore Hq) as (m0 & Em0 & (Hx & Hy & Hz)).
    exists m0. split; [exact Em0|].
    split; [repeat split; assumption|].
    intros HT. destruct (H0' HT) as (Gx & Gy & Gz).
    cbn [mesh_position with_mesh_position].
    repeat split;
      [rewrite Gx, Hx | rewrite Gy, Hy | rewrite Gz, Hz]; reflexivity.
Qed.

(** The Miss message that the reset timeout sends in multiplayer mode. *)
Lemma resetTimeoutEnded_sends (s : Scene) (b : Body) :
  mode (config s) = MULTIPLAYER ->
  physics_ball (physics s) = Some b ->
  let s' := resetTimeoutEnded s in
  exists b',
    physics_ball (physics s') = Some b'
    /\ (b' = b \/ b' = physics_initBallPosition b)
    /\ sent (communication s')
       = sent (communication s)
         ++ [MsgMiss (position b') (velocity b') (ballHasHitEnemyTable s)
               false]
    /\ ballHasHitEnemyTable s' = false.
Proof.
  intros Hm Ep s'. subst s'. unfold resetTimeoutEnded. rewrite Hm.
  match goal with
  | |- context [restartPingpongTimeout ?a] =>
      destruct (restartPingpongTimeout_shape a) as (t & r & ->)
  end.
  cbv zeta.
  set (s2 := if ballHasHitEnemyTable (set_physicsTimeStep 1000 s)
             then _ else _).
  assert (F2 : physics s2 = physics s
               /\ communication s2 = communication s
               /\ ballHasHitEnemyTable s2 = ballHasHitEnemyTable s)
    by (subst s2; cbn; destruct (ballHasHitEnemyTable s) eqn:Eb;
        repeat split; first [reflexivity | exact Eb]).
  destruct F2 as (P2 & C2 & B2). clearbody s2.
  set (s3 := if (_ || _)%bool then emit_GAME_OVER s2 else initBallPosition s2).
  assert (F3 : exists b',
             physics_ball (physics s3) = Some b'
             /\ (b' = b \/ b' = physics_initBallPosition b)
             /\ communication s3 = communication s
             /\ ballHasHitEnemyTable s3 = ballHasHitEnemyTable s).
  { subst s3. destruct (_ || _)%bool.
    - exists b. split; [change (physics_ball (physics s2) = Some b);
                        rewrite P2; exact Ep|].
      split; [left; reflexivity|]. split; [exact C2 | exact B2].
    - exists (physics_initBallPosition b).
      unfold initBallPosition.
      split; [cbn; rewrite P2, Ep; reflexivity|].
      split; [right; reflexivity|]. split; [exact C2 | exact B2]. }
  destruct F3 as (b' & P3 & Hor & C3 & B3). clearbody s3.
  exists b'. rewrite (sendMiss_ball_sent _ _ _ _ P3). unfold send. cbn.
  rewrite C3, B3.
  split; [exact P3|]. split; [exact Hor|]. split; reflexivity.
Qed.

(** The reset timeout in multiplayer mode either ends the game and leaves
    the physics ball, or re-serves the physics ball. *)
Lemma resetTimeoutEnded_serves (s : Scene) (b : Body) :
  mode (config s) = MULTIPLAYER ->
  physics_ball (physics s) = Some b ->
  let s' := resetTimeoutEnded s in
  emitted s' = emitted s ++ [EV_GAME_OVER]
  /\ physics_ball (physics s') = Some b
  \/ emitted s' = emitted s
     /\ physics_ball (physics s') = Some (physics_initBallPosition b).
Proof.
  intros Hm Ep s'. subst s'. unfold resetTimeoutEnded. rewrite Hm.
  unfold emit_GAME_OVER, onGameOver, initBallPosition.
  exec; rewrite ?Ep; cbn;
    first [left; split; reflexivity | right; split; reflexivity].
Qed.

(** X10: the two peers of a multiplayer game, each with its ball, agree on
    the score of a lost rally.  When the reset timer fires on one peer, the
    Miss message it sends carries its fault flag [ballHasHitEnemyTable] and
    the position and velocity of its physics ball as it is after the
    timeout: re-served by [initBallPosition] when the game goes on, left
    where it was when the game is over.  If the other peer handles a Miss
    with that flag and the scores were mirrored before ([self] of one is
    [opponent] of the other), they are mirrored afterwards, one point has
    been added, and with the same [POINTS_FOR_WIN] either both peers emit
    GAME_OVER or neither does. *)
Theorem miss_keeps_scores_mirrored (a b : Scene) (data : Data)
    (pb qb : Body) (ma mb : Mesh) :
  mode (config a) = MULTIPLAYER ->
  physics_ball (physics a) = Some pb ->
  ball a = Some ma ->
  physics_ball (physics b) = Some qb ->
  ball b = Some mb ->
  isInit data = false ->
  data_ballHasHitEnemyTable data = ballHasHitEnemyTable a ->
  self (score a) = opponent (score b) ->
  opponent (score a) = self (score b) ->
  POINTS_FOR_WIN (config a) = POINTS_FOR_WIN (config b) ->
  let a' := resetTimeoutEnded a in
  let b' := onReceivedMiss data b in
  (exists pb',
     physics_ball (physics a') = Some pb'
     /\ sent (communication a')
        = sent (communication a)
          ++ [MsgMiss (position pb') (velocity pb')
                (ballHasHitEnemyTable a) false])
  /\ self (score a') = opponent (score b')
  /\ opponent (score a') = self (score b')
  /\ (self (score a') + opponent (score a')
      = self (score a) + opponent (score a) + 1)%Z
  /\ (emitted a' = emitted a ++ [EV_GAME_OVER]
      /\ emitted b' = emitted b ++ [EV_GAME_OVER]
      /\ state (config a') = GAME_OVER
      /\ state (config b') = GAME_OVER
      /\ physics_ball (physics a') = Some pb
      \/ emitted a' = emitted a
         /\ emitted b' = emitted b
         /\ state (config a') = state (config a)
         /\ state (config b') = PLAYING
         /\ physics_ball (physics a')
            = Some (physics_initBallPosition pb)).
Proof.
  intros Hm Ep _ _ _ Hi Hf Hs Ho Hw a' b'.
  destruct (resetTimeoutEnded_sends a pb Hm Ep)
    as (pb' & Hphys & _ & Hsent & _).
  pose proof (resetTimeoutEnded_serves a pb Hm Ep) as Hserve.
  destruct (resetTimeoutEnded_multiplayer a Hm) as [Ea Ga].
  destruct (onReceivedMiss_scores data b Hi) as [Eb Gb].
  cbv zeta in Hserve.
  fold a' in Hphys, Hsent, Hserve, Ea, Ga. fold b' in Eb, Gb.
  clearbody a' b'.
  rewrite Hf in Eb. rewrite <- Hw in Gb.
  split; [exists pb'; split; assumption|].
  assert (E1 : self (score a') = opponent (score b'))
    by (rewrite Ea, Eb; destruct (ballHasHitEnemyTable a); cbn; lia).
  assert (E2 : opponent (score a') = self (score b'))
    by (rewrite Ea, Eb; destruct (ballHasHitEnemyTable a); cbn; lia).
  split; [exact E1|]. split; [exact E2|].
  split; [rewrite Ea; destruct (ballHasHitEnemyTable a); cbn; lia|].
  assert (Hne : emitted a ++ [EV_GAME_OVER] <> emitted a).
  { intros C. apply (f_equal (@length EVENT)) in C.
    rewrite length_app in C. cbn in C. lia. }
  destruct Ga as [(Ha1 & Ha2 & Ha3) | (Ha1 & Ha2 & Ha3)];
    destruct Gb as [(Hb1 & Hb2 & Hb3) | (Hb1 & Hb2 & Hb3)];
    try (exfalso; lia).
  - left. destruct Hserve as [[_ Hp] | [He _]];
      [|exfalso; apply Hne; rewrite <- Ha2; exact He].
    repeat split; assumption.
  - right. destruct Hserve as [[He _] | [_ Hp]];
      [exfalso; apply Hne; rewrite <- He; exact Ha2|].
    repeat split; assumption.
Qed.

(** X11: the peer that receives a Hit (or the hit part of a Miss) does not
    keep a reset timer: when the ball exists (with its physics ball),
    [onReceivedHit] cancels the pending reset timer and arms none, and
    leaves the configuration alone.  When there is no ball yet, it adds one,
    which sets the state to PLAYING and arms the timer. *)
Theorem received_hit_disarms_timer (data : Data) (wasMiss : bool)
    (s : Scene) :
  oneResetTimer s ->
  ballConsistent s = true ->
  let s' := onReceivedHit data wasMiss s in
  (ball s <> None ->
   timeouts (time s') = [] /\ config s' = config s /\ ball s' = ball s)
  /\ (ball s = None ->
      timeouts (time s') = [nextHandle (time s)]
      /\ resetBallTimeout s' = Some (nextHandle (time s))
      /\ state (config s') = PLAYING
      /\ ball s' = Some Ball_new).
Proof.
  intros Ho _ s'. subst s'.
  pose proof (clearTimeout_empties s Ho) as Ec.
  set (s0 := set_time (clearTimeout (resetBallTimeout s) (time s)) s).
  assert (Ho0 : oneResetTimer s0) by (left; exact Ec).
  assert (En : nextHandle (time s0) = nextHandle (time s))
    by apply nextHandle_clearTimeout.
  split.
  - intros Hb. unfold onReceivedHit. cbv zeta. fold s0.
    destruct (ball s) as [m|] eqn:Em; [|congruence].
    assert (Em0 : ball s0 = Some m) by exact Em. rewrite Em0.
    destruct wasMiss; cbn [negb];
      repeat match goal with
             | |- context [match ?e with _ => _ end] =>
                 lazymatch e with
                 | physics_ball _ => destruct e
                 end
             end;
      (split; [exact Ec|]); split; first [reflexivity | exact Em].
  - intros Hb.
    destruct (addBall_arms s0 Ho0) as [Ha1 Ha2]. rewrite En in Ha1, Ha2.
    pose proof (config_addBall s0) as Hc.
    assert (Hball : ball (addBall s0) = Some Ball_new).
    { unfold addBall. cbv zeta.
      assert (Em0 : ball (set_config (with_state PLAYING (config s0)) s0)
                    = None) by exact Hb.
      rewrite Em0. rewrite ball_restartPingpongTimeout. reflexivity. }
    unfold onReceivedHit. cbv zeta. fold s0.
    assert (Em0 : ball s0 = None) by exact Hb. rewrite Em0.
    clearbody s0. set (s1 := addBall s0) in *. clearbody s1.
    destruct wasMiss; cbn [negb];
      repeat match goal with
             | |- context [match ?e with _ => _ end] =>
                 lazymatch e with
                 | physics_ball _ => destruct e
                 end
             end;
      (split; [exact Ha1|]); (split; [exact Ha2|]);
      (split; [cbn; rewrite Hc; reflexivity | exact Hball]).
Qed.

Lemma addBall_shape_speed (s : Scene) :
  exists c b p t r,
    addBall s
    = set_resetBallTimeout r
        (set_time t (set_physics p (set_ball b (set_config c s))))
    /\ speed p = speed (physics s).
Proof.
  unfold addBall; cbn.
  destruct (ball s);
    match goal with
    | |- context [restartPingpongTimeout ?a] =>
        destruct (restartPingpongTimeout_shape a) as (t & r & ->)
    end;
    do 5 eexists; split; reflexivity.
Qed.

Ltac exec_speed :=
  repeat (cbn;
          repeat match goal with
                 | |- context [addBall ?a] =>
                     let c := fresh "c" in
                     let b := fresh "b" in
                     let p := fresh "p" in
                     let t := fresh "t" in
                     let r := fresh "r" in
                     let E := fresh "E" in
                     destruct (addBall_shape_speed a)
                       as (c & b & p & t & r & -> & E);
                     cbn in E
                 end;
          shapes; try break_match).

Lemma speed_onReceivedHit (data : Data) (wasMiss : bool) (s : Scene) :
  speed (physics (onReceivedHit data wasMiss s))
  = if wasMiss then speed (physics s)
    else physics_increaseSpeed (speed (physics s)).
Proof.
  unfold onReceivedHit. destruct wasMiss; exec_speed;
    first [reflexivity | congruence].
Qed.

(** X12: the speed factor of the physics world, in a scene whose visual
    ball has its physics ball.  A received Hit raises it by one call of
    [physics.increaseSpeed]; a received Miss and both restart requests set
    it to 1; no other input changes it. *)
Theorem physics_speed_changes (i : Input) (s : Scene) :
  ballConsistent s = true ->
  speed (physics (step i s))
  = match i with
    | ReceivedHit _ => physics_increaseSpeed (speed (physics s))
    | ReceivedMiss _ | RestartButtonPressed | ReceivedRestartGame => 1
    | _ => speed (physics s)
    end.
Proof.
  intros _.
  destruct i; cbn [step]; rewrite ?speed_onReceivedHit; try reflexivity;
    unfold setMultiplayer, setSingleplayer, startGame,
      onRestartButtonPressed, onReceivedRestartGame, restartGame,
      onReceivedRequestCountdown, requestCountdown,
      onReceivedMiss, onBallPaddleCollision, onBallTableCollision,
      timeoutElapsed, resetTimeoutEnded, intervalElapsed,
      countdown_callback, tweenTick, hitTweenUpdate, hitTweenComplete,
      onMouseMove, onPointerLockChange, updateControls, updateBall;
    exec_speed; rewrite ?speed_onReceivedHit;
    first [reflexivity | cbn; congruence].
Qed.

(** X13: the latency compensation only ever slows the ball down.  When the
    ball travels towards the opponent and the estimated time of arrival
    [eta] is positive, [slowdownBall] sets the time step to
    [1000 + latency / eta]: at least 1000 for a non-negative latency, and
    exactly 1000 for latency 0. *)
Theorem slowdownBall_never_speeds_up (s : Scene) (b : Body) (m : Mesh) :
  physics_ball (physics s) = Some b ->
  ball s = Some m ->
  let eta :=
    Vector3_length (subVectors (mesh_position m) (paddleOpponent_position s))
    / Vector3_length (velocity b) in
  let lat := latency (communication s) in
  z (velocity b) <= 0 ->
  0 < eta ->
  physicsTimeStep (slowdownBall s) == 1000 + lat / eta
  /\ (0 <= lat -> 1000 <= physicsTimeStep (slowdownBall s))
  /\ (lat == 0 -> physicsTimeStep (slowdownBall s) == 1000).
Proof.
  intros Ep Em eta lat Hz Heta.
  destruct (slowdownBall_cases s b m Ep Em) as [H1 _].
  pose proof (H1 Hz) as E. fold eta lat in E. clearbody eta lat.
  assert (Hne : ~ eta == 0) by (intros C; rewrite C in Heta; lra).
  assert (E' : physicsTimeStep (slowdownBall s) == 1000 + lat / eta)
    by (rewrite E; field; exact Hne).
  split; [exact E'|]. split.
  - intros Hl. rewrite E'.
    assert (0 <= lat / eta).
    { unfold Qdiv. apply Qmult_le_0_compat; [exact Hl|].
      apply Qlt_le_weak, Qinv_lt_0_compat, Heta. }
    lra.
  - intros Hl. rewrite E', Hl. field. exact Hne.
Qed.

End Sync.

Lemma received_hit_glide_witness :
  let s := @run exampleWorld firstServe (exampleScene SINGLEPLAYER) in
  let m := {| visible := true; mesh_position := Vector3_zero |} in
  let b := {| position := {| x := 0; y := 1; z := 1 |};
              velocity := {| x := 0; y := 0; z := 1 |};
              angularVelocity := Vector3_zero |} in
  let s0 := @onReceivedHit exampleWorld exampleHit false s in
  let s1 := @updateBall (@run exampleWorld (map TweenTick [125; 125]) s0) in
  ball s = Some m
  /\ physics_ball (physics s) = Some b
  /\ Forall (fun ms => 0 < ms) [125; 125]
  /\ ballPositionDifference s = None
  /\ (exists m',
        ball s1 = Some m'
        /\ Vector3_eq (mesh_position m')
             {| x := -0.25; y := 0.5; z := 1.9 |})
  /\ exists m0 m',
       ball (updateBall s) = Some m0
       /\ ball (updateBall s0) = Some m'
       /\ Vector3_eq (mesh_position m') (mesh_position m0).
Proof.
  intros s m b s0 s1.
  assert (Hp : Forall (fun ms => 0 < ms) [125; 125])
    by (repeat constructor).
  assert (Em : ball s = Some m) by (vm_compute; reflexivity).
  assert (Eb : physics_ball (physics s) = Some b)
    by (vm_compute; reflexivity).
  assert (Ed : ballPositionDifference s = None) by (vm_compute; reflexivity).
  split; [exact Em|]. split; [exact Eb|]. split; [exact Hp|].
  split; [exact Ed|]. split.
  - destruct (@received_hit_glide exampleWorld exampleHit s m b [125; 125]
                Em Eb Hp) as [m' [E [_ [Hlow _]]]].
    exists m'. split; [exact E|].
    assert (HT : Qsum [125; 125] < 500) by reflexivity.
    destruct (Hlow HT) as [Hx [Hy Hz]].
    split; [|split];
      [ apply (Qeq_trans _ _ _ Hx) | apply (Qeq_trans _ _ _ Hy)
      | apply (Qeq_trans _ _ _ Hz) ];
      vm_compute; reflexivity.
  - destruct (@received_hit_glide exampleWorld exampleHit s m b []
                Em Eb (Forall_nil _)) as [m' [E [_ [_ [_ Hq]]]]].
    destruct (Hq (or_introl Ed)) as (m0 & Em0 & _ & Hsame).
    exists m0, m'. split; [exact Em0|]. split; [exact E|].
    apply Hsame. reflexivity.
Defined.

Lemma miss_keeps_scores_mirrored_witness :
  let pb := {| position := {| x := 0.5; y := 0.94; z := 1.5 |};
               velocity := {| x := 0; y := 0; z := 2 |};
               angularVelocity := Vector3_zero |} in
  let a := @run exampleWorld (firstServe ++ [PhysicsStep pb])
             (exampleScene SINGLEPLAYER) in
  let data := {| point := {| x := 0; y := 1; z := 1 |};
                 data_velocity := {| x := 0; y := 0; z := 1 |};
                 data_ballHasHitEnemyTable := false; isInit := false |} in
  let a' := @resetTimeoutEnded exampleWorld a in
  let b' := @onReceivedMiss exampleWorld data a in
  mode (config a) = MULTIPLAYER
  /\ physics_ball (physics a) = Some pb
  /\ (exists ma, ball a = Some ma)
  /\ data_ballHasHitEnemyTable data = ballHasHitEnemyTable a
  /\ self (score a) = opponent (score a)
  /\ opponent (score a') = 1%Z
  /\ self (score b') = 1%Z
  /\ opponent (score a') = self (score b')
  /\ sent (communication a')
     = sent (communication a)
       ++ [MsgMiss {| x := 0; y := 1; z := 1 |} {| x := 0; y := 0; z := 1 |}
             false false].
Proof.
  intros pb a data a' b'.
  assert (Ep : physics_ball (physics a) = Some pb) by reflexivity.
  split; [reflexivity|]. split; [exact Ep|].
  split; [eexists; reflexivity|].
  split; [reflexivity|]. split; [reflexivity|].
  split; [reflexivity|]. split; [reflexivity|].
  destruct (@miss_keeps_scores_mirrored exampleWorld a a data pb pb _ _
              eq_refl Ep eq_refl Ep eq_refl eq_refl eq_refl eq_refl eq_refl
              eq_refl)
    as [[pb' [Hp Hsent]] [_ [E [_ Hbr]]]].
  split; [exact E|].
  destruct Hbr as [[He _] | [_ [_ [_ [_ Hq]]]]].
  - exfalso. revert He. vm_compute. discriminate.
  - fold a' in Hp, Hsent, Hq. rewrite Hq in Hp.
    injection Hp as <-. exact Hsent.
Defined.

Lemma received_hit_disarms_timer_witness :
  let s := @run exampleWorld ballAtPaddle (exampleScene SINGLEPLAYER) in
  let s' := @onReceivedHit exampleWorld exampleHit false s in
  oneResetTimer s
  /\ ballConsistent s = true
  /\ ball s <> None
  /\ timeouts (time s) = [1%nat]
  /\ timeouts (time s') = [].
Proof.
  intros s s'.
  assert (Ho : oneResetTimer s)
    by (right; exists 1%nat; split; reflexivity).
  assert (Hb : ball s <> None) by discriminate.
  split; [exact Ho|]. split; [reflexivity|].
  split; [exact Hb|]. split; [reflexivity|].
  destruct (@received_hit_disarms_timer exampleWorld exampleHit false s Ho
              eq_refl)
    as [Hw _].
  exact (proj1 (Hw Hb)).
Defined.

Lemma physics_speed_changes_witness :
  let s := @run exampleWorld ballAtPaddle (exampleScene SINGLEPLAYER) in
  ballConsistent s = true
  /\ speed (physics (@step exampleWorld (ReceivedHit exampleHit) s))
     = @physics_increaseSpeed exampleWorld (speed (physics s))
  /\ speed (physics (@step exampleWorld (ReceivedMiss exampleMiss) s)) = 1.
Proof.
  intros s. split; [reflexivity|]. split.
  - exact (@physics_speed_changes exampleWorld (ReceivedHit exampleHit) s
             eq_refl).
  - exact (@physics_speed_changes exampleWorld (ReceivedMiss exampleMiss) s
             eq_refl).
Defined.

Lemma slowdownBall_never_speeds_up_witness :
  let s :=
    @run exampleWorld
      (firstServe
       ++ [ReceivedMove {| x := 0; y := 1; z := -0.1 |};
           PhysicsStep {| position := {| x := 0; y := 1; z := 1 |};
                          velocity := {| x := 0; y := 0; z := -2 |};
                          angularVelocity := Vector3_zero |}])
      (exampleScene SINGLEPLAYER) in
  let b := {| position := {| x := 0; y := 1; z := 1 |};
              velocity := {| x := 0; y := 0; z := -2 |};
              angularVelocity := Vector3_zero |} in
  let m := {| visible := true;
              mesh_position := {| x := 0; y := 1; z := 1 |} |} in
  physics_ball (physics s) = Some b
  /\ ball s = Some m
  /\ z (velocity b) <= 0
  /\ 0 <= latency (communication s)
  /\ 1000 <= physicsTimeStep (@slowdownBall exampleWorld s).
Proof.
  intros s b m.
  split; [reflexivity|]. split; [reflexivity|].
  assert (Hz : z (velocity b) <= 0) by (vm_compute; discriminate).
  assert (Hl : 0 <= latency (communication s)) by (vm_compute; discriminate).
  split; [exact Hz|]. split; [exact Hl|].
  destruct (@slowdownBall_never_speeds_up exampleWorld s b m
              eq_refl eq_refl Hz) as [_ [Hge _]].
  - vm_compute. reflexivity.
  - exact (Hge Hl).
Defined.

(** ** What no input does *)

Section Never.
Context `{Collaborators}.

Ltac unfold_handlers :=
  unfold setMultiplayer, setSingleplayer, startGame,
    onRestartButtonPressed, onReceivedRestartGame, restartGame,
    onReceivedRequestCountdown, requestCountdown, onReceivedMiss,
    onBallPaddleCollision, onBallTableCollision,
    timeoutElapsed, resetTimeoutEnded, intervalElapsed,
    countdown_callback, tweenTick, hitTweenUpdate, hitTweenComplete,
    onMouseMove, onPointerLockChange, updateControls, updateBall.

(** X14: in singleplayer mode no input makes the scene send a message:
    whatever happens -- a paddle hit, the reset timeout, the end of the
    countdown, a restart -- [communication.send...] is not called. *)
Theorem singleplayer_sends_nothing (i : Input) (s : Scene) :
  mode (config s) = SINGLEPLAYER ->
  sent (communication (step i s)) = sent (communication s).
Proof.
  intros Hm.
  destruct i; cbn [step]; unfold_handlers;
    exec'; first [reflexivity | congruence].
Qed.

Lemma score_bounds_step (L : Z) (i : Input) (s : Scene) :
  startLives (config s) = L ->
  (0 <= self (score s) /\ 0 <= opponent (score s)
   /\ 0 <= highest (score s) /\ lives (score s) <= L)%Z ->
  (0 <= self (score (step i s)) /\ 0 <= opponent (score (step i s))
   /\ 0 <= highest (score (step i s)) /\ lives (score (step i s)) <= L)%Z.
Proof.
  intros HL (H1 & H2 & H3 & H4).
  destruct i; cbn [step]; unfold_handlers;
    exec'; rewrite ?HL; lia.
Qed.

Lemma config_onReceivedHit (data : Data) (wasMiss : bool) (s : Scene) :
  config (onReceivedHit data wasMiss s)
  = match ball s with
    | Some _ => config s
    | None => with_state PLAYING (config s)
    end.
Proof.
  unfold onReceivedHit; cbn.
  destruct (ball s), wasMiss; cbn; repeat break_match; cbn;
    rewrite ?config_addBall; reflexivity.
Qed.

Ltac cfg :=
  repeat (cbn;
          rewrite ?config_restartPingpongTimeout, ?config_addBall,
            ?config_onReceivedHit;
          repeat match goal with
                 | |- context [slowdownBall ?a] =>
                     let t := fresh "t" in
                     destruct (slowdownBall_shape a) as (t & ->)
                 | |- context [ballHitAnimation ?a] =>
                     let l := fresh "l" in
                     let t := fresh "t" in
                     let v := fresh "v" in
                     destruct (ballHitAnimation_shape a) as (l & t & v & ->)
                 | |- context [sendMiss_ball ?f ?i ?a] =>
                     let c := fresh "c" in
                     destruct (sendMiss_ball_shape f i a) as (c & ->)
                 end;
          try break_match).

(** A field of the configuration that neither [mode] nor [state] is. *)
Lemma config_step_field {A : Type} (f : Config -> A) :
  (forall st c, f (with_state st c) = f c) ->
  (forall m c, f (with_mode m c) = f c) ->
  forall (i : Input) (s : Scene), f (config (step i s)) = f (config s).
Proof.
  intros Hst Hm i s.
  destruct i; cbn [step]; unfold_handlers;
    cfg; rewrite ?Hst, ?Hm; reflexivity.
Qed.

Lemma mode_step (i : Input) (s : Scene) :
  mode (config (step i s))
  = match i with
    | SetMultiplayer => MULTIPLAYER
    | SetSingleplayer => SINGLEPLAYER
    | _ => mode (config s)
    end.
Proof.
  destruct i; cbn [step]; unfold_handlers;
    cfg; first [reflexivity | congruence].
Qed.

Lemma state_step (i : Input) (s : Scene) :
  state (config (step i s)) = MENU -> state (config s) = MENU.
Proof.
  destruct i; cbn [step]; unfold_handlers;
    cfg; first [discriminate | exact (fun x => x) | intros; congruence].
Qed.

(** X15: the configuration under one input.  The table dimensions,
    [POINTS_FOR_WIN] and [startLives] are never assigned; [mode] is assigned
    by [setMultiplayer] and [setSingleplayer] only; and no input brings the
    state back to MENU: the scene only ever assigns COUNTDOWN, PLAYING and
    GAME_OVER. *)
Theorem config_is_constant (i : Input) (s : Scene) :
  let c := config s in
  let c' := config (step i s) in
  tableDepth c' = tableDepth c
  /\ tableWidth c' = tableWidth c
  /\ tableHeight c' = tableHeight c
  /\ tablePositionZ c' = tablePositionZ c
  /\ POINTS_FOR_WIN c' = POINTS_FOR_WIN c
  /\ startLives c' = startLives c
  /\ mode c' = match i with
               | SetMultiplayer => MULTIPLAYER
               | SetSingleplayer => SINGLEPLAYER
               | _ => mode c
               end
  /\ (state c' = MENU -> state c = MENU).
Proof.
  cbv zeta.
  split; [apply (config_step_field tableDepth); reflexivity|].
  split; [apply (config_step_field tableWidth); reflexivity|].
  split; [apply (config_step_field tableHeight); reflexivity|].
  split; [apply (config_step_field tablePositionZ); reflexivity|].
  split; [apply (config_step_field POINTS_FOR_WIN); reflexivity|].
  split; [apply (config_step_field startLives); reflexivity|].
  split; [apply mode_step | apply state_step].
Qed.

(** X16: in every reachable scene the two scores and the highest score are
    not negative, and [lives] is at most [startLives]: points are only ever
    added or reset to 0, lives only ever taken or reset to [startLives]. *)
Theorem score_bounds cfg host lat (s : Scene) :
  reachable cfg host lat s ->
  (0 <= self (score s))%Z
  /\ (0 <= opponent (score s))%Z
  /\ (0 <= highest (score s))%Z
  /\ (lives (score s) <= startLives cfg)%Z
  /\ startLives (config s) = startLives cfg.
Proof.
  intros Hr.
  assert (G : startLives (config s) = startLives cfg
              /\ (0 <= self (score s) /\ 0 <= opponent (score s)
                  /\ 0 <= highest (score s)
                  /\ lives (score s) <= startLives cfg)%Z).
  { induction Hr as [|i s _ [IH1 IH2]].
    - cbn. repeat split; first [reflexivity | lia].
    - split.
      + rewrite <- IH1.
        apply (config_step_field startLives); reflexivity.
      + apply score_bounds_step; assumption. }
  tauto.
Qed.

End Never.

Lemma singleplayer_sends_nothing_witness :
  let s := @run exampleWorld ballAtPaddle (exampleScene SINGLEPLAYER) in
  mode (config s) = SINGLEPLAYER
  /\ sent (communication (@step exampleWorld BallPaddleCollision s)) = []
  /\ self (score (@step exampleWorld BallPaddleCollision s)) = 1%Z.
Proof.
  intros s. split; [reflexivity|]. split; [|reflexivity].
  rewrite (@singleplayer_sends_nothing exampleWorld BallPaddleCollision s
             eq_refl).
  reflexivity.
Defined.

Lemma score_bounds_witness :
  let s := @run exampleWorld gameLost (exampleScene SINGLEPLAYER) in
  @reachable exampleWorld (exampleConfig SINGLEPLAYER) true 40 s
  /\ lives (score s) = 0%Z
  /\ (lives (score s) <= 3)%Z.
Proof.
  intros s.
  assert (Hr : @reachable exampleWorld (exampleConfig SINGLEPLAYER) true 40 s)
    by (apply reachable_run, reachable_setup).
  split; [exact Hr|]. split; [reflexivity|].
  exact (proj1 (proj2 (proj2 (proj2
           (@score_bounds exampleWorld _ _ _ s Hr))))).
Defined.

(** ** The ball is there when it is used *)

(** Symbolic execution that keeps track of the ball: [addBall] and
    [onReceivedHit] leave a ball and, from a consistent scene, a physics
    ball. *)
Section BallShapes.
Context `{Collaborators}.

Lemma ball_addBall (s : Scene) : ball (addBall s) <> None.
Proof.
  unfold addBall. cbv zeta.
  destruct (ball (set_config (with_state PLAYING (config s)) s));
    rewrite ball_restartPingpongTimeout; discriminate.
Qed.

Lemma addBall_shape_ball (s : Scene) :
  exists c b p t r,
    addBall s
    = set_resetBallTimeout r
        (set_time t (set_physics p (set_ball b (set_config c s))))
    /\ b <> None
    /\ (physics_ball p = None -> ballConsistent s = false).
Proof.
  destruct (addBall_shape s) as (c & b & p & t & r & E).
  exists c, b, p, t, r. split; [exact E|].
  pose proof (ball_addBall s) as Hb.
  pose proof (f_equal ball E) as E1.
  pose proof (f_equal physics E) as E2.
  change (ball (addBall s) = b) in E1.
  change (physics (addBall s) = p) in E2.
  rewrite E1 in Hb. split; [exact Hb|].
  intros Ep. destruct (ballConsistent s) eqn:Hc; [|reflexivity].
  destruct (addBall_creates s Hc) as [_ [b' Eb']].
  rewrite E2, Ep in Eb'. discriminate Eb'.
Qed.

Lemma ball_onReceivedHit data wasMiss (s : Scene) :
  ball (onReceivedHit data wasMiss s) <> None.
Proof.
  intros Hb.
  unfold onReceivedHit in Hb. cbv zeta in Hb.
  destruct (ball s) as [m|] eqn:Em.
  - assert (E0 : ball (set_time (clearTimeout (resetBallTimeout s) (time s)) s)
                 = Some m) by exact Em.
    rewrite E0 in Hb. destruct wasMiss; cbn in Hb;
      repeat match type of Hb with
             | context [match ?e with _ => _ end] => destruct e
             end; cbn in Hb; congruence.
  - assert (E0 : ball (set_time (clearTimeout (resetBallTimeout s) (time s)) s)
                 = None) by exact Em.
    rewrite E0 in Hb.
    destruct (addBall_shape_ball
                (set_time (clearTimeout (resetBallTimeout s) (time s)) s))
      as (c' & b' & p' & t' & r' & E' & Hb' & _).
    rewrite E' in Hb. destruct wasMiss; cbn in Hb;
      repeat match type of Hb with
             | context [match ?e with _ => _ end] => destruct e
             end; cbn in Hb; congruence.
Qed.

Lemma onReceivedHit_shape_ball data wasMiss (s : Scene) :
  exists c b p t r d a w ts,
    onReceivedHit data wasMiss s
    = set_physicsTimeStep ts
        (set_alphaTween w
           (set_ballInterpolationAlpha a
              (set_ballPositionDifference d
                 (set_resetBallTimeout r
                    (set_time t
                       (set_physics p (set_ball b (set_config c s))))))))
    /\ b <> None
    /\ (physics_ball p = None -> ballConsistent s = false).
Proof.
  destruct (onReceivedHit_shape data wasMiss s)
    as (c & b & p & t & r & d & a & w & ts & E).
  exists c, b, p, t, r, d, a, w, ts. split; [exact E|].
  pose proof (ball_onReceivedHit data wasMiss s) as Hb.
  pose proof (f_equal ball E) as E1.
  pose proof (f_equal physics E) as E2.
  change (ball (onReceivedHit data wasMiss s) = b) in E1.
  change (physics (onReceivedHit data wasMiss s) = p) in E2.
  rewrite E1 in Hb. split; [exact Hb|].
  intros Ep. destruct (ballConsistent s) eqn:Hc; [|reflexivity].
  destruct (onReceivedHit_ball s data wasMiss Hc) as [b' [Eb' _]].
  rewrite E2, Ep in Eb'. discriminate Eb'.
Qed.

End BallShapes.

Ltac shapesB :=
  repeat match goal with
  | |- context [restartPingpongTimeout ?a] =>
      let t := fresh "t" in
      let r := fresh "r" in
      destruct (restartPingpongTimeout_shape a) as (t & r & ->)
  | |- context [addBall ?a] =>
      let c := fresh "c" in
      let b := fresh "b" in
      let p := fresh "p" in
      let t := fresh "t" in
      let r := fresh "r" in
      let Hb := fresh "Hb" in
      let Hp := fresh "Hp" in
      destruct (addBall_shape_ball a) as (c & b & p & t & r & -> & Hb & Hp)
  | |- context [slowdownBall ?a] =>
      let t := fresh "t" in
      destruct (slowdownBall_shape a) as (t & ->)
  | |- context [ballHitAnimation ?a] =>
      let l := fresh "l" in
      let t := fresh "t" in
      let v := fresh "v" in
      destruct (ballHitAnimation_shape a) as (l & t & v & ->)
  | |- context [sendMiss_ball ?f ?i ?a] =>
      let c := fresh "c" in
      destruct (sendMiss_ball_shape f i a) as (c & ->)
  | |- context [onReceivedHit ?d ?m ?a] =>
      let c := fresh "c" in
      let b := fresh "b" in
      let p := fresh "p" in
      let t := fresh "t" in
      let r := fresh "r" in
      let d' := fresh "d" in
      let al := fresh "a" in
      let w := fresh "w" in
      let ts := fresh "ts" in
      let Hb := fresh "Hb" in
      let Hp := fresh "Hp" in
      destruct (onReceivedHit_shape_ball d m a)
        as (c & b & p & t & r & d' & al & w & ts & -> & Hb & Hp)
  end.

Ltac execB := repeat (cbn; shapesB; try break_match).

Section BallExists.
Context `{Collaborators}.

Ltac unfold_handlers :=
  unfold setMultiplayer, setSingleplayer, startGame,
    onRestartButtonPressed, onReceivedRestartGame, restartGame,
    onReceivedRequestCountdown, requestCountdown, onReceivedMiss,
    onBallPaddleCollision, onBallTableCollision,
    timeoutElapsed, resetTimeoutEnded, intervalElapsed,
    countdown_callback, tweenTick, hitTweenUpdate, hitTweenComplete,
    onMouseMove, onPointerLockChange, updateControls, updateBall.

(** No input removes the ball or the physics ball. *)
Lemma balls_step (i : Input) (s : Scene) :
  ball s <> None -> physics_ball (physics s) <> None ->
  ball (step i s) <> None /\ physics_ball (physics (step i s)) <> None.
Proof.
  intros Hm Hp.
  destruct i; cbn [step]; unfold_handlers; execB.
  all: try (split; congruence).
  all: repeat match goal with
         | Hx : physics_ball ?p = None -> ballConsistent ?a = false |- _ =>
             destruct (physics_ball p) eqn:?;
             [clear Hx
             |specialize (Hx eq_refl); unfold ballConsistent in Hx;
              cbn in Hx]
         end.
  all: try (split; congruence).
  all: repeat match goal with
         | Hx : match ball _ with _ => _ end = false |- _ => revert Hx
         end;
       revert Hm Hp;
       destruct (ball s); destruct (physics_ball (physics s)); cbn; intros;
       try congruence; try (split; congruence).
  - destruct b; [split; discriminate | congruence].
  - destruct b; [split; discriminate | congruence].
  - destruct b; [cbn in Hp1; discriminate Hp1 | congruence].
  - discriminate Heqo0.
Qed.

Lemma timeouts_clearTimeout_nil (r : option nat) (t : Time) :
  timeouts t = [] -> timeouts (clearTimeout r t) = [].
Proof.
  intros E. destruct r; unfold clearTimeout; cbn; rewrite ?E; reflexivity.
Qed.

Lemma ballReady_of_balls (s : Scene) :
  ball s <> None -> physics_ball (physics s) <> None -> ballReady s.
Proof.
  intros Hm Hp. unfold ballReady, ballConsistent.
  destruct (ball s); [|congruence].
  destruct (physics_ball (physics s)); [|congruence].
  split; [reflexivity | discriminate].
Qed.

(** Every input keeps [ballReady]: the ball is only ever added, the state
    becomes PLAYING and the reset timer is armed only where the ball has
    been added. *)
Lemma ballReady_step (i : Input) (s : Scene) :
  ballReady s -> ballReady (step i s).
Proof.
  intros [Hc Hn].
  destruct (ball s) as [m|] eqn:Em.
  { assert (Hp : physics_ball (physics s) <> None).
    { unfold ballConsistent in Hc. rewrite Em in Hc.
      destruct (physics_ball (physics s)); [discriminate | discriminate Hc]. }
    assert (Hm : ball s <> None) by (rewrite Em; discriminate).
    destruct (balls_step i s Hm Hp). apply ballReady_of_balls; assumption. }
  destruct (Hn eq_refl) as [Hs Ht]. clear Hn.
  unfold ballReady.
  destruct i; cbn [step]; unfold_handlers; execB.
  all: try congruence.
  all: try (exfalso; apply Hs; assumption).
  all: try match goal with
           | Hx : pendingTimeout _ _ = true |- _ =>
               unfold pendingTimeout in Hx; rewrite Ht in Hx;
               discriminate Hx
           end.
  all: unfold ballConsistent, emit_GAME_OVER, emit_RESTART_GAME, onGameOver,
         resetScore, send; cbn; rewrite ?Em; cbn.
  all: try (split; [reflexivity|]; intros _; split;
            [first [exact Hs | discriminate]
            |repeat apply timeouts_clearTimeout_nil; exact Ht]).
  all: try (apply timeouts_clearTimeout_nil; exact Ht).
  all: try (change (ballReady s); split; [exact Hc|]; intros _; split;
            [exact Hs | exact Ht]).
  all: repeat match goal with
         | Hx : ?b <> None |- _ =>
             destruct b; [clear Hx | exfalso; apply Hx; reflexivity]
         end; cbn.
  all: repeat match goal with
         | Hx : physics_ball ?p = None -> ballConsistent ?s0 = false |- _ =>
             destruct (physics_ball p);
             [clear Hx
             |specialize (Hx eq_refl); unfold ballConsistent in Hx;
              cbn in Hx; rewrite ?Em in Hx; try congruence]
         end; cbn.
  all: try (split; [reflexivity | discriminate]).
  all: try (exfalso;
            match goal with
            | Hx : _ = false |- _ => cbn in Hx; discriminate Hx
            end).
  all: split; [reflexivity|]; intros _; split; [congruence | exact Ht].
Qed.

(** X23: the ball object is there whenever the scene uses it.  In every
    scene that a run reaches from a configuration whose state is not
    PLAYING, the physics ball exists whenever the visual ball does, and the
    visual ball exists (shown or hidden) whenever the state is PLAYING
    (where [animate] calls [updateBall]) or a reset timer is pending (whose
    callback [resetTimeoutEnded] re-serves the ball): a ball is created
    before the state first becomes PLAYING and before a timer is first
    armed, and no input removes the ball or its physics ball. *)
Theorem ball_exists_when_used cfg host lat (s : Scene) :
  state cfg <> PLAYING ->
  reachable cfg host lat s ->
  (ball s <> None -> physics_ball (physics s) <> None)
  /\ (state (config s) = PLAYING -> ball s <> None)
  /\ (timeouts (time s) <> [] -> ball s <> None)
  /\ forall i,
       ball s <> None ->
       ball (step i s) <> None /\ physics_ball (physics (step i s)) <> None.
Proof.
  intros Hcfg Hr.
  assert (G : ballReady s).
  { induction Hr as [|i s _ IH].
    - split; [reflexivity|]. intros _. split; [exact Hcfg | reflexivity].
    - apply ballReady_step. exact IH. }
  destruct G as [Hc Hn]. unfold ballConsistent in Hc.
  split; [|split; [|split]].
  - intros Hb. destruct (ball s); [|congruence].
    destruct (physics_ball (physics s)); [discriminate | discriminate Hc].
  - intros Hs Hb. destruct (Hn Hb) as [Hs' _]. contradiction.
  - intros Ht Hb. destruct (Hn Hb) as [_ Ht']. contradiction.
  - intros i Hb. apply balls_step; [exact Hb|].
    destruct (ball s); [|congruence].
    destruct (physics_ball (physics s)); [discriminate | discriminate Hc].
Qed.

End BallExists.

Lemma ball_exists_when_used_witness :
  let s := @run exampleWorld firstServe (exampleScene SINGLEPLAYER) in
  state (exampleConfig SINGLEPLAYER) <> PLAYING
  /\ @reachable exampleWorld (exampleConfig SINGLEPLAYER) true 40 s
  /\ state (config s) = PLAYING
  /\ ball s <> None.
Proof.
  intros s.
  assert (Hc : state (exampleConfig SINGLEPLAYER) <> PLAYING)
    by discriminate.
  assert (Hr : @reachable exampleWorld (exampleConfig SINGLEPLAYER) true 40 s)
    by (apply reachable_run, reachable_setup).
  assert (Hs : state (config s) = PLAYING) by reflexivity.
  split; [exact Hc|]. split; [exact Hr|]. split; [exact Hs|].
  destruct (@ball_exists_when_used exampleWorld _ _ _ s Hc Hr)
    as [_ [W _]].
  exact (W Hs).
Defined.

(** ** Messages and events of one input *)

(** Symbolic execution that keeps the messages: [sendMiss_ball] is
    unfolded. *)
Ltac shapesS :=
  repeat match goal with
  | |- context [restartPingpongTimeout ?a] =>
      let t := fresh "t" in
      let r := fresh "r" in
      destruct (restartPingpongTimeout_shape a) as (t & r & ->)
  | |- context [addBall ?a] =>
      let c := fresh "c" in
      let b := fresh "b" in
      let p := fresh "p" in
      let t := fresh "t" in
      let r := fresh "r" in
      destruct (addBall_shape a) as (c & b & p & t & r & ->)
  | |- context [slowdownBall ?a] =>
      let t := fresh "t" in
      destruct (slowdownBall_shape a) as (t & ->)
  | |- context [ballHitAnimation ?a] =>
      let l := fresh "l" in
      let t := fresh "t" in
      let v := fresh "v" in
      destruct (ballHitAnimation_shape a) as (l & t & v & ->)
  | |- context [onReceivedHit ?d ?m ?a] =>
      let c := fresh "c" in
      let b := fresh "b" in
      let p := fresh "p" in
      let t := fresh "t" in
      let r := fresh "r" in
      let d' := fresh "d" in
      let al := fresh "a" in
      let w := fresh "w" in
      let ts := fresh "ts" in
      destruct (onReceivedHit_shape d m a)
        as (c & b & p & t & r & d' & al & w & ts & ->)
  end.

Ltac execS := repeat (cbn; shapesS; unfold sendMiss_ball; try break_match).

Section Protocol.
Context `{Collaborators}.

Ltac unfold_handlers :=
  unfold setMultiplayer, setSingleplayer, startGame,
    onRestartButtonPressed, onReceivedRestartGame, restartGame,
    onReceivedRequestCountdown, requestCountdown, onReceivedMiss,
    onBallPaddleCollision, onBallTableCollision,
    timeoutElapsed, resetTimeoutEnded, intervalElapsed,
    countdown_callback, tweenTick, hitTweenUpdate, hitTweenComplete,
    onMouseMove, onPointerLockChange, updateControls, updateBall.

(** X24: what one input sends.  Every input appends at most one message to
    those sent: [startGame] a RequestCountdown and the restart button a
    RestartGame, both in multiplayer mode only; a paddle hit at most one Hit;
    the reset timeout at most one Miss that is not an init; a tick of the
    countdown at most one Miss that is an init with the fault flag set.  No
    other input sends anything: in particular the scene never answers a
    received message with a message. *)
Theorem messages_per_input (i : Input) (s : Scene) :
  exists l,
    sent (communication (step i s)) = sent (communication s) ++ l
    /\ match i with
       | StartGame =>
           l = match mode (config s) with
               | MULTIPLAYER => [MsgRequestCountdown]
               | SINGLEPLAYER => []
               end
       | RestartButtonPressed =>
           l = match mode (config s) with
               | MULTIPLAYER => [MsgRestartGame]
               | SINGLEPLAYER => []
               end
       | BallPaddleCollision =>
           l = [] \/ exists p v, l = [MsgHit p v]
       | TimeoutElapsed _ =>
           l = [] \/ exists p v f, l = [MsgMiss p v f false]
       | IntervalElapsed _ =>
           l = [] \/ exists p v, l = [MsgMiss p v true true]
       | _ => l = []
       end.
Proof.
  destruct i; cbn [step]; unfold_handlers; execS.
  all: try (exists []; split; [symmetry; apply app_nil_r|];
            first [reflexivity | left; reflexivity | congruence]).
  all: try (eexists [_]; split; [reflexivity|];
            first [reflexivity | congruence
                  | right; do 3 eexists; reflexivity
                  | right; do 2 eexists; reflexivity]).
Qed.

End Protocol.

(** Symbolic execution that keeps track of the state: [addBall] sets it to
    PLAYING, [onReceivedHit] does so or leaves configuration and ball
    alone. *)
Section StateShapes.
Context `{Collaborators}.

Lemma addBall_shape_state (s : Scene) :
  exists c b p t r,
    addBall s
    = set_resetBallTimeout r
        (set_time t (set_physics p (set_ball b (set_config c s))))
    /\ state c = PLAYING.
Proof.
  destruct (addBall_shape s) as (c & b & p & t & r & E).
  exists c, b, p, t, r. split; [exact E|].
  pose proof (f_equal config E) as E1.
  change (config (addBall s) = c) in E1.
  rewrite config_addBall in E1. rewrite <- E1. reflexivity.
Qed.

Lemma onReceivedHit_shape_state data wasMiss (s : Scene) :
  exists c b p t r d a w ts,
    onReceivedHit data wasMiss s
    = set_physicsTimeStep ts
        (set_alphaTween w
           (set_ballInterpolationAlpha a
              (set_ballPositionDifference d
                 (set_resetBallTimeout r
                    (set_time t
                       (set_physics p (set_ball b (set_config c s))))))))
    /\ (state c = PLAYING \/ c = config s /\ b = ball s).
Proof.
  destruct (onReceivedHit_shape data wasMiss s)
    as (c & b & p & t & r & d & a & w & ts & E).
  exists c, b, p, t, r, d, a, w, ts. split; [exact E|].
  pose proof (f_equal config E) as E1.
  pose proof (f_equal ball E) as E2.
  change (config (onReceivedHit data wasMiss s) = c) in E1.
  change (ball (onReceivedHit data wasMiss s) = b) in E2.
  rewrite config_onReceivedHit in E1.
  destruct (ball s) as [m|] eqn:Em.
  - right. split; [symmetry; exact E1|].
    rewrite <- E2. unfold onReceivedHit. cbv zeta.
    assert (E0 : ball (set_time (clearTimeout (resetBallTimeout s) (time s)) s)
                 = Some m) by exact Em.
    rewrite E0. destruct wasMiss; cbn;
      repeat match goal with
             | |- context [match ?e with _ => _ end] => destruct e
             end; cbn; congruence.
  - left. rewrite <- E1. reflexivity.
Qed.

End StateShapes.

Ltac shapesV :=
  repeat match goal with
  | |- context [restartPingpongTimeout ?a] =>
      let t := fresh "t" in
      let r := fresh "r" in
      destruct (restartPingpongTimeout_shape a) as (t & r & ->)
  | |- context [addBall ?a] =>
      let c := fresh "c" in
      let b := fresh "b" in
      let p := fresh "p" in
      let t := fresh "t" in
      let r := fresh "r" in
      let Hc := fresh "Hc" in
      destruct (addBall_shape_state a) as (c & b & p & t & r & -> & Hc)
  | |- context [slowdownBall ?a] =>
      let t := fresh "t" in
      destruct (slowdownBall_shape a) as (t & ->)
  | |- context [ballHitAnimation ?a] =>
      let l := fresh "l" in
      let t := fresh "t" in
      let v := fresh "v" in
      destruct (ballHitAnimation_shape a) as (l & t & v & ->)
  | |- context [sendMiss_ball ?f ?i ?a] =>
      let c := fresh "c" in
      destruct (sendMiss_ball_shape f i a) as (c & ->)
  | |- context [onReceivedHit ?d ?m ?a] =>
      let c := fresh "c" in
      let b := fresh "b" in
      let p := fresh "p" in
      let t := fresh "t" in
      let r := fresh "r" in
      let d' := fresh "d" in
      let al := fresh "a" in
      let w := fresh "w" in
      let ts := fresh "ts" in
      let Hc := fresh "Hc" in
      destruct (onReceivedHit_shape_state d m a)
        as (c & b & p & t & r & d' & al & w & ts & -> & Hc)
  end.

Ltac execV := repeat (cbn; shapesV; try break_match).

Section Events.
Context `{Collaborators}.

Ltac unfold_handlers :=
  unfold setMultiplayer, setSingleplayer, startGame,
    onRestartButtonPressed, onReceivedRestartGame, restartGame,
    onReceivedRequestCountdown, requestCountdown, onReceivedMiss,
    onBallPaddleCollision, onBallTableCollision,
    timeoutElapsed, resetTimeoutEnded, intervalElapsed,
    countdown_callback, tweenTick, hitTweenUpdate, hitTweenComplete,
    onMouseMove, onPointerLockChange, updateControls, updateBall.

(** The events of one input, the state GAME_OVER and the visibility of the
    ball. *)
Lemma events_step (i : Input) (s : Scene) :
  exists l,
    emitted (step i s) = emitted s ++ l
    /\ match i with
       | RestartButtonPressed | ReceivedRestartGame =>
           l = [] \/ l = [EV_RESTART_GAME]
       | TimeoutElapsed _ | ReceivedMiss _ => l = [] \/ l = [EV_GAME_OVER]
       | _ => l = []
       end
    /\ (l = [EV_GAME_OVER] ->
        state (config (step i s)) = GAME_OVER /\ ballHidden (step i s))
    /\ (state (config (step i s)) = GAME_OVER ->
        l = [EV_GAME_OVER]
        \/ state (config s) = GAME_OVER /\ l = []
           /\ (ballHidden s -> ballHidden (step i s))).
Proof.
  unfold ballHidden.
  destruct i; cbn [step]; unfold_handlers;
    unfold emit_GAME_OVER, emit_RESTART_GAME, onGameOver; execV.
  all: try (exists []; split; [symmetry; apply app_nil_r|];
            split; [first [reflexivity | left; reflexivity]|];
            split; [intros E; discriminate E|]).
  all: try (eexists [_]; split; [reflexivity|];
            split; [first [right; reflexivity]|];
            split; [intros E; try discriminate E; clear E
                   |intros E; first [discriminate E | left; reflexivity]]).
  all: try (intros E; discriminate E).
  all: try (intros E; right; split; [exact E|]; split; [reflexivity|];
            exact (fun x => x)).
  all: try (intros E; right; split; [exact E|]; split; [reflexivity|];
            intros Hh m' Em'; apply Hh; congruence).
  all: try (split; [reflexivity|]; intros m' E; revert E;
            match goal with
            | |- option_map _ ?x = _ -> _ => destruct x
            end; cbn; intros E;
            [injection E as <-; reflexivity | discriminate E]).
  all: try (intros E; exfalso; congruence).
  all: try (intros E; right; split; [reflexivity|]; split; [reflexivity|];
            exact (fun x => x)).
  all: try (intros E; destruct Hc as [Hc | [-> ->]];
            [exfalso; congruence
            |right; split; [exact E|]; split; [reflexivity|];
             exact (fun x => x)]).
Qed.

(** X25: what one input emits.  Every input emits at most one event:
    RESTART_GAME only on the restart button and on a received RestartGame,
    GAME_OVER only when the reset timeout fires and on a received Miss; no
    other input emits anything.  When GAME_OVER is emitted (and the ball
    exists, for [onGameOver] to hide it) the state is GAME_OVER afterwards,
    and the state becomes GAME_OVER in no other way. *)
Theorem events_per_input (i : Input) (s : Scene) :
  exists l,
    emitted (step i s) = emitted s ++ l
    /\ match i with
       | RestartButtonPressed | ReceivedRestartGame =>
           l = [] \/ l = [EV_RESTART_GAME]
       | TimeoutElapsed _ | ReceivedMiss _ => l = [] \/ l = [EV_GAME_OVER]
       | _ => l = []
       end
    /\ (l = [EV_GAME_OVER] -> ball s <> None ->
        state (config (step i s)) = GAME_OVER)
    /\ (state (config (step i s)) = GAME_OVER ->
        state (config s) <> GAME_OVER -> l = [EV_GAME_OVER]).
Proof.
  destruct (events_step i s) as (l & E1 & E2 & E3 & E4).
  exists l. split; [exact E1|]. split; [exact E2|]. split.
  - intros El _. exact (proj1 (E3 El)).
  - intros Hs Hn. destruct (E4 Hs) as [El | [Hs' _]];
      [exact El | contradiction].
Qed.

(** X26: while the game is over the ball is hidden.  In every scene that a
    run reaches from a configuration whose state is not GAME_OVER, the ball,
    when there is one, is invisible whenever the state is GAME_OVER:
    [onGameOver] hides it, and [addBall], the only place that shows it
    again, sets the state to PLAYING. *)
Theorem game_over_hides_ball cfg host lat (s : Scene) :
  state cfg <> GAME_OVER ->
  reachable cfg host lat s ->
  state (config s) = GAME_OVER ->
  forall m, ball s = Some m -> visible m = false.
Proof.
  intros Hcfg Hr. change (state (config s) = GAME_OVER -> ballHidden s).
  induction Hr as [|i s _ IH].
  - intros Hs. exfalso. apply Hcfg. exact Hs.
  - intros Hs.
    destruct (events_step i s) as (l & _ & _ & E3 & E4).
    destruct (E4 Hs) as [El | (Hs' & _ & Hk)].
    + exact (proj2 (E3 El)).
    + apply Hk, IH, Hs'.
Qed.

End Events.

Lemma game_over_hides_ball_witness :
  let s := @run exampleWorld gameLost (exampleScene SINGLEPLAYER) in
  state (exampleConfig SINGLEPLAYER) <> GAME_OVER
  /\ @reachable exampleWorld (exampleConfig SINGLEPLAYER) true 40 s
  /\ state (config s) = GAME_OVER
  /\ exists m, ball s = Some m /\ visible m = false.
Proof.
  intros s.
  assert (Hc : state (exampleConfig SINGLEPLAYER) <> GAME_OVER)
    by discriminate.
  assert (Hr : @reachable exampleWorld (exampleConfig SINGLEPLAYER) true 40 s)
    by (apply reachable_run, reachable_setup).
  assert (Hs : state (config s) = GAME_OVER) by reflexivity.
  split; [exact Hc|]. split; [exact Hr|]. split; [exact Hs|].
  eexists. split; [reflexivity|].
  exact (@game_over_hides_ball exampleWorld _ _ _ s Hc Hr Hs _ eq_refl).
Defined.

(** ** The first serve *)

Section Serve.
Context `{Collaborators}.

Lemma onReceivedHit_after_miss (data : Data) (s : Scene) (m : Mesh)
    (b : Body) :
  ball s = Some m ->
  physics_ball (physics s) = Some b ->
  onReceivedHit data true s
  = set_physics
      (with_physics_ball
         (Some (with_velocity (mirrorVelocity (data_velocity data))
                  (with_position
                     (mirrorPosition (point data)
                        (tablePositionZ (config s))) b)))
         (physics s))
      (set_physicsTimeStep 1000
         (set_time (clearTimeout (resetBallTimeout s) (time s)) s)).
Proof.
  intros Em Ep. unfold onReceivedHit. cbv zeta.
  assert (E0 : ball (set_time (clearTimeout (resetBallTimeout s) (time s)) s)
               = Some m) by exact Em.
  rewrite E0. cbn. rewrite Ep. reflexivity.
Qed.

(** X27: the host receives the first serve.  A Miss message with [isInit]
    set, handled while neither player has won, scores nothing and emits
    nothing: the ball is added, the state becomes PLAYING, and the physics
    ball is put at the mirror image of the received position with the
    mirrored velocity and no spin.  The receiving peer keeps no reset timer
    (the peer that served holds it), the physics speed is 1 and the time
    step 1000, and no position difference is left to interpolate. *)
Theorem init_serve_received (data : Data) (s : Scene) :
  isInit data = true ->
  ballConsistent s = true ->
  oneResetTimer s ->
  (self (score s) < POINTS_FOR_WIN (config s))%Z ->
  (opponent (score s) < POINTS_FOR_WIN (config s))%Z ->
  let s' := onReceivedMiss data s in
  score s' = score s
  /\ emitted s' = emitted s
  /\ communication s' = communication s
  /\ state (config s') = PLAYING
  /\ ball s' <> None
  /\ (exists b,
        physics_ball (physics s') = Some b
        /\ position b
           = mirrorPosition (point data) (tablePositionZ (config s))
        /\ velocity b = mirrorVelocity (data_velocity data)
        /\ angularVelocity b = Vector3_zero)
  /\ timeouts (time s') = []
  /\ speed (physics s') = 1
  /\ physicsTimeStep s' = 1000
  /\ ballPositionDifference s' = None.
Proof.
  intros Hi Hc Ho Hs1 Hs2 s'.
  set (s1 := set_time (clearTimeout (resetBallTimeout s) (time s))
               (set_ballPositionDifference None
                  (set_physics (with_speed 1 (physics s)) s))).
  assert (Hc1 : ballConsistent s1 = true) by exact Hc.
  assert (Ho1 : oneResetTimer s1)
    by (left; exact (clearTimeout_empties s Ho)).
  destruct (addBall_creates s1 Hc1) as [[m Em] [b Eb]].
  destruct (addBall_arms s1 Ho1) as [Et Er].
  pose proof (score_addBall s1) as Esc.
  pose proof (emitted_addBall s1) as Eem.
  pose proof (communication_addBall s1) as Eco.
  pose proof (config_addBall s1) as Ecf.
  destruct (addBall_shape_speed s1) as (c & b0 & p & t & r & E & Esp).
  set (s2 := addBall s1) in *.
  set (s3 := set_physics
               (with_physics_ball
                  (option_map (with_angularVelocity Vector3_zero)
                     (physics_ball (physics s2)))
                  (physics s2)) s2).
  assert (Es' : s' = if (POINTS_FOR_WIN (config s2) <=? self (score s2))%Z
                        || (POINTS_FOR_WIN (config s2)
                            <=? opponent (score s2))%Z
                     then emit_GAME_OVER s2
                     else set_config
                            (with_state PLAYING
                               (config (onReceivedHit data true s3)))
                            (onReceivedHit data true s3)).
  { subst s' s3 s2 s1. unfold onReceivedMiss. rewrite Hi. reflexivity. }
  assert (Ew : (POINTS_FOR_WIN (config s2) <=? self (score s2))%Z
               || (POINTS_FOR_WIN (config s2) <=? opponent (score s2))%Z
               = false).
  { rewrite Esc, Ecf. cbn.
    destruct (Z.leb_spec (POINTS_FOR_WIN (config s)) (self (score s)));
      [lia|].
    destruct (Z.leb_spec (POINTS_FOR_WIN (config s)) (opponent (score s)));
      [lia|]. reflexivity. }
  rewrite Ew in Es'.
  assert (Em3 : ball s3 = Some m) by exact Em.
  assert (Eb3 : physics_ball (physics s3)
                = Some (with_angularVelocity Vector3_zero b))
    by (subst s3; cbn; rewrite Eb; reflexivity).
  rewrite (onReceivedHit_after_miss data s3 m _ Em3 Eb3) in Es'.
  assert (Ho3 : oneResetTimer s3)
    by (right; exists (nextHandle (time s1)); split; assumption).
  pose proof (clearTimeout_empties s3 Ho3) as Ec3.
  assert (Esp3 : speed (physics s3) = 1).
  { change (speed (physics s2) = 1). rewrite E. exact Esp. }
  assert (Ecf3 : config s3 = with_state PLAYING (config s)) by exact Ecf.
  assert (Esc3 : score s3 = score s) by exact Esc.
  assert (Eem3 : emitted s3 = emitted s) by exact Eem.
  assert (Eco3 : communication s3 = communication s) by exact Eco.
  assert (Ebp3 : ballPositionDifference s3 = None).
  { change (ballPositionDifference s2 = None). rewrite E. reflexivity. }
  clear E. clearbody s3. clearbody s'. subst s'.
  cbn.
  split; [exact Esc3|]. split; [exact Eem3|]. split; [exact Eco3|].
  split; [reflexivity|]. split; [rewrite Em3; discriminate|].
  split.
  { eexists. split; [reflexivity|]. cbn. rewrite Ecf3.
    repeat split; reflexivity. }
  split; [exact Ec3|]. split; [exact Esp3|]. split; [reflexivity|].
  exact Ebp3.
Qed.

End Serve.

Lemma init_serve_received_witness :
  let s := @run exampleWorld hostAfterCountdown (exampleScene SINGLEPLAYER) in
  let s' := @onReceivedMiss exampleWorld exampleServe s in
  isInit exampleServe = true
  /\ ballConsistent s = true
  /\ oneResetTimer s
  /\ (self (score s) < POINTS_FOR_WIN (config s))%Z
  /\ (opponent (score s) < POINTS_FOR_WIN (config s))%Z
  /\ state (config s) = COUNTDOWN
  /\ ball s = None
  /\ state (config s') = PLAYING
  /\ ball s' <> None
  /\ timeouts (time s') = [].
Proof.
  intros s s'.
  assert (Ho : oneResetTimer s) by (left; reflexivity).
  split; [reflexivity|]. split; [reflexivity|]. split; [exact Ho|].
  split; [reflexivity|]. split; [reflexivity|].
  split; [reflexivity|]. split; [reflexivity|].
  destruct (@init_serve_received exampleWorld exampleServe s
              eq_refl eq_refl Ho eq_refl eq_refl)
    as [_ [_ [_ [W1 [W2 [_ [W3 _]]]]]]].
  split; [exact W1|]. split; [exact W2 | exact W3].
Defined.

(** ** The frame loop *)

Arguments animate : simpl never.

Section Frames.
Context `{Collaborators}.
Variable physics_step : Q -> Body -> Body.

Lemma scene_runDue (d : Due) (g : Stage) :
  scene (runDue d g) = step (dueInput d) (scene g).
Proof.
  destruct d as [h|h]; cbn; [|reflexivity].
  unfold timeoutElapsed.
  destruct (pendingTimeout h (time (scene g))); reflexivity.
Qed.

Lemma scene_Time_step (due : list Due) (g : Stage) :
  scene (Time_step due g) = run (map dueInput due) (scene g).
Proof.
  revert g. induction due as [|d due IH]; intros g; [reflexivity|].
  unfold Time_step, run in *. cbn [fold_left map]. rewrite IH.
  rewrite scene_runDue. reflexivity.
Qed.

(** The scene after a frame, in terms of the transition system. *)
Lemma animate_scene (ev : FrameEvents) (g : Stage) :
  let s1 := step BallPaddleCollision (scene g) in
  let s2 :=
    match state (config s1) with
    | MENU => s1
    | _ => updateControls (frame_intersects ev) s1
    end in
  let dt :=
    inject_Z (Z.min (timestamp ev - lastRender g) 500) / physicsTimeStep s2 in
  let s3 :=
    match state (config s2) with
    | PLAYING =>
        updateBall
          (fold_left (fun s c => onBallTableCollision (fst c) (snd c) s)
             (tableCollisions ev)
             match physics_ball (physics s2) with
             | Some b =>
                 set_physics
                   (with_physics_ball (Some (physics_step dt b))
                      (physics s2)) s2
             | None => s2
             end)
    | _ => s2
    end in
  scene (animate physics_step ev g)
  = set_mouseMoveSinceLastFrame (0, 0) (run (map dueInput (due ev)) s3).
Proof.
  cbv zeta. unfold animate, Stage_updateControls. cbv zeta.
  cbn [scene put_scene put_frameNumber put_lastRender].
  rewrite scene_Time_step.
  cbn [step].
  repeat (cbn [scene put_scene put_ballPath put_sentMoves
                 put_paddle_rotation put_frameNumber put_lastRender];
          try match goal with
              | |- context [match ?e with _ => _ end] =>
                  lazymatch e with
                  | context [match _ with _ => _ end] => fail
                  | physics_ball _ => fail
                  | _ => destruct e eqn:?
                  end
              end);
    try reflexivity.
Qed.

Lemma updateBall_onBallTableCollision (p : Vector3) (t : bool) (s : Scene) :
  updateBall (onBallTableCollision p t s)
  = onBallTableCollision p t (updateBall s).
Proof.
  unfold onBallTableCollision.
  assert (E : config (updateBall s) = config s)
    by (unfold updateBall; repeat break_match; reflexivity).
  rewrite E.
  destruct (t && Qlt_bool (z p) (tablePositionZ (config s))); [|reflexivity].
  unfold updateBall.
  change (ball (set_ballHasHitEnemyTable true s)) with (ball s).
  change (physics (set_ballHasHitEnemyTable true s)) with (physics s).
  change (ballPositionDifference (set_ballHasHitEnemyTable true s))
    with (ballPositionDifference s).
  change (ballInterpolationAlpha (set_ballHasHitEnemyTable true s))
    with (ballInterpolationAlpha s).
  destruct (ball s); [|reflexivity].
  destruct (physics_ball (physics s)); [|reflexivity].
  destruct (ballPositionDifference s); reflexivity.
Qed.

Lemma updateBall_collisions (cols : list (Vector3 * bool)) (s : Scene) :
  updateBall
    (fold_left (fun s c => onBallTableCollision (fst c) (snd c) s) cols s)
  = run (map (fun c => BallTableCollision (fst c) (snd c)) cols)
      (updateBall s).
Proof.
  revert s. induction cols as [|c cols IH]; intros s; [reflexivity|].
  cbn [fold_left map]. rewrite IH. unfold run. cbn [fold_left step].
  rewrite updateBall_onBallTableCollision. reflexivity.
Qed.

Lemma run_inv (P : Scene -> Prop) :
  (forall i s, isFrameInput i = true -> P s -> P (step i s)) ->
  forall inputs s,
    forallb isFrameInput inputs = true -> P s -> P (run inputs s).
Proof.
  intros Hstep inputs. induction inputs as [|i inputs IH]; intros s Hi Hs.
  - exact Hs.
  - cbn in Hi. apply andb_prop in Hi. destruct Hi as [Hi1 Hi2].
    apply (IH (step i s) Hi2). apply Hstep; assumption.
Qed.

Lemma dueInputs_frame (due : list Due) :
  forallb isFrameInput (map dueInput due) = true.
Proof.
  induction due as [|[h|h] due IH]; [reflexivity | exact IH | exact IH].
Qed.

Lemma collisionInputs_frame (cols : list (Vector3 * bool)) :
  forallb isFrameInput
    (map (fun c => BallTableCollision (fst c) (snd c)) cols) = true.
Proof. induction cols as [|c cols IH]; [reflexivity | exact IH]. Qed.

(** A property that the inputs of a frame and the reset of the mouse deltas
    keep holds after the frame when it holds once the controls have been
    read. *)
Lemma animate_scene_after_controls (P : Scene -> Prop) :
  (forall i s, isFrameInput i = true -> P s -> P (step i s)) ->
  (forall v s, P s -> P (set_mouseMoveSinceLastFrame v s)) ->
  forall ev g,
    let s1 := step BallPaddleCollision (scene g) in
    P match state (config s1) with
      | MENU => s1
      | _ => updateControls (frame_intersects ev) s1
      end ->
    P (scene (animate physics_step ev g)).
Proof.
  intros Hstep Hmouse ev g s1 H2.
  rewrite animate_scene. cbv zeta. fold s1.
  apply Hmouse, (run_inv P Hstep); [apply dueInputs_frame|].
  clearbody s1.
  set (s2 := match state (config s1) with
             | MENU => s1
             | _ => updateControls (frame_intersects ev) s1
             end) in *.
  clearbody s2.
  destruct (state (config s2)) eqn:Es; try exact H2.
  rewrite updateBall_collisions.
  apply (run_inv P Hstep); [apply collisionInputs_frame|].
  destruct (physics_ball (physics s2)) as [b|] eqn:Ep.
  - match goal with
    | |- P (updateBall (set_physics (with_physics_ball (Some ?b') _) _)) =>
        assert (E : step (PhysicsStep b') s2
                    = updateBall
                        (set_physics
                           (with_physics_ball (Some b') (physics s2)) s2))
          by (cbn [step]; rewrite Es, Ep; reflexivity)
    end.
    rewrite <- E. apply Hstep; [reflexivity | exact H2].
  - assert (E : updateBall s2 = s2)
      by (unfold updateBall; rewrite Ep; destruct (ball s2); reflexivity).
    rewrite E. exact H2.
Qed.

(** A property of scenes that the inputs of a frame, [updateControls] and
    the reset of the mouse deltas keep is kept by a frame. *)
Lemma animate_scene_inv (P : Scene -> Prop) :
  (forall i s, isFrameInput i = true -> P s -> P (step i s)) ->
  (forall ints s, P s -> P (updateControls ints s)) ->
  (forall v s, P s -> P (set_mouseMoveSinceLastFrame v s)) ->
  forall ev g, P (scene g) -> P (scene (animate physics_step ev g)).
Proof.
  intros Hstep Hctl Hmouse ev g Hg.
  apply (animate_scene_after_controls P Hstep Hmouse). cbv zeta.
  assert (H1 : P (step BallPaddleCollision (scene g)))
    by (apply Hstep; [reflexivity | exact Hg]).
  destruct (state (config _)); first [exact H1 | apply Hctl; exact H1].
Qed.

Lemma frames_scene_inv (P : Scene -> Prop) :
  (forall i s, isFrameInput i = true -> P s -> P (step i s)) ->
  (forall ints s, P s -> P (updateControls ints s)) ->
  (forall v s, P s -> P (set_mouseMoveSinceLastFrame v s)) ->
  forall evs g, P (scene g) -> P (scene (frames physics_step evs g)).
Proof.
  intros Hstep Hctl Hmouse evs.
  induction evs as [|ev evs IH]; intros g Hg; [exact Hg|].
  apply (IH (animate physics_step ev g)).
  apply animate_scene_inv; assumption.
Qed.

(** Frames keep the ball where it is used. *)
Lemma ballReady_frames (evs : list FrameEvents) (g : Stage) :
  ballReady (scene g) -> ballReady (scene (frames physics_step evs g)).
Proof.
  apply (frames_scene_inv ballReady).
  - intros i s _. apply ballReady_step.
  - intros ints s Hs. unfold updateControls. cbv zeta.
    repeat match goal with
           | |- context [match ?e with _ => _ end] => destruct e
           end; exact Hs.
  - intros v s Hs. exact Hs.
Qed.

Lemma config_onBallPaddleCollision (p : Vector3) (s : Scene) :
  config (onBallPaddleCollision p s) = config s.
Proof. unfold onBallPaddleCollision. exec; reflexivity. Qed.

Lemma config_updateControls (ints : list Vector3) (s : Scene) :
  config (updateControls ints s) = config s.
Proof. unfold updateControls. exec; reflexivity. Qed.


Lemma ballPath_Time_step (due : list Due) (g : Stage) :
  ballPath (Time_step due g) = None
  \/ ballPath (Time_step due g) = ballPath g.
Proof.
  revert g. induction due as [|d due IH]; intros g; [right; reflexivity|].
  unfold Time_step in *. cbn [fold_left].
  destruct (IH (runDue d g)) as [E | E]; [left; exact E|].
  rewrite E. destruct d as [h|h]; cbn; [|right; reflexivity].
  destruct (pendingTimeout h (time (scene g))); [left | right]; reflexivity.
Qed.

Lemma stage_Time_step (due : list Due) (g : Stage) :
  frameNumber (Time_step due g) = frameNumber g
  /\ lastRender (Time_step due g) = lastRender g
  /\ viewport (Time_step due g) = viewport g
  /\ paddleLoaded (Time_step due g) = paddleLoaded g
  /\ paddle_rotation (Time_step due g) = paddle_rotation g
  /\ sentMoves (Time_step due g) = sentMoves g.
Proof.
  revert g. induction due as [|d due IH]; intros g;
    [repeat split; reflexivity|].
  unfold Time_step in *. cbn [fold_left].
  destruct (IH (runDue d g)) as (E1 & E2 & E3 & E4 & E5 & E6).
  rewrite E1, E2, E3, E4, E5, E6.
  destruct d as [h|h]; cbn; [|repeat split; reflexivity].
  destruct (pendingTimeout h (time (scene g))); repeat split; reflexivity.
Qed.

(** The fields of the stage after a frame. *)
Lemma animate_stage (ev : FrameEvents) (g : Stage) :
  let g' := animate physics_step ev g in
  let s1 := step BallPaddleCollision (scene g) in
  let moveDue :=
    negb (STATE_eqb (state (config (scene g))) MENU)
    && match mode (config (scene g)) with
       | MULTIPLAYER => true
       | SINGLEPLAYER => false
       end
    && (Z.rem (frameNumber g) 5 =? 0)%Z in
  frameNumber g' = (frameNumber g + 1)%Z
  /\ lastRender g' = timestamp ev
  /\ viewport g' = viewport g
  /\ paddleLoaded g' = paddleLoaded g
  /\ (ballPath g' = None
      \/ ballPath g'
         = match ball s1 with
           | Some m => Some (pushBallPath (mesh_position m) (ballPath g))
           | None => ballPath g
           end)
  /\ paddle_rotation g'
     = match state (config (scene g)) with
       | MENU => paddle_rotation g
       | _ =>
           let s2 := updateControls (frame_intersects ev) s1 in
           let r := computePaddleRotation (paddle_position s2) s2 in
           {| x := x r; y := y (paddle_rotation g); z := z r |}
       end
  /\ sentMoves g'
     = sentMoves g
       ++ (if moveDue
           then [(paddle_position
                    (updateControls (frame_intersects ev) s1),
                  paddle_rotation g')]
           else []).
Proof.
  cbv zeta. unfold animate. cbv zeta.
  set (g1 := match ball (scene g) with Some _ => _ | None => g end).
  assert (F1 : scene g1 = step BallPaddleCollision (scene g)
               /\ frameNumber g1 = frameNumber g
               /\ lastRender g1 = lastRender g
               /\ viewport g1 = viewport g
               /\ paddleLoaded g1 = paddleLoaded g
               /\ paddle_rotation g1 = paddle_rotation g
               /\ sentMoves g1 = sentMoves g
               /\ ballPath g1
                  = match ball (step BallPaddleCollision (scene g)) with
                    | Some m =>
                        Some (pushBallPath (mesh_position m) (ballPath g))
                    | None => ballPath g
                    end).
  { subst g1. cbn [step].
    destruct (ball (scene g)) as [m|] eqn:Em.
    - destruct (ballReachesPaddle (scene g)).
      + cbn [scene put_scene].
        destruct (ball (onBallPaddleCollision (mesh_position m) (scene g)));
          repeat split; reflexivity.
      + rewrite Em. repeat split; reflexivity.
    - rewrite Em. repeat split; reflexivity. }
  destruct F1 as (S1 & N1 & L1 & V1 & P1 & R1 & M1 & B1). clearbody g1.
  assert (C1 : config (scene g1) = config (scene g)).
  { rewrite S1. cbn [step]. destruct (ball (scene g)); [|reflexivity].
    destruct (ballReachesPaddle (scene g)); [|reflexivity].
    apply config_onBallPaddleCollision. }
  rewrite C1.
  set (gU := Stage_updateControls (frame_intersects ev) g1).
  assert (FU : scene gU = updateControls (frame_intersects ev) (scene g1)
               /\ frameNumber gU = frameNumber g
               /\ lastRender gU = lastRender g
               /\ viewport gU = viewport g
               /\ paddleLoaded gU = paddleLoaded g
               /\ paddle_rotation gU
                  = (let s2 :=
                       updateControls (frame_intersects ev) (scene g1) in
                     let r := computePaddleRotation (paddle_position s2) s2 in
                     {| x := x r; y := y (paddle_rotation g); z := z r |})
               /\ sentMoves gU = sentMoves g
               /\ ballPath gU = ballPath g1).
  { subst gU. unfold Stage_updateControls. cbn.
    rewrite N1, L1, V1, P1, R1, M1. repeat split; reflexivity. }
  destruct FU as (SU & NU & LU & VU & PU & RU & MU & BU). clearbody gU.
  assert (CU : config (scene gU) = config (scene g)).
  { rewrite SU, config_updateControls. exact C1. }
  set (g2 := match state (config (scene g)) with
             | MENU => g1
             | _ => _
             end).
  assert (F2 : frameNumber g2 = frameNumber g
               /\ lastRender g2 = lastRender g
               /\ viewport g2 = viewport g
               /\ paddleLoaded g2 = paddleLoaded g
               /\ ballPath g2 = ballPath g1
               /\ paddle_rotation g2
                  = match state (config (scene g)) with
                    | MENU => paddle_rotation g
                    | _ => paddle_rotation gU
                    end
               /\ sentMoves g2
                  = sentMoves g
                    ++ (if negb (STATE_eqb (state (config (scene g))) MENU)
                           && match mode (config (scene g)) with
                              | MULTIPLAYER => true
                              | SINGLEPLAYER => false
                              end
                           && (Z.rem (frameNumber g) 5 =? 0)%Z
                        then [(paddle_position (scene gU),
                               paddle_rotation gU)]
                        else [])).
  { subst g2. rewrite CU, NU.
    destruct (state (config (scene g))); cbn [STATE_eqb negb andb];
      try (rewrite N1, L1, V1, P1, R1, M1, app_nil_r;
           repeat split; reflexivity);
      destruct (mode (config (scene g))); cbn [andb];
      try destruct (Z.rem (frameNumber g) 5 =? 0)%Z; cbn;
      rewrite ?NU, ?LU, ?VU, ?PU, ?MU, ?BU, ?app_nil_r;
      repeat split; reflexivity. }
  destruct F2 as (N2 & L2 & V2 & P2 & B2 & R2 & M2). clearbody g2.
  set (g3 := match state (config (scene g2)) with
             | PLAYING => _
             | _ => g2
             end).
  assert (F3 : frameNumber g3 = frameNumber g2
               /\ lastRender g3 = lastRender g2
               /\ viewport g3 = viewport g2
               /\ paddleLoaded g3 = paddleLoaded g2
               /\ ballPath g3 = ballPath g2
               /\ paddle_rotation g3 = paddle_rotation g2
               /\ sentMoves g3 = sentMoves g2)
    by (subst g3; destruct (state (config (scene g2)));
        repeat split; reflexivity).
  destruct F3 as (N3 & L3 & V3 & P3 & B3 & R3 & M3). clearbody g3.
  destruct (stage_Time_step (due ev) g3) as (N4 & L4 & V4 & P4 & R4 & M4).
  pose proof (ballPath_Time_step (due ev) g3) as B4.
  set (g4 := Time_step (due ev) g3) in *. clearbody g4.
  cbn.
  rewrite N4, N3, N2, V4, V3, V2, P4, P3, P2, R4, R3, R2, M4, M3, M2.
  rewrite RU, SU, S1.
  split; [reflexivity|]. split; [reflexivity|]. split; [reflexivity|].
  split; [reflexivity|].
  split.
  { destruct B4 as [E | E]; [left; exact E | right].
    rewrite E, B3, B2, B1. reflexivity. }
  split.
  { destruct (state (config (scene g))); reflexivity. }
  destruct (state (config (scene g))); cbn [STATE_eqb negb andb];
    try reflexivity.
Qed.



Lemma mode_animate (ev : FrameEvents) (g : Stage) (m : MODE) :
  mode (config (scene g)) = m ->
  mode (config (scene (animate physics_step ev g))) = m.
Proof.
  apply (animate_scene_inv (fun s => mode (config s) = m)).
  - intros i s Hi Hs. rewrite mode_step.
    destruct i; first [exact Hs | discriminate Hi].
  - intros ints s Hs. rewrite config_updateControls. exact Hs.
  - intros v s Hs. exact Hs.
Qed.

Lemma state_animate (ev : FrameEvents) (g : Stage) :
  state (config (scene g)) <> MENU ->
  state (config (scene (animate physics_step ev g))) <> MENU.
Proof.
  apply (animate_scene_inv (fun s => state (config s) <> MENU)).
  - intros i s _ Hs C. apply Hs. exact (state_step i s C).
  - intros ints s Hs. rewrite config_updateControls. exact Hs.
  - intros v s Hs. exact Hs.
Qed.

(** The number of moves sent by a run of frames of a multiplayer game. *)
Lemma sentMoves_frames (evs : list FrameEvents) :
  forall g : Stage,
    mode (config (scene g)) = MULTIPLAYER ->
    state (config (scene g)) <> MENU ->
    frameNumber (frames physics_step evs g)
    = (frameNumber g + Z.of_nat (length evs))%Z
    /\ Z.of_nat (length (sentMoves (frames physics_step evs g)))
       = (Z.of_nat (length (sentMoves g))
          + Z.of_nat
              (length
                 (filter (fun k => (Z.rem k 5 =? 0)%Z)
                    (map (fun k => (frameNumber g + Z.of_nat k)%Z)
                       (seq 0 (length evs))))))%Z.
Proof.
  induction evs as [|ev evs IH]; intros g Hm Hs.
  - cbn. split; lia.
  - destruct (animate_stage ev g) as (EN & _ & _ & _ & _ & _ & EM).
    cbv zeta in EM. rewrite Hm in EM.
    apply STATE_eqb_neq in Hs as Hs'. rewrite Hs' in EM. cbn [negb andb] in EM.
    destruct (IH (animate physics_step ev g) (mode_animate ev g _ Hm)
                (state_animate ev g Hs)) as [IN IM].
    change (frames physics_step (ev :: evs) g)
      with (frames physics_step evs (animate physics_step ev g)).
    rewrite IN, IM, EN, EM. cbn [length seq map filter].
    rewrite Z.add_0_r, length_app.
    rewrite <- seq_shift, map_map.
    assert (Emap : map (fun k => (frameNumber g + 1 + Z.of_nat k)%Z)
                     (seq 0 (length evs))
                   = map (fun k => (frameNumber g + Z.of_nat (S k))%Z)
                       (seq 0 (length evs))).
    { apply map_ext. intros k. lia. }
    rewrite Emap.
    destruct (Z.rem (frameNumber g) 5 =? 0)%Z; cbn [length]; split; lia.
Qed.

(** X18: the paddle position is sent to the peer on every fifth frame.  In a
    multiplayer game that has left the menu, a frame calls [sendMove] exactly
    when [frameNumber] is a multiple of 5, so any five consecutive frames
    send exactly one move; in singleplayer mode no frame sends one.  Every
    frame increases [frameNumber] by one.  The scene is one in which the
    ball is there when a frame uses it ([ballReady]). *)
Theorem sendMove_every_fifth_frame (evs : list FrameEvents) (g : Stage) :
  ballReady (scene g) ->
  (0 <= frameNumber g)%Z ->
  state (config (scene g)) <> MENU ->
  let g' := frames physics_step evs g in
  frameNumber g' = (frameNumber g + Z.of_nat (length evs))%Z
  /\ (mode (config (scene g)) = SINGLEPLAYER -> sentMoves g' = sentMoves g)
  /\ (mode (config (scene g)) = MULTIPLAYER -> length evs = 5%nat ->
      length (sentMoves g') = S (length (sentMoves g)))
  /\ (mode (config (scene g)) = MULTIPLAYER -> forall ev,
      length (sentMoves (animate physics_step ev g))
      = if (Z.rem (frameNumber g) 5 =? 0)%Z
        then S (length (sentMoves g))
        else length (sentMoves g)).
Proof.
  intros _ Hn Hs g'. subst g'.
  split; [|split; [|split]].
  - clear Hn. revert g Hs. induction evs as [|ev evs IH]; intros g Hs.
    + cbn. lia.
    + change (frames physics_step (ev :: evs) g)
        with (frames physics_step evs (animate physics_step ev g)).
      rewrite (IH _ (state_animate ev g Hs)).
      destruct (animate_stage ev g) as (EN & _). rewrite EN.
      cbn [length]. lia.
  - intros Hm. clear Hn. revert g Hs Hm.
    induction evs as [|ev evs IH]; intros g Hs Hm; [reflexivity|].
    change (frames physics_step (ev :: evs) g)
      with (frames physics_step evs (animate physics_step ev g)).
    rewrite (IH _ (state_animate ev g Hs) (mode_animate ev g _ Hm)).
    destruct (animate_stage ev g) as (_ & _ & _ & _ & _ & _ & EM).
    cbv zeta in EM. rewrite Hm in EM. rewrite andb_false_r in EM.
    cbv iota in EM. rewrite EM. apply app_nil_r.
  - intros Hm Hl.
    destruct (sentMoves_frames evs g Hm Hs) as [_ E].
    rewrite Hl in E. cbn [seq map filter] in E.
    rewrite !Z.add_0_r in E.
    assert (Hrem : forall k, (0 <= k)%Z ->
              (Z.rem k 5 =? 0)%Z = (k mod 5 =? 0)%Z)
      by (intros k Hk; rewrite Z.rem_mod_nonneg by lia; reflexivity).
    cbn [Z.of_nat Pos.of_succ_nat Pos.succ] in E.
    rewrite !Hrem in E by lia.
    revert E.
    repeat match goal with
           | |- context [(?a mod 5 =? 0)%Z] =>
               destruct (Z.eqb_spec (a mod 5) 0)
           end;
      cbn [length]; intros E; Z.to_euclidean_division_equations; lia.
  - intros Hm ev.
    destruct (animate_stage ev g) as (_ & _ & _ & _ & _ & _ & EM).
    cbv zeta in EM. rewrite Hm in EM.
    apply STATE_eqb_neq in Hs. rewrite Hs in EM. cbn [negb andb] in EM.
    rewrite EM, length_app.
    destruct (Z.rem (frameNumber g) 5 =? 0)%Z; cbn [length]; lia.
Qed.

Lemma timerView_updateControls (ints : list Vector3) (s : Scene) :
  timerView (updateControls ints s) = timerView s.
Proof.
  unfold updateControls. cbv zeta.
  destruct (hitTween _); [destruct (lastHitPosition _)|]; reflexivity.
Qed.

(** X19: the invariants of the ball and of the timers hold over any run of
    frames.  When the ball is there where a frame uses it ([ballReady]), at
    most one reset timer is pending (the one whose handle [resetBallTimeout]
    holds) and none while the game is over, the same is true after any
    number of frames of [animate], whatever collisions, physics steps and due
    timers the frames bring. *)
Theorem frames_keep_timers (evs : list FrameEvents) (g : Stage) :
  ballReady (scene g) ->
  timersOk (scene g) ->
  let g' := frames physics_step evs g in
  ballReady (scene g')
  /\ timersOk (scene g')
  /\ (length (timeouts (time (scene g'))) <= 1)%nat
  /\ (state (config (scene g')) = GAME_OVER ->
      timeouts (time (scene g')) = []).
Proof.
  intros Hb Hg g'.
  split; [apply ballReady_frames; exact Hb|].
  assert (Hg' : timersOk (scene g')).
  { subst g'. apply (frames_scene_inv timersOk); try exact Hg.
    - intros i s _. apply timersOk_step.
    - intros ints s Hs.
      exact (timersOk_ext _ _ (timerView_updateControls ints s) Hs).
    - intros v s Hs. exact Hs. }
  clearbody g'. split; [exact Hg'|].
  split; [|exact (proj2 Hg')].
  destruct Hg' as [[E | [h [E _]]] _]; rewrite E; cbn; lia.
Qed.

Lemma controlsView_step (i : Input) (s : Scene) :
  isFrameInput i = true -> controlsView (step i s) = controlsView s.
Proof.
  intros Hi. unfold controlsView.
  rewrite (config_step_field tableWidth) by reflexivity.
  rewrite (config_step_field tableHeight) by reflexivity.
  rewrite (config_step_field tableDepth) by reflexivity.
  rewrite (config_step_field tablePositionZ) by reflexivity.
  assert (E : (display (step i s), controlMode (step i s),
               controllerVisible (step i s), managerModeVR (step i s),
               pointerIsLocked (step i s), mousePosition (step i s),
               ghostPaddlePosition (step i s), paddle_position (step i s))
              = (display s, controlMode s, controllerVisible s,
                 managerModeVR s, pointerIsLocked s, mousePosition s,
                 ghostPaddlePosition s, paddle_position s)).
  { destruct i; try discriminate Hi; clear Hi; cbn [step];
      unfold onBallPaddleCollision, onBallTableCollision,
        timeoutElapsed, resetTimeoutEnded, intervalElapsed,
        countdown_callback, updateBall;
      exec'; reflexivity. }
  rewrite E. reflexivity.
Qed.

Lemma controlsView_run (inputs : list Input) (s : Scene) :
  forallb isFrameInput inputs = true ->
  controlsView (run inputs s) = controlsView s.
Proof.
  intros Hi.
  apply (run_inv (fun a => controlsView a = controlsView s));
    [|exact Hi | reflexivity].
  intros i a Hia Ha. rewrite controlsView_step; assumption.
Qed.

Lemma mouseMove_collision (s : Scene) :
  mouseMoveSinceLastFrame (step BallPaddleCollision s)
  = mouseMoveSinceLastFrame s.
Proof.
  cbn [step]. unfold onBallPaddleCollision. exec; reflexivity.
Qed.

Lemma computePaddlePosition_ext (ints : list Vector3) (s s' : Scene) :
  controlsView s = controlsView s' ->
  mouseMoveSinceLastFrame s = mouseMoveSinceLastFrame s' ->
  computePaddlePosition ints s = computePaddlePosition ints s'.
Proof.
  unfold controlsView. intros E Em.
  injection E as E1 E2 E3 E4 E5 E6 E7 E8 E9 E10 E11 E12.
  unfold computePaddlePosition.
  rewrite E1, E2, E3, E5, E6, E7, E8, E9, E10, E11, E12, Em. reflexivity.
Qed.

Lemma cap_idem (value cap1 cap2 : Q) :
  cap (cap value cap1 cap2) cap1 cap2 == cap value cap1 cap2.
Proof.
  destruct (cap_bounds value cap1 cap2) as [H1 H2].
  set (w := cap value cap1 cap2) in *. clearbody w. unfold cap.
  assert (Hlu : Qmin cap1 cap2 <= Qmax cap1 cap2)
    by (apply Qle_trans with w; assumption).
  rewrite Q.max_r by (apply Q.min_glb; assumption).
  apply Q.min_r. exact H2.
Qed.

Lemma cap_Qeq (v v' cap1 cap2 : Q) :
  v == v' -> cap v cap1 cap2 == cap v' cap1 cap2.
Proof. intros E. unfold cap. rewrite E. reflexivity. Qed.

(** The target of the paddle when the pointer is locked. *)
Lemma computePaddlePosition_locked (ints : list Vector3) (s : Scene) :
  pointerIsLocked s = true ->
  display s && CONTROLMODE_eqb (controlMode s) VR = false ->
  let x' := cap (x (ghostPaddlePosition s)
                 + 0.0015 * fst (mouseMoveSinceLastFrame s))
              (tableWidth (config s)) (- tableWidth (config s)) in
  let z' := cap (z (ghostPaddlePosition s)
                 + 0.0015 * snd (mouseMoveSinceLastFrame s))
              (tablePositionZ (config s) + 0.5) 0 in
  computePaddlePosition ints s
  = {| x := x';
       y := if Qeq_bool (tableHeight (config s) + 0.24) 0
            then tableHeight (config s) + 0.1 - z' * 0.2
            else tableHeight (config s) + 0.24;
       z := z' |}.
Proof.
  intros Hl Hd. unfold computePaddlePosition. rewrite Hl, Hd. reflexivity.
Qed.

(** What selects the source of the controls is not changed by a frame. *)
Lemma controls_source_animate (ev : FrameEvents) (g : Stage) :
  let s := scene g in
  let s' := scene (animate physics_step ev g) in
  display s' = display s
  /\ controlMode s' = controlMode s
  /\ pointerIsLocked s' = pointerIsLocked s
  /\ mousePosition s' = mousePosition s
  /\ tableWidth (config s') = tableWidth (config s)
  /\ tableHeight (config s') = tableHeight (config s)
  /\ tablePositionZ (config s') = tablePositionZ (config s).
Proof.
  cbv zeta.
  apply (animate_scene_inv
           (fun a =>
              display a = display (scene g)
              /\ controlMode a = controlMode (scene g)
              /\ pointerIsLocked a = pointerIsLocked (scene g)
              /\ mousePosition a = mousePosition (scene g)
              /\ tableWidth (config a) = tableWidth (config (scene g))
              /\ tableHeight (config a) = tableHeight (config (scene g))
              /\ tablePositionZ (config a)
                 = tablePositionZ (config (scene g)))).
  - intros i a Hi Ha. pose proof (controlsView_step i a Hi) as E.
    unfold controlsView in E.
    injection E as E1 E2 E3 E4 E5 E6 E7 E8 E9 E10 E11 E12.
    rewrite E1, E2, E5, E6, E9, E10, E12. exact Ha.
  - intros ints a Ha. rewrite config_updateControls.
    unfold updateControls. cbv zeta.
    destruct (hitTween _); [destruct (lastHitPosition _)|]; exact Ha.
  - intros v a Ha. exact Ha.
  - repeat split; reflexivity.
Qed.

(** X20: a frame reads the controls once.  In a frame of a game that has
    left the menu, [ghostPaddlePosition] becomes what [computePaddlePosition]
    makes of the scene before the frame, the paddle is put there unless a
    hit animation moves it, and the mouse movements accumulated since the
    last frame are reset to 0.  So with a locked pointer a mouse movement
    moves the paddle once: in the next frame, without new movement, the
    target stays where it is.  The scene is one in which the ball is there
    when a frame uses it ([ballReady]). *)
Theorem frame_reads_controls_once (ev : FrameEvents) (g : Stage) :
  ballReady (scene g) ->
  state (config (scene g)) <> MENU ->
  let s := scene g in
  let s' := scene (animate physics_step ev g) in
  let pos := computePaddlePosition (frame_intersects ev) s in
  ghostPaddlePosition s' = pos
  /\ mouseMoveSinceLastFrame s' = (0, 0)
  /\ (hitTween s = false -> ballReachesPaddle s = false ->
      paddle_position s' = pos)
  /\ (pointerIsLocked s = true ->
      display s && CONTROLMODE_eqb (controlMode s) VR = false ->
      forall ev2,
        Vector3_eq
          (ghostPaddlePosition
             (scene (animate physics_step ev2 (animate physics_step ev g))))
          pos).
Proof.
  intros _ Hs s s' pos.
  assert (Frame : forall ev0 g0,
            state (config (scene g0)) <> MENU ->
            ghostPaddlePosition (scene (animate physics_step ev0 g0))
            = computePaddlePosition (frame_intersects ev0) (scene g0)
            /\ mouseMoveSinceLastFrame (scene (animate physics_step ev0 g0))
               = (0, 0)
            /\ (hitTween (scene g0) = false ->
                ballReachesPaddle (scene g0) = false ->
                paddle_position (scene (animate physics_step ev0 g0))
                = computePaddlePosition (frame_intersects ev0) (scene g0))).
  { clear. intros ev0 g0 Hs0.
    set (p0 := computePaddlePosition (frame_intersects ev0) (scene g0)).
    split; [|split].
    - apply (animate_scene_after_controls
               (fun a => ghostPaddlePosition a = p0)).
      + intros i a Hi Ha. pose proof (controlsView_step i a Hi) as E.
        unfold controlsView in E.
        injection E as _ _ _ _ _ _ E7 _ _ _ _ _. rewrite E7. exact Ha.
      + intros v a Ha. exact Ha.
      + cbv zeta.
        assert (Ec : state (config (step BallPaddleCollision (scene g0)))
                     = state (config (scene g0))).
        { cbn [step]. destruct (ball (scene g0)); [|reflexivity].
          destruct (ballReachesPaddle (scene g0)); [|reflexivity].
          rewrite config_onBallPaddleCollision. reflexivity. }
        rewrite Ec.
        assert (Ep : ghostPaddlePosition
                       (updateControls (frame_intersects ev0)
                          (step BallPaddleCollision (scene g0))) = p0).
        { unfold updateControls. cbv zeta.
          assert (E : computePaddlePosition (frame_intersects ev0)
                        (step BallPaddleCollision (scene g0)) = p0).
          { apply computePaddlePosition_ext.
            - apply controlsView_step. reflexivity.
            - apply mouseMove_collision. }
          rewrite E.
          destruct (hitTween _); [destruct (lastHitPosition _)|];
            reflexivity. }
        destruct (state (config (scene g0))); first [exact Ep | congruence].
    - rewrite animate_scene. reflexivity.
    - intros Ht Hr.
      apply (animate_scene_after_controls
               (fun a => paddle_position a = p0)).
      + intros i a Hi Ha. pose proof (controlsView_step i a Hi) as E.
        unfold controlsView in E.
        injection E as _ _ _ _ _ _ _ E8 _ _ _ _. rewrite E8. exact Ha.
      + intros v a Ha. exact Ha.
      + cbv zeta.
        assert (E1 : step BallPaddleCollision (scene g0) = scene g0).
        { cbn [step]. rewrite Hr. destruct (ball (scene g0)); reflexivity. }
        rewrite E1.
        assert (Ep : paddle_position
                       (updateControls (frame_intersects ev0) (scene g0))
                     = p0).
        { unfold updateControls. cbv zeta.
          destruct (hitTween _) eqn:E; [|reflexivity].
          change (hitTween (scene g0) = true) in E. congruence. }
        destruct (state (config (scene g0))); first [exact Ep | congruence]. }
  destruct (Frame ev g Hs) as (F1 & F2 & F3).
  split; [exact F1|]. split; [exact F2|]. split; [exact F3|].
  intros Hl Hd ev2.
  destruct (Frame ev2 (animate physics_step ev g) (state_animate ev g Hs))
    as (G1 & _).
  rewrite G1. clear G1 F3 Frame. fold s'.
  pose proof (controls_source_animate ev g) as Ec. cbv zeta in Ec.
  destruct Ec as (E1 & E2 & E5 & _ & E7 & E8 & E10).
  fold s s' in E1, E2, E5, E7, E8, E10.
  assert (Hl' : pointerIsLocked s' = true) by (rewrite E5; exact Hl).
  assert (Hd' : display s' && CONTROLMODE_eqb (controlMode s') VR = false)
    by (rewrite E1, E2; exact Hd).
  rewrite (computePaddlePosition_locked (frame_intersects ev2) s' Hl' Hd').
  fold s s' in F1, F2.
  cbv zeta. rewrite F1, F2, E7, E8, E10. subst pos.
  rewrite (computePaddlePosition_locked (frame_intersects ev) s Hl Hd).
  cbv zeta. clearbody s s'. unfold Vector3_eq. cbn [x y z fst snd].
  set (x0 := cap (x (ghostPaddlePosition s)
                  + 0.0015 * fst (mouseMoveSinceLastFrame s))
               (tableWidth (config s)) (- tableWidth (config s))).
  set (z0 := cap (z (ghostPaddlePosition s)
                  + 0.0015 * snd (mouseMoveSinceLastFrame s))
               (tablePositionZ (config s) + 0.5) 0).
  assert (Ex : cap (x0 + 0.0015 * 0) (tableWidth (config s))
                 (- tableWidth (config s)) == x0).
  { rewrite (cap_Qeq _ x0) by ring. apply cap_idem. }
  assert (Ez : cap (z0 + 0.0015 * 0) (tablePositionZ (config s) + 0.5) 0
               == z0).
  { rewrite (cap_Qeq _ z0) by ring. apply cap_idem. }
  split; [exact Ex|]. split; [|exact Ez].
  destruct (Qeq_bool (tableHeight (config s) + 0.24) 0);
    [rewrite Ez|]; reflexivity.
Qed.

Lemma cap_inside (value hi lo : Q) :
  lo <= value <= hi -> cap value hi lo == value.
Proof.
  intros [H1 H2]. unfold cap.
  assert (Hle : lo <= hi) by (apply Qle_trans with value; assumption).
  rewrite (Q.min_r hi lo Hle), (Q.max_l hi lo Hle).
  rewrite (Q.min_r hi value H2). apply Q.max_r. exact H1.
Qed.

Lemma cap_above (value hi lo : Q) :
  lo <= hi -> hi <= value -> cap value hi lo == hi.
Proof.
  intros Hle Hv. unfold cap.
  rewrite (Q.min_r hi lo Hle), (Q.max_l hi lo Hle).
  rewrite (Q.min_l hi value Hv). apply Q.max_r. exact Hle.
Qed.

Lemma cap_below (value hi lo : Q) :
  lo <= hi -> value <= lo -> cap value hi lo == lo.
Proof.
  intros Hle Hv. unfold cap.
  rewrite (Q.min_r hi lo Hle), (Q.max_l hi lo Hle).
  assert (Hh : value <= hi) by (apply Qle_trans with lo; assumption).
  rewrite (Q.min_r hi value Hh). apply Q.max_l. exact Hv.
Qed.

Lemma Qdiv_unit_interval (a b : Q) :
  0 < b -> 0 <= a <= b -> 0 <= a / b <= 1.
Proof.
  intros Hb [H0 H1]. split.
  - apply Qle_shift_div_l; [exact Hb | lra].
  - apply Qle_shift_div_r; [exact Hb | lra].
Qed.

(** X21: the mouse listener.  A mouse event is ignored as long as the paddle
    is not loaded or the canvas has not been measured.  With a locked
    pointer the movement is added to the deltas of the frame and the mouse
    position is left alone; otherwise the position of the event is
    normalised by the (positive) size of the canvas: for an event inside the canvas both
    coordinates are between -0.5 and 0.5, and (desktop controls, a
    non-negative table width) the x coordinate of the paddle target is
    [1.4 * mousePosition.x * tableWidth], within 0.7 table widths of the
    centre, so that the clamp to the table does not alter it. *)
Theorem mouse_event_normalised (movementX movementY offsetX offsetY : Q)
    (g : Stage) :
  let g' := Stage_onMouseMove movementX movementY offsetX offsetY g in
  (paddleLoaded g = false \/ viewport g = None -> g' = g)
  /\ forall width height,
       paddleLoaded g = true ->
       viewport g = Some (width, height) ->
       (pointerIsLocked (scene g) = true ->
        mouseMoveSinceLastFrame (scene g')
        = (fst (mouseMoveSinceLastFrame (scene g)) + movementX,
           snd (mouseMoveSinceLastFrame (scene g)) + movementY)
        /\ mousePosition (scene g') = mousePosition (scene g))
       /\ (pointerIsLocked (scene g) = false ->
           mouseMoveSinceLastFrame (scene g')
           = mouseMoveSinceLastFrame (scene g)
           /\ (0 < width -> 0 < height ->
               mousePosition (scene g')
               = (offsetX / width - 0.5, - (offsetY / height - 0.5)))
           /\ (0 < width -> 0 <= offsetX <= width ->
               - (1 # 2) <= fst (mousePosition (scene g')) <= 1 # 2)
           /\ (0 < height -> 0 <= offsetY <= height ->
               - (1 # 2) <= snd (mousePosition (scene g')) <= 1 # 2)
           /\ (0 < width -> 0 <= offsetX <= width ->
               0 <= tableWidth (config (scene g)) ->
               display (scene g)
               && CONTROLMODE_eqb (controlMode (scene g)) VR = false ->
               forall ints,
                 let px := x (computePaddlePosition ints (scene g')) in
                 px == 1.4 * (offsetX / width - 0.5)
                       * tableWidth (config (scene g))
                 /\ - (0.7 * tableWidth (config (scene g))) <= px
                    <= 0.7 * tableWidth (config (scene g)))).
Proof.
  cbv zeta. unfold Stage_onMouseMove. split.
  - intros [Hp | Hv]; [rewrite Hp; reflexivity|].
    rewrite Hv. destruct (negb (paddleLoaded g)); reflexivity.
  - intros width height Hp Hv. rewrite Hp, Hv. cbn [negb scene put_scene].
    unfold onMouseMove. split.
    + intros Hl. rewrite Hl. split; reflexivity.
    + intros Hl. rewrite Hl.
      split; [reflexivity|]. split; [intros _ _; reflexivity|].
      cbn [mousePosition set_mousePosition fst snd].
      split; [|split].
      * intros Hw Ho.
        destruct (Qdiv_unit_interval offsetX width Hw Ho) as [H0 H1].
        split; lra.
      * intros Hh Ho.
        destruct (Qdiv_unit_interval offsetY height Hh Ho) as [H0 H1].
        split; lra.
      * intros Hw Ho Ht Hd ints.
        destruct (Qdiv_unit_interval offsetX width Hw Ho) as [H0 H1].
        unfold computePaddlePosition.
        cbn [display controlMode pointerIsLocked set_mousePosition
               mousePosition config fst snd].
        rewrite Hd, Hl. cbn [x].
        set (W := tableWidth (config (scene g))) in *.
        set (r := offsetX / width) in *. clearbody r W.
        assert (Hin : - W <= 1.4 * (r - 0.5) * W <= W) by (split; nra).
        rewrite (cap_inside _ _ _ Hin).
        split; [reflexivity | split; nra].
Qed.

(** X22: the tilt of the paddle.  [computePaddleRotation] turns the paddle
    about the z axis by minus the x coordinate of its position, limited to a
    quarter turn either way: the angle is [-pos.x] while that is within
    [-PI/2, PI/2], [-PI/2] beyond on one side and [PI/2] on the other.  The
    rotation about x is [pos.z - (tablePositionZ + tableDepth / 2)] and the
    one about y is 0; [updateControls] assigns the x and z rotations of the
    paddle from its new position and leaves its y rotation alone. *)
Theorem paddle_tilt_is_limited (pos : Vector3) (s : Scene) :
  let r := computePaddleRotation pos s in
  y r = 0
  /\ x r == z pos - (tablePositionZ (config s) + tableDepth (config s) / 2)
  /\ - Math_PI / 2 <= z r <= Math_PI / 2
  /\ (- Math_PI / 2 <= x pos <= Math_PI / 2 -> z r == - x pos)
  /\ (Math_PI / 2 <= x pos -> z r == - Math_PI / 2)
  /\ (x pos <= - Math_PI / 2 -> z r == Math_PI / 2)
  /\ forall ints g,
       let g' := Stage_updateControls ints g in
       let r' := computePaddleRotation (paddle_position (scene g'))
                   (scene g') in
       scene g' = updateControls ints (scene g)
       /\ paddle_rotation g'
          = {| x := x r'; y := y (paddle_rotation g); z := z r' |}.
Proof.
  cbv zeta. cbn [computePaddleRotation x y z].
  assert (Hpi : - Math_PI / 2 <= Math_PI / 2) by (vm_compute; discriminate).
  split; [reflexivity|]. split; [ring|].
  split.
  { destruct (cap_bounds (- x pos) (- Math_PI / 2) (Math_PI / 2)) as [H1 H2].
    rewrite (Q.min_l _ _ Hpi) in H1. rewrite (Q.max_r _ _ Hpi) in H2.
    split; assumption. }
  assert (Hswap : forall v, cap v (- Math_PI / 2) (Math_PI / 2)
                            == cap v (Math_PI / 2) (- Math_PI / 2)).
  { intros v. unfold cap.
    rewrite (Q.min_comm (- Math_PI / 2)), (Q.max_comm (- Math_PI / 2)).
    reflexivity. }
  split; [|split; [|split]].
  - intros [H1 H2]. rewrite Hswap. apply cap_inside.
    unfold Qdiv in *. split; lra.
  - intros H1. rewrite Hswap. rewrite cap_below; [reflexivity | exact Hpi|].
    unfold Qdiv in *. lra.
  - intros H1. rewrite Hswap. rewrite cap_above; [reflexivity | exact Hpi|].
    unfold Qdiv in *. lra.
  - intros ints g. split; reflexivity.
Qed.

End Frames.


Lemma sendMove_every_fifth_frame_witness :
  let evs := map quietFrame [16; 32; 48; 64; 80]%Z in
  let g' := @frames exampleWorld exampleStep evs playingStage in
  ballReady (scene playingStage)
  /\ (0 <= frameNumber playingStage)%Z
  /\ state (config (scene playingStage)) <> MENU
  /\ mode (config (scene playingStage)) = MULTIPLAYER
  /\ sentMoves playingStage = []
  /\ length (sentMoves g') = 1%nat
  /\ frameNumber g' = 5%Z.
Proof.
  intros evs g'.
  assert (Hb : ballReady (scene playingStage))
    by (split; [vm_compute; reflexivity
             |intros E; vm_compute in E; discriminate E]).
  split; [exact Hb|].
  assert (Hn : (0 <= frameNumber playingStage)%Z) by (vm_compute; discriminate).
  assert (Hs : state (config (scene playingStage)) <> MENU)
    by (vm_compute; discriminate).
  assert (Hm : mode (config (scene playingStage)) = MULTIPLAYER)
    by (vm_compute; reflexivity).
  split; [exact Hn|]. split; [exact Hs|]. split; [exact Hm|].
  split; [reflexivity|].
  destruct (@sendMove_every_fifth_frame exampleWorld exampleStep evs
              playingStage Hb Hn Hs) as [En [_ [E5 _]]].
  split; [exact (E5 Hm eq_refl) | exact En].
Defined.

Lemma frames_keep_timers_witness :
  let evs := [{| timestamp := 16; frame_intersects := [];
                 tableCollisions := []; due := [DueTimeout 1] |};
              quietFrame 32] in
  let g' := @frames exampleWorld exampleStep evs playingStage in
  ballReady (scene playingStage)
  /\ timersOk (scene playingStage)
  /\ ballReady (scene g')
  /\ (length (timeouts (time (scene g'))) <= 1)%nat.
Proof.
  intros evs g'.
  assert (Hb : ballReady (scene playingStage))
    by (split; [vm_compute; reflexivity
             |intros E; vm_compute in E; discriminate E]).
  assert (Hg : timersOk (scene playingStage))
    by (split; [left; vm_compute; reflexivity
               |intros _; vm_compute; reflexivity]).
  split; [exact Hb|]. split; [exact Hg|].
  destruct (@frames_keep_timers exampleWorld exampleStep evs playingStage
              Hb Hg) as [W1 [_ [W2 _]]].
  split; [exact W1 | exact W2].
Defined.

Lemma frame_reads_controls_once_witness :
  let g := Stage_onMouseMove 0 0 600 150 playingStage in
  let s' := scene (@animate exampleWorld exampleStep (quietFrame 16) g) in
  ballReady (scene g)
  /\ state (config (scene g)) <> MENU
  /\ mousePosition (scene g) = (600 / 800 - 0.5, - (150 / 600 - 0.5))
  /\ ghostPaddlePosition s'
     = computePaddlePosition [] (scene g)
  /\ x (computePaddlePosition [] (scene g)) == 0.525
  /\ mouseMoveSinceLastFrame s' = (0, 0).
Proof.
  intros g s'.
  assert (Hb : ballReady (scene g))
    by (split; [vm_compute; reflexivity
             |intros E; vm_compute in E; discriminate E]).
  assert (Hs : state (config (scene g)) <> MENU)
    by (vm_compute; discriminate).
  split; [exact Hb|].
  split; [exact Hs|]. split; [vm_compute; reflexivity|].
  destruct (@frame_reads_controls_once exampleWorld exampleStep
              (quietFrame 16) g Hb Hs) as [E1 [E2 _]].
  split; [exact E1|]. split; [vm_compute; reflexivity | exact E2].
Defined.

Lemma mouse_event_normalised_witness :
  let g := playingStage in
  let g' := Stage_onMouseMove 0 0 600 150 g in
  paddleLoaded g = true
  /\ viewport g = Some (800, 600)
  /\ pointerIsLocked (scene g) = false
  /\ 0 < 800 /\ 0 <= 600 <= 800
  /\ - (1 # 2) <= fst (mousePosition (scene g')) <= 1 # 2
  /\ x (computePaddlePosition [] (scene g')) == 1.4 * (600 / 800 - 0.5) * 1.5.
Proof.
  intros g g'.
  assert (Hp : paddleLoaded g = true) by reflexivity.
  assert (Hv : viewport g = Some (800, 600)) by reflexivity.
  assert (Hl : pointerIsLocked (scene g) = false)
    by (vm_compute; reflexivity).
  assert (Hw : 0 < 800) by reflexivity.
  assert (Ho : 0 <= 600 <= 800) by (split; vm_compute; discriminate).
  split; [exact Hp|]. split; [exact Hv|]. split; [exact Hl|].
  split; [exact Hw|]. split; [exact Ho|].
  destruct (mouse_event_normalised 0 0 600 150 g) as [_ W].
  destruct (W 800 600 Hp Hv) as [_ W2].
  destruct (W2 Hl) as [_ [_ [Hx [_ Hpx]]]].
  split; [exact (Hx Hw Ho)|].
  assert (Ht : 0 <= tableWidth (config (scene g)))
    by (vm_compute; discriminate).
  assert (Hd : display (scene g)
               && CONTROLMODE_eqb (controlMode (scene g)) VR = false)
    by (vm_compute; reflexivity).
  destruct (Hpx Hw Ho Ht Hd []) as [E _].
  apply (Qeq_trans _ _ _ E). vm_compute. reflexivity.
Defined.

Lemma paddle_tilt_is_limited_witness :
  let pos := {| x := 1; y := 0.94; z := 0 |} in
  let r := computePaddleRotation pos (exampleScene SINGLEPLAYER) in
  - Math_PI / 2 <= x pos <= Math_PI / 2
  /\ z r == - 1
  /\ x r == - 4.
Proof.
  intros pos r.
  assert (Hin : - Math_PI / 2 <= x pos <= Math_PI / 2)
    by (split; vm_compute; discriminate).
  split; [exact Hin|].
  destruct (paddle_tilt_is_limited pos (exampleScene SINGLEPLAYER))
    as [_ [Ex [_ [Ez _]]]].
  split; [exact (Ez Hin)|].
  apply (Qeq_trans _ _ _ Ex). vm_compute. reflexivity.
Defined.
